(** * Freak-n-Fries website: settings resolution, data access and static export

    A shallow embedding of [app.py], [freeze.py], [setup.py] and [wsgi.py].
    Python statements are embedded in a small state-and-control monad
    ([Python.M]): a statement either completes, returns from the enclosing
    function, or raises.  The
    SQLite engine, the Flask template renderer and the Frozen-Flask freezer
    are collaborators outside the repository; the first is modelled by the
    documented semantics of the handful of statements the application issues
    ([Sqlite]), the other two are section variables. *)

From Stdlib Require Import ZArith.
From stdpp Require Import base option list strings pretty gmap fin_maps sorting.

Local Open Scope Z_scope.
Local Open Scope string_scope.

(** ** Python runtime: values, exceptions, statements *)

Module Python.

(** The Python values that [sqlite3] hands to the application: [None] for NULL,
    [int] for INTEGER, [str] for TEXT and [bytes] for BLOB.  (REAL columns are
    outside the model.) *)
Inductive pyval :=
| PyNone
| PyInt (z : Z)
| PyStr (s : string)
| PyBytes (b : string).

#[global] Instance pyval_eq_dec : EqDecision pyval.
Proof. solve_decision. Defined.

Definition pyval_encode (v : pyval) : unit + Z + string + string :=
  match v with
  | PyNone => inl (inl (inl tt))
  | PyInt z => inl (inl (inr z))
  | PyStr s => inl (inr s)
  | PyBytes b => inr b
  end.

Definition pyval_decode (x : unit + Z + string + string) : pyval :=
  match x with
  | inl (inl (inl _)) => PyNone
  | inl (inl (inr z)) => PyInt z
  | inl (inr s) => PyStr s
  | inr b => PyBytes b
  end.

#[global] Instance pyval_countable : Countable pyval.
Proof.
  apply (inj_countable' pyval_encode pyval_decode).
  by intros [].
Defined.

(** Exceptions, by the classes the handlers of the program tell apart.  All of
    them derive from [Exception]. *)
Inductive exn :=
| SqliteError (msg : string)          (* sqlite3.Error and its subclasses *)
| ImportError (msg : string)
| FileNotFoundError (msg : string)
| IndexError (msg : string)
| OtherException (cls msg : string).

(** [str(e)], as interpolated by the f-strings of the handlers. *)
Definition exn_str (e : exn) : string :=
  match e with
  | SqliteError m | ImportError m | FileNotFoundError m | IndexError m => m
  | OtherException _ m => m
  end.

(** [except sqlite3.Error] *)
Definition is_sqlite_error (e : exn) : bool :=
  match e with SqliteError _ => true | _ => false end.

(** [except Exception] *)
Definition is_exception (e : exn) : bool := true.

(** How a statement ends: it falls through to the next one, it returns from
    the enclosing function, or it raises. *)
Inductive signal (R A : Type) :=
| Next (a : A)
| Ret (r : R)
| Exc (e : exn).
Arguments Next {R A} a.
Arguments Ret {R A} r.
Arguments Exc {R A} e.

(** How a function call ends. *)
Inductive outcome (A : Type) :=
| Return (a : A)
| Raise (e : exn).
Arguments Return {A} a.
Arguments Raise {A} e.

(** Statements over a state [S], inside a function returning [R]. *)
Definition M (S R A : Type) : Type := S → signal R A * S.
(** Functions over a state [S]. *)
Definition Fn (S A : Type) : Type := S → outcome A * S.

Section Statements.
Context {S R : Type}.

Definition next {A} (a : A) : M S R A := λ s, (Next a, s).
Definition ret {A} (r : R) : M S R A := λ s, (Ret r, s).
Definition raise {A} (e : exn) : M S R A := λ s, (Exc e, s).

Definition bind {A B} (m : M S R A) (k : A → M S R B) : M S R B :=
  λ s, match m s with
       | (Next a, s') => k a s'
       | (Ret r, s') => (Ret r, s')
       | (Exc e, s') => (Exc e, s')
       end.

Definition modify (f : S → S) : M S R unit := λ s, (Next tt, f s).
Definition gets {A} (f : S → A) : M S R A := λ s, (Next (f s), s).

(** [try: body  except <handles> as e: handler e] *)
Definition try_except {A} (body : M S R A) (handles : exn → bool)
    (handler : exn → M S R A) : M S R A :=
  λ s, match body s with
       | (Exc e, s') => if handles e then handler e s' else (Exc e, s')
       | r => r
       end.

(** [try: body  finally: fin].  The [finally] block runs on every exit; a
    return or an exception of its own replaces the pending one. *)
Definition try_finally {A} (body : M S R A) (fin : M S R unit) : M S R A :=
  λ s, match body s with
       | (r, s') =>
           match fin s' with
           | (Next _, s'') => (r, s'')
           | (Ret v, s'') => (Ret v, s'')
           | (Exc e, s'') => (Exc e, s'')
           end
       end.

(** [for x in l: body x] *)
Fixpoint for_each {A} (l : list A) (body : A → M S R unit) : M S R unit :=
  match l with
  | [] => next tt
  | x :: l' => bind (body x) (λ _, for_each l' body)
  end.

(** [for x in l: acc = body acc x], for a loop that updates one local. *)
Fixpoint for_fold {A B} (l : list A) (acc : B) (body : B → A → M S R B)
    : M S R B :=
  match l with
  | [] => next acc
  | x :: l' => bind (body acc x) (λ acc', for_fold l' acc' body)
  end.

(** The value of an expression that may raise. *)
Definition eval {A} (o : outcome A) : M S R A :=
  match o with
  | Return a => next a
  | Raise e => raise e
  end.

(** A function body: its value is what it returns. *)
Definition def (body : M S R R) : Fn S R :=
  λ s, match body s with
       | (Next r, s') | (Ret r, s') => (Return r, s')
       | (Exc e, s') => (Raise e, s')
       end.
End Statements.

(** A call, as an expression of the calling function. *)
Definition invoke {S R A} (f : Fn S A) : M S R A :=
  λ s, match f s with
       | (Return a, s') => (Next a, s')
       | (Raise e, s') => (Exc e, s')
       end.

End Python.

Export Python.

Declare Scope py_scope.
Delimit Scope py_scope with py.
Notation "x <- m ;; k" := (bind m (λ x, k))
  (at level 100, m at next level, k at level 200, right associativity,
   only parsing) : py_scope.
Notation "m ;; k" := (bind m (λ _, k))
  (at level 100, k at level 200, right associativity, only parsing) : py_scope.
Local Open Scope py_scope.

(** ** The SQLite collaborator

    SQLite and the [sqlite3] module are not part of the repository.  This is
    the fragment of their documented behaviour the accessors rely on: tables
    whose columns have no declared affinity, holding NULL, INTEGER, TEXT and
    BLOB values; name resolution without regard to ASCII case; [=] and
    [ORDER BY] under the BINARY collation; rows in rowid order when the
    statement has no [ORDER BY]; every failure an [sqlite3.Error]. *)

Module Sqlite.

(** SQLite resolves column names, and [sqlite3.Row] resolves keys, without
    regard to ASCII case. *)
Definition ascii_lower (c : Ascii.ascii) : Ascii.ascii :=
  let n := Ascii.N_of_ascii c in
  if ((65 <=? n) && (n <=? 90))%N then Ascii.ascii_of_N (n + 32) else c.

Fixpoint lower (s : string) : string :=
  match s with
  | EmptyString => EmptyString
  | String c s' => String (ascii_lower c) (lower s')
  end.

Definition same_name (a b : string) : Prop := lower a = lower b.

#[global] Instance same_name_dec a b : Decision (same_name a b).
Proof. unfold same_name. apply _. Defined.

(** A [sqlite3.Row]: the column names of the result with their values, in
    column order. *)
Definition Row : Type := list (string * pyval).

(** [row.keys()] *)
Definition row_keys (r : Row) : list string := r.*1.

Definition row_find (r : Row) (name : string) : option pyval :=
  snd <$> find (λ kv, bool_decide (same_name kv.1 name)) r.

(** [row[name]] *)
Definition row_getitem {S R} (r : Row) (name : string) : M S R pyval :=
  match row_find r name with
  | Some v => next v
  | None => raise (IndexError "No item with that key")
  end.

(** [bool(row)]: a row is a sequence, true when it has a column. *)
Definition row_truthy (r : Row) : bool := negb (Nat.eqb (length r) 0).

(** The value the engine reads in a column of a row. *)
Definition row_get (r : Row) (name : string) : pyval :=
  default PyNone (row_find r name).

(** A table: its declared columns and its records, in rowid order. *)
Record table := Table { columns : list string; records : list (list pyval) }.

(** The database file: its tables, each under its name in lower case.  SQLite
    resolves table names without regard to case, and the statements of the
    application spell them in lower case. *)
Abbreviation Store := (gmap string table).

Definition table_rows (t : table) : list Row := zip (columns t) <$> records t.

Definition has_column (t : table) (name : string) : Prop :=
  Exists (λ c, same_name c name) (columns t).

#[global] Instance has_column_dec t name : Decision (has_column t name).
Proof. unfold has_column. apply _. Defined.

(** The right-hand side of a [WHERE column = ...]. *)
Inductive operand :=
| Literal (v : pyval)
| Placeholder.

(** The statements of the application all have this shape. *)
Record select := Select {
  sel_columns : option (list string);       (* [None] is [SELECT *] *)
  sel_table : string;
  sel_where : option (string * operand);
  sel_order : list string }.

Definition statements : list (string * select) :=
  [ ("SELECT * FROM settings WHERE id = 1",
     Select None "settings" (Some ("id", Literal (PyInt 1))) []);
    ("SELECT key, value FROM settings",
     Select (Some ["key"; "value"]) "settings" None []);
    ("SELECT * FROM pages WHERE slug = ?",
     Select None "pages" (Some ("slug", Placeholder)) []);
    ("SELECT * FROM page_content WHERE page_name = ?",
     Select None "page_content" (Some ("page_name", Placeholder)) []);
    ("SELECT * FROM retailers WHERE category = ? ORDER BY name",
     Select None "retailers" (Some ("category", Placeholder)) ["name"]);
    ("SELECT * FROM retailers ORDER BY category, name",
     Select None "retailers" None ["category"; "name"]);
    ("SELECT * FROM testimonials WHERE active = 1",
     Select None "testimonials" (Some ("active", Literal (PyInt 1))) []);
    ("SELECT * FROM pages ORDER BY slug",
     Select None "pages" None ["slug"]) ].

Definition statement_of (sql : string) : option select :=
  snd <$> find (λ e, bool_decide (e.1 = sql)) statements.

(** [a = b] in a [WHERE] clause: NULL equals nothing; values of one storage
    class compare by value (text bytewise, the BINARY collation); values of
    different storage classes differ (columns without a declared affinity). *)
Definition sql_eq (a b : pyval) : Prop := a ≠ PyNone ∧ a = b.

#[global] Instance sql_eq_dec a b : Decision (sql_eq a b).
Proof. unfold sql_eq. apply _. Defined.

(** The order of [ORDER BY ... ASC]: NULL first, then integers by value, then
    text bytewise, then blobs bytewise. *)
Definition sql_le (a b : pyval) : Prop :=
  match a, b with
  | PyNone, _ => True
  | PyInt x, PyInt y => (x ≤ y)%Z
  | PyInt _, (PyStr _ | PyBytes _) => True
  | PyStr x, PyStr y => String.le x y
  | PyStr _, PyBytes _ => True
  | PyBytes x, PyBytes y => String.le x y
  | _, _ => False
  end.

#[global] Instance sql_le_dec a b : Decision (sql_le a b).
Proof. destruct a, b; simpl; apply _. Defined.

(** Several sort keys compare lexicographically. *)
Fixpoint lex_le (k1 k2 : list pyval) : Prop :=
  match k1, k2 with
  | [], _ => True
  | _ :: _, [] => False
  | a :: k1', b :: k2' => (sql_le a b ∧ a ≠ b) ∨ (a = b ∧ lex_le k1' k2')
  end.

#[global] Instance lex_le_dec k1 k2 : Decision (lex_le k1 k2).
Proof.
  revert k2. induction k1 as [|a k1 IH]; intros [|b k2]; simpl; apply _.
Defined.

Definition order_le (cols : list string) (r1 r2 : Row) : Prop :=
  lex_le (row_get r1 <$> cols) (row_get r2 <$> cols).

#[global] Instance order_le_dec cols r1 r2 : Decision (order_le cols r1 r2).
Proof. unfold order_le. apply _. Defined.

(** The columns a statement names. *)
Definition referenced (q : select) : list string :=
  default [] (sel_columns q) ++ option_list (fst <$> sel_where q) ++ sel_order q.

(** Binding of the [?] parameters. *)
Definition bind_where (q : select) (params : list pyval)
    : option (option (string * pyval)) :=
  match sel_where q, params with
  | None, [] => Some None
  | Some (c, Literal v), [] => Some (Some (c, v))
  | Some (c, Placeholder), [v] => Some (Some (c, v))
  | _, _ => None
  end.

Definition project (cols : option (list string)) (r : Row) : Row :=
  match cols with
  | None => r
  | Some cs => omap (λ c, find (λ kv, bool_decide (same_name kv.1 c)) r) cs
  end.

Definition eval_select (st : Store) (q : select) (params : list pyval)
    : outcome (list Row) :=
  match st !! sel_table q with
  | None => Raise (SqliteError ("no such table: " +:+ sel_table q))
  | Some t =>
      match find (λ c, bool_decide (¬ has_column t c)) (referenced q) with
      | Some c => Raise (SqliteError ("no such column: " +:+ c))
      | None =>
          match bind_where q params with
          | None => Raise (SqliteError "Incorrect number of bindings supplied.")
          | Some w =>
              let rs := table_rows t in
              let rs := match w with
                        | Some (c, v) => filter (λ r, sql_eq (row_get r c) v) rs
                        | None => rs
                        end in
              let rs := match sel_order q with
                        | [] => rs
                        | cs => merge_sort (order_le cs) rs
                        end in
              Return (project (sel_columns q) <$> rs)
          end
      end
  end.

(** [cursor.execute(sql, params).fetchall()] against a store. *)
Definition query (st : Store) (sql : string) (params : list pyval)
    : outcome (list Row) :=
  match statement_of sql with
  | None => Raise (SqliteError "unsupported statement")
  | Some q => eval_select st q params
  end.

End Sqlite.

Export Sqlite.

(** ** app.py *)

Module App.

(** A Python [dict] with the keys and values [sqlite3] can produce. *)
Abbreviation dict := (gmap pyval pyval).

(** A dict display [{k1: v1, ...}]: later items win. *)
Definition dict_of (items : list (pyval * pyval)) : dict :=
  foldl (λ d kv, <[kv.1 := kv.2]> d) ∅ items.

(** What a handler passes to its template. *)
Inductive ctxval :=
| CtxSettings (d : dict)
| CtxRow (r : option Row)
| CtxRows (l : list Row).

Abbreviation context := (gmap string ctxval).

(** What a view returns: a body, and a status (200 unless given). *)
Record response := Response { body : string; status : Z }.

(** The observable steps of a request. *)
Inductive event :=
| Connect
| Execute (sql : string) (params : list pyval)
| Close
| Stdout (line : string)
| Render (template : string) (ctx : context).

(** The process while it serves a request: what it has done so far and
    whether the connection held in the local [conn] is open (the accessors
    hold one connection at a time). *)
Record state := State { log : list event; conn_open : bool }.

(** The database as the application meets it: whether [sqlite3.connect]
    fails, and the outcome of each statement. *)
Record Database := {
  db_connect : option exn;
  db_query : string → list pyval → outcome (list Row) }.

(** A database file with the given tables. *)
Definition sqlite_db (st : Store) : Database :=
  {| db_connect := None; db_query := query st |}.

(** The five recognized settings and their built-in defaults (the literal
    the source repeats at lines 43-47, 65-71, 84-90 and 95-101). *)
Definition defaults : list (string * string) :=
  [ ("company_name", "Freak-n-Fries");
    ("tagline", "Home of the Dutch frikandel in the US");
    ("phone", "440 453 1877");
    ("email", "info@freaknfries.com");
    ("product_name", "Dutch Dawg®") ].

Definition default_settings : dict :=
  dict_of ((λ kv, (PyStr kv.1, PyStr kv.2)) <$> defaults).

Section Accessors.
Variable db : Database.

Definition emit {R} (e : event) : M state R unit :=
  modify (λ s, State (log s ++ [e]) (conn_open s)).

(** [print(line)] *)
Definition print {R} (line : string) : M state R unit := emit (Stdout line).

(** [get_db_connection()]: [sqlite3.connect(DATABASE)] with the [Row]
    factory. *)
Definition get_db_connection : Fn state unit :=
  def (match db_connect db with
       | Some e => raise e
       | None =>
           modify (λ s, State (log s ++ [Connect]) true) ;;
           ret tt
       end).

(** [conn.execute(sql, params).fetchall()] *)
Definition fetchall {R} (sql : string) (params : list pyval)
    : M state R (list Row) :=
  open <- gets conn_open ;;
  if open : bool then
    emit (Execute sql params) ;;
    eval (db_query db sql params)
  else raise (SqliteError "Cannot operate on a closed database.").

(** [conn.execute(sql, params).fetchone()] *)
Definition fetchone {R} (sql : string) (params : list pyval)
    : M state R (option Row) :=
  rows <- fetchall sql params ;;
  next (head rows).

(** [conn.close()] *)
Definition close {R} : M state R unit :=
  modify (λ s, State (log s ++ [Close]) false).

(** [row[k] if k in row.keys() else d] *)
Definition column_or {R} (row : Row) (k d : string) : M state R pyval :=
  if bool_decide (k ∈ row_keys row) then row_getitem row k
  else next (PyStr d).

(** Method 1: the settings table with id=1. *)
Definition method_1 : M state dict unit :=
  try_except
    (settings_row <- fetchone "SELECT * FROM settings WHERE id = 1" [] ;;
     match settings_row with
     | Some row =>
         if row_truthy row then
           company_name <- column_or row "company_name" "Freak-n-Fries" ;;
           tagline <- column_or row "tagline" "Home of the Dutch frikandel in the US" ;;
           phone <- column_or row "phone" "440 453 1877" ;;
           email <- column_or row "email" "info@freaknfries.com" ;;
           product_name <- column_or row "product_name" "Dutch Dawg®" ;;
           let site_settings :=
             dict_of [ (PyStr "company_name", company_name);
                       (PyStr "tagline", tagline);
                       (PyStr "phone", phone);
                       (PyStr "email", email);
                       (PyStr "product_name", product_name) ] in
           close ;;
           ret site_settings
         else next tt
     | None => next tt
     end)
    is_sqlite_error
    (λ e1, print ("Method 1 failed: " +:+ exn_str e1)).

(** Method 2: key-value pairs in the settings table. *)
Definition method_2 : M state dict unit :=
  try_except
    (settings_rows <- fetchall "SELECT key, value FROM settings" [] ;;
     match settings_rows with
     | _ :: _ =>
         site_settings <-
           for_fold settings_rows (∅ : dict) (λ site_settings row,
             value <- row_getitem row "value" ;;
             key <- row_getitem row "key" ;;
             next (<[key := value]> site_settings)) ;;
         (* Ensure all required keys exist *)
         site_settings <-
           for_fold defaults site_settings (λ site_settings kd,
             match site_settings !! PyStr kd.1 with
             | None => next (<[PyStr kd.1 := PyStr kd.2]> site_settings)
             | Some _ => next site_settings
             end) ;;
         close ;;
         ret site_settings
     | [] => next tt
     end)
    is_sqlite_error
    (λ e2, print ("Method 2 failed: " +:+ exn_str e2)).

Definition get_site_settings : Fn state dict :=
  def (
    invoke get_db_connection ;;
    site_settings <-
      try_finally
        (try_except
           (method_1 ;;
            method_2 ;;
            (* Method 3: fallback to default values *)
            print "Using fallback default values" ;;
            next default_settings)
           is_exception
           (λ e,
              print ("Database error in get_site_settings: " +:+ exn_str e) ;;
              next default_settings))
        close ;;
    ret site_settings).

Definition get_page (slug : string) : Fn state (option Row) :=
  def (
    invoke get_db_connection ;;
    try_finally
      (try_except
         (page <- fetchone "SELECT * FROM pages WHERE slug = ?" [PyStr slug] ;;
          ret page)
         is_sqlite_error
         (λ e,
            print ("Error getting page " +:+ slug +:+ ": " +:+ exn_str e) ;;
            ret None))
      close).

Definition get_page_content (page_name : string) : Fn state (option Row) :=
  def (
    invoke get_db_connection ;;
    try_finally
      (try_except
         (content <-
            fetchone "SELECT * FROM page_content WHERE page_name = ?"
              [PyStr page_name] ;;
          ret content)
         is_sqlite_error
         (λ e,
            print ("Error getting page content " +:+ page_name +:+ ": "
                   +:+ exn_str e) ;;
            ret None))
      close).

Definition get_retailers_by_category (category : string)
    : Fn state (list Row) :=
  def (
    invoke get_db_connection ;;
    try_finally
      (try_except
         (retailers <-
            fetchall "SELECT * FROM retailers WHERE category = ? ORDER BY name"
              [PyStr category] ;;
          ret retailers)
         is_sqlite_error
         (λ e,
            print ("Error getting retailers for category " +:+ category
                   +:+ ": " +:+ exn_str e) ;;
            ret []))
      close).

Definition get_all_retailers : Fn state (list Row) :=
  def (
    invoke get_db_connection ;;
    try_finally
      (try_except
         (retailers <-
            fetchall "SELECT * FROM retailers ORDER BY category, name" [] ;;
          ret retailers)
         is_sqlite_error
         (λ e,
            print ("Error getting all retailers: " +:+ exn_str e) ;;
            ret []))
      close).

Definition get_testimonials : Fn state (list Row) :=
  def (
    invoke get_db_connection ;;
    try_finally
      (try_except
         (testimonials <-
            fetchall "SELECT * FROM testimonials WHERE active = 1" [] ;;
          ret testimonials)
         is_sqlite_error
         (λ e,
            print ("Error getting testimonials: " +:+ exn_str e) ;;
            ret []))
      close).

(** The context processor: settings under both names the templates use. *)
Definition inject_global_vars : Fn state context :=
  def (
    site_settings <- invoke get_site_settings ;;
    ret ({[ "site_settings" := CtxSettings site_settings;
            "settings" := CtxSettings site_settings ]} : context)).

(** The template engine; the templates are not part of the program. *)
Variable jinja : string → context → outcome string.

(** Flask's [render_template(name, **ctx)]: the context processors run
    first, keyword arguments take precedence over what they inject. *)
Definition render_template (name : string) (ctx : context) : Fn state string :=
  def (
    injected <- invoke inject_global_vars ;;
    let ctx' : context := ctx ∪ injected in
    emit (Render name ctx') ;;
    text <- eval (jinja name ctx') ;;
    ret text).

(** The home page. *)
Definition index : Fn state response :=
  def (
    try_except
      (site_settings <- invoke get_site_settings ;;
       home_content <- invoke (get_page_content "home") ;;
       testimonials <- invoke get_testimonials ;;
       let testimonial := head testimonials in
       text <-
         invoke (render_template "index.html"
           ({[ "site_settings" := CtxSettings site_settings;
               "settings" := CtxSettings site_settings;
               "home_content" := CtxRow home_content;
               "testimonial" := CtxRow testimonial ]} : context)) ;;
       ret (Response text 200))
      is_exception
      (λ e,
         print ("Error in index route: " +:+ exn_str e) ;;
         ret (Response ("Error loading home page: " +:+ exn_str e) 500))).
End Accessors.

End App.

Export App.

(** ** freeze.py *)

Module Freeze.

(** The double-quote character, for the literals that contain it. *)
Definition dq : string := String (Ascii.ascii_of_nat 34) EmptyString.
Definition nl : string := String (Ascii.ascii_of_nat 10) EmptyString.

(** Text of several lines, each ended by a newline. *)
Definition text_lines (ls : list string) : string :=
  foldr (λ l acc, l +:+ nl +:+ acc) "" ls.

(** A JSON document, as [json.dump] receives it. *)
#[local] Unset Elimination Schemes.
Inductive json :=
| JStr (s : string)
| JList (l : list json)
| JObj (fields : list (string * json)).
#[local] Set Elimination Schemes.

(** What a file holds: text, or a dumped JSON document. *)
Inductive content :=
| Text (s : string)
| Json (j : json).

Inductive node :=
| Dir
| File (c : content).

(** The file system under the working directory, by relative path. *)
Abbreviation FS := (gmap string node).

(** The exporter process: the file system and what it has printed. *)
Record state := State { fs : FS; out : list string }.

(** Values the manifest reads from the running interpreter. *)
Record runtime := Runtime {
  now_isoformat : string;       (* datetime.now().isoformat() *)
  sys_version : string;         (* sys.version *)
  flask_version : string }.     (* flask.__version__ *)

(** [os.path] *)
Definition ends_with_slash (s : string) : bool :=
  match String.rev s with
  | String c _ => bool_decide (c = Ascii.ascii_of_nat 47)
  | EmptyString => false
  end.

Definition path_join (a b : string) : string :=
  if String.prefix "/" b then b
  else if bool_decide (a = "") || ends_with_slash a then a +:+ b
  else a +:+ "/" +:+ b.

Fixpoint drop_to_slash (s : string) : string :=
  match s with
  | EmptyString => EmptyString
  | String c s' =>
      if bool_decide (c = Ascii.ascii_of_nat 47) then s' else drop_to_slash s'
  end.

Definition dirname (p : string) : string :=
  String.rev (drop_to_slash (String.rev p)).

Definition exists_ (fs : FS) (p : string) : bool :=
  bool_decide (p = "") || bool_decide (is_Some (fs !! p)).

Definition isdir (fs : FS) (p : string) : bool :=
  bool_decide (p = "") || match fs !! p with Some Dir => true | _ => false end.

(** The directories a path names on its way, outermost first: [a/b/c] names
    [a] and [a/b]. *)
Fixpoint ancestors_from (acc s : string) : list string :=
  match s with
  | EmptyString => []
  | String c s' =>
      if bool_decide (c = Ascii.ascii_of_nat 47) then
        (if bool_decide (acc = "") then [] else [acc])
          ++ ancestors_from (acc +:+ "/") s'
      else ancestors_from (acc +:+ String c EmptyString) s'
  end.

Definition ancestors (p : string) : list string := ancestors_from "" p.

(** The error of a system call on a path that does not resolve:
    [NotADirectoryError] (ENOTDIR) when the nearest ancestor that exists is a
    regular file, [FileNotFoundError] (ENOENT) otherwise. *)
Definition unresolved (files : FS) (p : string) : exn :=
  match head (omap (λ a, files !! a) (reverse (ancestors p))) with
  | Some (File _) => OtherException "NotADirectoryError" p
  | _ => FileNotFoundError p
  end.

(** [p] lies below the directory [d]. *)
Definition below (d p : string) : bool := String.prefix (d +:+ "/") p.

Fixpoint strip_prefix (pre s : string) : option string :=
  match pre, s with
  | EmptyString, _ => Some s
  | String a pre', String b s' =>
      if bool_decide (a = b) then strip_prefix pre' s' else None
  | _, _ => None
  end.

Fixpoint has_slash (s : string) : bool :=
  match s with
  | EmptyString => false
  | String c s' => bool_decide (c = Ascii.ascii_of_nat 47) || has_slash s'
  end.

(** What a URL generator yields: a URL, or an endpoint with its values. *)
Inductive generated :=
| Url (u : string)
| Endpoint (name : string) (values : list (string * string)).

(** The names of module [app]: what [app.py] binds when it is imported
    (its imports, its globals and its functions), module attributes such as
    [__name__] aside. *)
Definition app_module : list string :=
  [ "Flask"; "render_template"; "request"; "redirect"; "url_for"; "flash";
    "sqlite3"; "os"; "app"; "DATABASE"; "get_db_connection";
    "get_site_settings"; "get_page"; "get_page_content";
    "get_retailers_by_category"; "get_all_retailers"; "get_testimonials";
    "strftime_filter"; "inject_global_vars"; "index"; "about"; "where_to_buy";
    "admin"; "not_found"; "internal_error"; "get_local_ip" ].

(** [app.config['FREEZER_DESTINATION']] *)
Definition build_dir : string := "build".
(** [app.static_folder] *)
Definition static_folder : string := "static".

Section Exporter.
Variable rt : runtime.

Definition print {R} (line : string) : M state R unit :=
  modify (λ s, State (fs s) (out s ++ [line])).

(** [os.listdir(d)] *)
Definition listdir {R} (d : string) : M state R (list string) :=
  files <- gets fs ;;
  if isdir files d then
    next (omap (λ pn,
                  match strip_prefix (d +:+ "/") pn.1 with
                  | Some name =>
                      if bool_decide (name = "") || has_slash name then None
                      else Some name
                  | None => None
                  end) (map_to_list files))
  else
    match files !! d with
    | Some (File _) => raise (OtherException "NotADirectoryError" d)
    | _ => raise (unresolved files d)
    end.

(** [with open(path, 'w') as f: f.write(...)] (or [json.dump(..., f)]) *)
Definition write_file {R} (path : string) (c : content) : M state R unit :=
  files <- gets fs ;;
  if negb (isdir files (dirname path)) then raise (unresolved files path)
  else if isdir files path then
    raise (OtherException "IsADirectoryError" path)
  else modify (λ s, State (<[path := File c]> (fs s)) (out s)).

(** [shutil.rmtree(d)] *)
Definition rmtree {R} (d : string) : M state R unit :=
  files <- gets fs ;;
  match files !! d with
  | None => raise (FileNotFoundError d)
  | Some (File _) => raise (OtherException "NotADirectoryError" d)
  | Some Dir =>
      modify (λ s, State (filter (λ pn, pn.1 ≠ d ∧ ¬ below d pn.1) (fs s))
                         (out s))
  end.

(** [os.makedirs(d, exist_ok=True)], for a [d] directly under the working
    directory. *)
Definition makedirs {R} (d : string) : M state R unit :=
  files <- gets fs ;;
  match files !! d with
  | Some (File _) => raise (OtherException "FileExistsError" d)
  | Some Dir => next tt
  | None => modify (λ s, State (<[d := Dir]> (fs s)) (out s))
  end.

(** [from app import name] *)
Definition from_app_import {R} (name : string) : M state R unit :=
  if bool_decide (name ∈ app_module) then next tt
  else raise (ImportError ("cannot import name '" +:+ name +:+ "' from 'app'")).

(** URL generators registered with the freezer. *)
Definition static_files : Fn state (list generated) :=
  def (
    css <- listdir (path_join static_folder "css") ;;
    js <- listdir (path_join static_folder "js") ;;
    (* Add image files if they exist *)
    let images_dir := path_join static_folder "images" in
    files <- gets fs ;;
    images <- (if exists_ files images_dir then listdir images_dir
               else next []) ;;
    let static dir filename :=
      Endpoint "static" [("filename", dir +:+ "/" +:+ filename)] in
    ret ((static "css" <$> css) ++ (static "js" <$> js)
         ++ (static "images" <$> images))%list).

Definition all_pages : Fn state (list generated) :=
  def (ret [Url "home"; Url "about"; Url "where_to_buy"]).

Definition prepare_build_directory : Fn state unit :=
  def (
    (* Create .nojekyll file for GitHub Pages *)
    let nojekyll_path := path_join build_dir ".nojekyll" in
    write_file nojekyll_path (Text "") ;;
    (* Create robots.txt *)
    let robots_path := path_join build_dir "robots.txt" in
    write_file robots_path (Text (text_lines
      [ "User-agent: *";
        "Allow: /";
        "";
        "Sitemap: https://www.freaknfries.com/sitemap.xml" ])) ;;
    (* Create sitemap.xml *)
    let sitemap_path := path_join build_dir "sitemap.xml" in
    write_file sitemap_path (Text (text_lines
      [ "<?xml version=" +:+ dq +:+ "1.0" +:+ dq +:+ " encoding=" +:+ dq
          +:+ "UTF-8" +:+ dq +:+ "?>";
        "<urlset xmlns=" +:+ dq
          +:+ "http://www.sitemaps.org/schemas/sitemap/0.9" +:+ dq +:+ ">";
        "    <url>";
        "        <loc>https://www.freaknfries.com/</loc>";
        "        <changefreq>weekly</changefreq>";
        "        <priority>1.0</priority>";
        "    </url>";
        "    <url>";
        "        <loc>https://www.freaknfries.com/about</loc>";
        "        <changefreq>monthly</changefreq>";
        "        <priority>0.8</priority>";
        "    </url>";
        "    <url>";
        "        <loc>https://www.freaknfries.com/where-to-buy</loc>";
        "        <changefreq>weekly</changefreq>";
        "        <priority>0.9</priority>";
        "    </url>";
        "</urlset>" ])) ;;
    ret tt).

Definition optimize_static_files : Fn state unit :=
  def (
    print "Optimizing static files..." ;;
    print "Static file optimization complete." ;;
    ret tt).

Definition required_files : list string :=
  [ "index.html";
    "about/index.html";
    "where-to-buy/index.html";
    "static/css/style.css";
    "static/js/main.js" ].

Definition validate_build : Fn state bool :=
  def (
    missing_files <-
      for_fold required_files [] (λ missing_files file_path,
        let full_path := path_join build_dir file_path in
        files <- gets fs ;;
        if negb (exists_ files full_path)
        then next (missing_files ++ [file_path])%list
        else next missing_files) ;;
    match missing_files with
    | _ :: _ =>
        print "❌ Missing files in build:" ;;
        for_each missing_files (λ file_path, print ("  - " +:+ file_path)) ;;
        ret false
    | [] =>
        print "✅ All required files generated successfully!" ;;
        ret true
    end).

Definition clean_build_directory : Fn state unit :=
  def (
    files <- gets fs ;;
    (if exists_ files build_dir then
       print ("Cleaning existing build directory: " +:+ build_dir) ;;
       rmtree build_dir
     else next tt) ;;
    makedirs build_dir ;;
    ret tt).

Definition pages_generated : list string := ["/"; "/about"; "/where-to-buy"].
Definition deployment_target : string := "GitHub Pages".
Definition instructions : list string :=
  [ "1. Commit all files in the build/ directory to your repository";
    "2. Push to the main branch";
    "3. Enable GitHub Pages in repository settings";
    "4. Set source to " +:+ dq +:+ "Deploy from a branch" +:+ dq
      +:+ " and select " +:+ dq +:+ "main" +:+ dq +:+ " branch";
    "5. Your site will be available at https://yourusername.github.io/repository-name/" ].

Definition generate_deployment_info : Fn state unit :=
  def (
    let deployment_info :=
      JObj [ ("generated_at", JStr (now_isoformat rt));
             ("python_version", JStr (sys_version rt));
             ("flask_version", JStr (flask_version rt));
             ("pages_generated", JList (JStr <$> pages_generated));
             ("deployment_target", JStr deployment_target);
             ("instructions", JList (JStr <$> instructions)) ] in
    let info_path := path_join build_dir "deployment-info.json" in
    write_file info_path (Json deployment_info) ;;
    ret tt).

(** Frozen-Flask's [Freezer.freeze()], given the registered generators. *)
Variable freeze : list (Fn state (list generated)) → Fn state unit.
(** What calling the object bound by [from app import init_db] does. *)
Variable init_db : Fn state unit.

Definition main : Fn state Z :=
  def (
    print "🚀 Starting static site generation for Freak 'n Fries..." ;;
    (* Initialize database if it doesn't exist *)
    from_app_import "init_db" ;;
    invoke init_db ;;
    (* Clean build directory *)
    invoke clean_build_directory ;;
    (* Generate static files *)
    print "📄 Generating static HTML files..." ;;
    invoke (freeze [static_files; all_pages]) ;;
    (* Post-processing *)
    invoke prepare_build_directory ;;
    invoke optimize_static_files ;;
    invoke generate_deployment_info ;;
    (* Validate build *)
    ok <- invoke validate_build ;;
    (if ok : bool then
       print (nl +:+ "🎉 Static site generation completed successfully!") ;;
       print ("📁 Files generated in: " +:+ build_dir +:+ "/") ;;
       print (nl +:+ "📋 Next steps:") ;;
       print "1. Review the generated files in the build/ directory" ;;
       print "2. Test the site by opening build/index.html in a browser" ;;
       print "3. Commit and push the build/ directory to GitHub" ;;
       print "4. Configure GitHub Pages to serve from the main branch" ;;
       print (nl +:+ "🌐 Your site will be live at: "
                 +:+ "https://yourusername.github.io/repository-name/")
     else
       print (nl +:+ "❌ Build validation failed. Please check the errors above.") ;;
       ret 1) ;;
    ret 0).

(** [if __name__ == '__main__': exit(main())]: the exit status of the
    process; an uncaught exception ends it with status 1. *)
Definition exit_status (s : state) : Z * state :=
  match main s with
  | (Return code, s') => (code, s')
  | (Raise _, s') => (1, s')
  end.
End Exporter.

End Freeze.


(** ** app.py: the other routes and the error handlers *)

Module Routes.

(** [str(v)], as an f-string interpolates a value read from the database.
    The [repr] of a [bytes] value is Python's and is left abstract. *)
Definition py_str (bytes_repr : string → string) (v : pyval) : string :=
  match v with
  | PyNone => "None"
  | PyInt z => pretty z
  | PyStr s => s
  | PyBytes b => bytes_repr b
  end.

Section Handlers.
Variable db : Database.
(** The template engine. *)
Variable jinja : string → context → outcome string.
(** [str(d)] of a settings dictionary, which the routes print for debugging;
    the text follows the insertion order of the Python dictionary, which the
    dictionary model does not keep, so it is left abstract. *)
Variable dict_str : dict → string.
Variable bytes_repr : string → string.

(** [d[k]] *)
Definition dict_getitem {R} (d : dict) (k : string) : M state R pyval :=
  match d !! PyStr k with
  | Some v => next v
  | None => raise (OtherException "KeyError" ("'" +:+ k +:+ "'"))
  end.

(** The about page. *)
Definition about : Fn state response :=
  def (
    try_except
      (site_settings <- invoke (get_site_settings db) ;;
       page <- invoke (get_page db "about") ;;
       about_content <- invoke (get_page_content db "about") ;;
       print "About route - site_settings type: <class 'dict'>" ;;
       print ("About route - site_settings: " +:+ dict_str site_settings) ;;
       text <-
         invoke (render_template db jinja "about.html"
           ({[ "site_settings" := CtxSettings site_settings;
               "settings" := CtxSettings site_settings;
               "page" := CtxRow page;
               "about_content" := CtxRow about_content ]} : context)) ;;
       ret (Response text 200))
      is_exception
      (λ e,
         print ("Error in about route: " +:+ exn_str e) ;;
         ret (Response ("Error loading about page: " +:+ exn_str e) 500))).

(** The where-to-buy page. *)
Definition where_to_buy : Fn state response :=
  def (
    try_except
      (site_settings <- invoke (get_site_settings db) ;;
       page <- invoke (get_page db "where-to-buy") ;;
       where_content <- invoke (get_page_content db "where-to-buy") ;;
       (* Get retailers by category *)
       online_retailers <- invoke (get_retailers_by_category db "online") ;;
       restaurants <- invoke (get_retailers_by_category db "restaurant") ;;
       print "Where-to-buy route - site_settings type: <class 'dict'>" ;;
       print ("Where-to-buy route - site_settings: " +:+ dict_str site_settings) ;;
       text <-
         invoke (render_template db jinja "where-to-buy.html"
           ({[ "site_settings" := CtxSettings site_settings;
               "settings" := CtxSettings site_settings;
               "page" := CtxRow page;
               "where_content" := CtxRow where_content;
               "online_retailers" := CtxRows online_retailers;
               "restaurants" := CtxRows restaurants;
               "retailer" := CtxRows online_retailers;
               "restaurant" := CtxRows restaurants ]} : context)) ;;
       ret (Response text 200))
      is_exception
      (λ e,
         print ("Error in where_to_buy route: " +:+ exn_str e) ;;
         ret (Response ("Error loading where to buy page: " +:+ exn_str e) 500))).

(** The admin page. *)
Definition admin : Fn state response :=
  def (
    try_except
      (site_settings <- invoke (get_site_settings db) ;;
       retailers <- invoke (get_all_retailers db) ;;
       testimonials <- invoke (get_testimonials db) ;;
       (* Get pages for admin interface *)
       invoke (get_db_connection db) ;;
       pages <-
         try_finally
           (try_except
              (fetchall db "SELECT * FROM pages ORDER BY slug" [])
              is_sqlite_error
              (λ e,
                 print ("Error getting pages: " +:+ exn_str e) ;;
                 next []))
           close ;;
       text <-
         invoke (render_template db jinja "admin.html"
           ({[ "site_settings" := CtxSettings site_settings;
               "settings" := CtxSettings site_settings;
               "retailers" := CtxRows retailers;
               "testimonials" := CtxRows testimonials;
               "pages" := CtxRows pages ]} : context)) ;;
       ret (Response text 200))
      is_exception
      (λ e,
         print ("Error in admin route: " +:+ exn_str e) ;;
         ret (Response ("Error loading admin page: " +:+ exn_str e) 500))).

(** The 404 handler; its argument is not used. *)
Definition not_found : Fn state response :=
  def (
    site_settings <- invoke (get_site_settings db) ;;
    company_name <- dict_getitem site_settings "company_name" ;;
    ret (Response ("Page not found - " +:+ py_str bytes_repr company_name) 404)).

(** The 500 handler; its argument is not used. *)
Definition internal_error : Fn state response :=
  def (
    site_settings <- invoke (get_site_settings db) ;;
    company_name <- dict_getitem site_settings "company_name" ;;
    ret (Response ("Internal server error - " +:+ py_str bytes_repr company_name)
           500)).
End Handlers.

End Routes.

(** ** setup.py: the project set-up script

    The script works on the same file system and standard output as the
    exporter.  [pip], the interpreter's version and Flask's test client are
    outside the repository: section variables. *)

Module Setup.
Import Freeze.

(** [except subprocess.CalledProcessError] *)
Definition is_called_process_error (e : exn) : bool :=
  match e with
  | OtherException cls _ => bool_decide (cls = "CalledProcessError")
  | _ => false
  end.

(** [except FileExistsError] *)
Definition is_file_exists_error (e : exn) : bool :=
  match e with
  | OtherException cls _ => bool_decide (cls = "FileExistsError")
  | _ => false
  end.

(** [except OSError] *)
Definition is_os_error (e : exn) : bool :=
  match e with
  | FileNotFoundError _ => true
  | OtherException cls _ =>
      bool_decide (cls ∈ [ "OSError"; "FileExistsError"; "NotADirectoryError";
                           "IsADirectoryError"; "PermissionError" ])
  | _ => false
  end.

(** Comparison of tuples of integers: [a < b]. *)
Fixpoint tuple_lt (a b : list Z) : bool :=
  match a, b with
  | _, [] => false
  | [], _ :: _ => true
  | x :: a', y :: b' =>
      if (x <? y)%Z then true
      else if (y <? x)%Z then false
      else tuple_lt a' b'
  end.

(** The characters [str.split()] splits an ASCII string at. *)
Definition is_space (c : Ascii.ascii) : bool :=
  let n := Ascii.nat_of_ascii c in
  ((9 <=? n) && (n <=? 13) || (28 <=? n) && (n <=? 32))%nat.

(** [s.split()], for an ASCII string; [cur] is the word being read. *)
Fixpoint split_from (s : string) (cur : option string) : list string :=
  match s with
  | EmptyString => match cur with Some w => [w] | None => [] end
  | String c s' =>
      if is_space c then
        match cur with
        | Some w => w :: split_from s' None
        | None => split_from s' None
        end
      else
        split_from s' (Some (match cur with
                             | Some w => w +:+ String c EmptyString
                             | None => String c EmptyString
                             end))
  end.

Definition split (s : string) : list string := split_from s None.

(** [s * n] *)
Definition str_mul (s : string) (n : nat) : string :=
  String.concat "" (replicate n s).

(** [os.path.basename], for a path without a doubled slash. *)
Fixpoint take_to_slash (s : string) : string :=
  match s with
  | EmptyString => EmptyString
  | String c s' =>
      if bool_decide (c = Ascii.ascii_of_nat 47) then EmptyString
      else String c (take_to_slash s')
  end.

Definition basename (p : string) : string :=
  String.rev (take_to_slash (String.rev p)).

(** [l[0]] *)
Definition first_item {S R} (l : list string) : M S R string :=
  match l with
  | x :: _ => next x
  | [] => raise (IndexError "list index out of range")
  end.

(** [os.mkdir(name)] *)
Definition mkdir {R} (name : string) : M state R unit :=
  files <- gets fs ;;
  if bool_decide (name = "") then raise (FileNotFoundError name)
  else if exists_ files name then
    raise (OtherException "FileExistsError" name)
  else if negb (isdir files (dirname name)) then raise (unresolved files name)
  else modify (λ s, State (<[name := Dir]> (fs s)) (out s)).

(** [os.makedirs(name, exist_ok=True)], as the standard library defines it:
    the missing ancestors first, then the directory itself.  Every recursive
    call is on a strictly shorter path. *)
Fixpoint makedirs_from {R} (fuel : nat) (name : string) : M state R unit :=
  match fuel with
  | O => raise (OtherException "RecursionError" name)
  | S fuel' =>
      let head := if bool_decide (basename name = "")
                  then dirname (dirname name) else dirname name in
      let tail := if bool_decide (basename name = "")
                  then basename (dirname name) else basename name in
      files <- gets fs ;;
      finished <-
        (if negb (bool_decide (head = "")) && negb (bool_decide (tail = ""))
            && negb (exists_ files head)
         then
           try_except (makedirs_from fuel' head) is_file_exists_error
             (λ _, next tt) ;;
           next (bool_decide (tail = "."))
         else next false) ;;
      if finished : bool then next tt
      else
        try_except (mkdir name) is_os_error
          (λ e,
             files <- gets fs ;;
             if negb (isdir files name) then raise e else next tt)
  end.

Definition makedirs {R} (name : string) : M state R unit :=
  makedirs_from (S (String.length name)) name.

Definition directories : list string :=
  [ "static/css"; "static/js"; "static/images"; "templates"; "data"; "build" ].

Definition env_content : string :=
  text_lines
    [ "# Flask Environment Configuration";
      "FLASK_APP=app.py";
      "FLASK_ENV=development";
      "FLASK_DEBUG=True";
      "";
      "# Secret key for Flask sessions (change this in production!)";
      "SECRET_KEY=change-this-to-a-secure-random-key";
      "";
      "# Database configuration";
      "DATABASE_URL=sqlite:///data/site.db";
      "";
      "# Site configuration";
      "SITE_NAME=Freak-n-Fries Inc.";
      "SITE_URL=https://www.freaknfries.com";
      "";
      "# Contact information";
      "CONTACT_EMAIL=info@freaknfries.com";
      "CONTACT_PHONE=440 453 1877";
      "";
      "# Social media";
      "FACEBOOK_URL=www.facebook.com/freaknfries" ].

Definition gitignore_content : string :=
  text_lines
    [ "# Python";
      "__pycache__/";
      "*.py[cod]";
      "*$py.class";
      "*.so";
      ".Python";
      "env/";
      "venv/";
      "ENV/";
      "env.bak/";
      "venv.bak/";
      "";
      "# Flask";
      "instance/";
      ".webassets-cache";
      "";
      "# Environment variables";
      ".env";
      ".env.local";
      ".env.development.local";
      ".env.test.local";
      ".env.production.local";
      "";
      "# IDEs";
      ".vscode/";
      ".idea/";
      "*.swp";
      "*.swo";
      "*~";
      "";
      "# OS";
      ".DS_Store";
      ".DS_Store?";
      "._*";
      ".Spotlight-V100";
      ".Trashes";
      "ehthumbs.db";
      "Thumbs.db";
      "";
      "# Project specific";
      "data/site.db";
      "*.log";
      "";
      "# Don't ignore the build directory (needed for GitHub Pages)";
      "# build/" ].

Section Script.
(** [sys.version_info], its integers, and [sys.version]. *)
Variable version_info : list Z.
Variable version : string.
(** [subprocess.check_call([sys.executable, '-m', 'pip', 'install', '-r',
    'requirements.txt'])] *)
Variable pip_install : Fn state unit.
(** What calling the object bound by [from app import init_db] does. *)
Variable init_db : Fn state unit.
(** [client.get(url).status_code], for Flask's test client. *)
Variable client_get : string → Fn state Z.

Definition check_python_version : Fn state bool :=
  def (
    (if tuple_lt version_info [3; 7]%Z then
       print "❌ Python 3.7 or higher is required" ;;
       ret false
     else next tt) ;;
    word <- first_item (split version) ;;
    print ("✅ Python " +:+ word +:+ " detected") ;;
    ret true).

Definition create_directory_structure : Fn state bool :=
  def (
    print "📁 Creating directory structure..." ;;
    for_each directories (λ directory,
      makedirs directory ;;
      print ("  Created: " +:+ directory +:+ "/")) ;;
    ret true).

Definition install_dependencies : Fn state bool :=
  def (
    print "📦 Installing Python dependencies..." ;;
    try_except
      (invoke pip_install ;;
       print "✅ Dependencies installed successfully" ;;
       ret true)
      is_called_process_error
      (λ e,
         print ("❌ Failed to install dependencies: " +:+ exn_str e) ;;
         ret false)).

Definition initialize_database : Fn state bool :=
  def (
    print "🗄️ Initializing database..." ;;
    try_except
      (from_app_import "init_db" ;;
       invoke init_db ;;
       print "✅ Database initialized successfully" ;;
       ret true)
      is_exception
      (λ e,
         print ("❌ Failed to initialize database: " +:+ exn_str e) ;;
         ret false)).

Definition create_env_file : Fn state unit :=
  def (
    let env_file := ".env" in
    files <- gets fs ;;
    (if negb (exists_ files env_file) then
       write_file env_file (Text env_content) ;;
       print ("✅ Created " +:+ env_file)
     else
       print ("⚠️ " +:+ env_file +:+ " already exists, skipping...")) ;;
    ret tt).

Definition create_gitignore : Fn state unit :=
  def (
    let gitignore_file := ".gitignore" in
    files <- gets fs ;;
    (if negb (exists_ files gitignore_file) then
       write_file gitignore_file (Text gitignore_content) ;;
       print ("✅ Created " +:+ gitignore_file)
     else
       print ("⚠️ " +:+ gitignore_file +:+ " already exists, skipping...")) ;;
    ret tt).

Definition test_flask_app : Fn state bool :=
  def (
    print "🧪 Testing Flask application..." ;;
    try_except
      (from_app_import "app" ;;
       status_code <- invoke (client_get "/") ;;
       if bool_decide (status_code = 200%Z) then
         print "✅ Flask app is working correctly" ;;
         ret true
       else
         print ("❌ Flask app returned status code: " +:+ pretty status_code) ;;
         ret false)
      is_exception
      (λ e,
         print ("❌ Failed to test Flask app: " +:+ exn_str e) ;;
         ret false)).

Definition print_next_steps : Fn state unit :=
  def (
    print (nl +:+ "🎉 Setup completed successfully!") ;;
    print (nl +:+ "📋 Next steps:") ;;
    print "1. Activate your virtual environment:" ;;
    print "   venv\Scripts\activate  (Windows)" ;;
    print "   source venv/bin/activate  (macOS/Linux)" ;;
    print (nl +:+ "2. Start the development server:") ;;
    print "   python app.py" ;;
    print (nl +:+ "3. Open your browser and visit:") ;;
    print "   http://localhost:5000" ;;
    print (nl +:+ "4. Access the admin interface at:") ;;
    print "   http://localhost:5000/admin" ;;
    print (nl +:+ "5. When ready to deploy, generate static files:") ;;
    print "   python freeze.py" ;;
    print (nl +:+ "📚 Documentation:") ;;
    print "   - Flask: https://flask.palletsprojects.com/" ;;
    print "   - Frozen-Flask: https://frozen-flask.readthedocs.io/" ;;
    print "   - GitHub Pages: https://pages.github.com/" ;;
    ret tt).

Definition main : Fn state Z :=
  def (
    print "🚀 Setting up Freak 'n Fries website migration project..." ;;
    print (str_mul "=" 60) ;;
    (* Check Python version *)
    ok <- invoke check_python_version ;;
    (if negb ok then ret 1%Z else next tt) ;;
    (* Create directory structure *)
    ok <- invoke create_directory_structure ;;
    (if negb ok then ret 1%Z else next tt) ;;
    (* Install dependencies *)
    ok <- invoke install_dependencies ;;
    (if negb ok then ret 1%Z else next tt) ;;
    (* Create environment files *)
    invoke create_env_file ;;
    invoke create_gitignore ;;
    (* Initialize database *)
    ok <- invoke initialize_database ;;
    (if negb ok then ret 1%Z else next tt) ;;
    (* Test Flask app *)
    ok <- invoke test_flask_app ;;
    (if negb ok then ret 1%Z else next tt) ;;
    (* Print next steps *)
    invoke print_next_steps ;;
    ret 0%Z).
End Script.

End Setup.

(** ** wsgi.py and the configuration block of app.py *)

Module Wsgi.

(** What the two files read and write of the interpreter: [os.environ] and
    [sys.path]. *)
Record process := Process {
  environ : gmap string string;
  sys_path : list string }.

(** What the configuration block of [app.py] binds. *)
Record settings := Settings {
  DEBUG : bool;               (* app.config['DEBUG'] *)
  DATABASE : string }.

(** The module body of [app.py], lines 18 to 25. *)
Definition app_configuration (p : process) : settings :=
  if bool_decide ("PYTHONANYWHERE_DOMAIN" ∈ dom (environ p)) then
    (* Production settings for PythonAnywhere *)
    Settings false "/home/yourusername/freaknfries/data/site.db"
  else
    (* Development settings *)
    Settings true (Freeze.path_join "data" "site.db").

Definition username : string := "DutchYankee".
Definition project_path : string := "/home/DutchYankee/freaknfries".

(** The module body of [wsgi.py]: the process it leaves, and the
    configuration the application it imports gets. *)
Definition wsgi (p : process) : process * settings :=
  let path :=
    if bool_decide (project_path ∉ sys_path p)
    then project_path :: sys_path p
    else sys_path p in
  let env :=
    <["PYTHONANYWHERE_DOMAIN" := username +:+ ".pythonanywhere.com"]>
      (environ p) in
  let p' := Process env path in
  (* from app import app as application *)
  (p', app_configuration p').

End Wsgi.

(** ** Notions the statements below use *)

Module Spec.

(** The statements the accessors issue. *)
Definition sql_row : string := "SELECT * FROM settings WHERE id = 1".
Definition sql_kv : string := "SELECT key, value FROM settings".
Definition sql_page : string := "SELECT * FROM pages WHERE slug = ?".
Definition sql_content : string :=
  "SELECT * FROM page_content WHERE page_name = ?".
Definition sql_retailers : string :=
  "SELECT * FROM retailers WHERE category = ? ORDER BY name".
Definition sql_testimonials : string :=
  "SELECT * FROM testimonials WHERE active = 1".

(** The five recognized settings keys. *)
Definition recognized : list string := defaults.*1.

Definition five : gset pyval := list_to_set (PyStr <$> recognized).

Definition default_of (k : string) : option string :=
  snd <$> find (λ kd, bool_decide (kd.1 = k)) defaults.

(** A dictionary that has every recognized key. *)
Definition complete (d : dict) : Prop :=
  ∀ k, k ∈ recognized → is_Some (d !! PyStr k).

(** What Method 1 reads for the key [k] with default [d] in a row. *)
Definition setting_of (row : Row) (k d : string) : pyval :=
  if bool_decide (k ∈ row_keys row) then row_get row k else PyStr d.

Definition primary_settings (row : Row) : dict :=
  dict_of ((λ kd, (PyStr kd.1, setting_of row kd.1 kd.2)) <$> defaults).

(** What the first loop of Method 2 builds from key/value rows; [None] when a
    row lacks one of the two columns. *)
Definition kv_insert (d : dict) (row : Row) : option dict :=
  value ← row_find row "value"; key ← row_find row "key";
  Some (<[key := value]> d).

Fixpoint kv_dict (rows : list Row) (d : dict) : option dict :=
  match rows with
  | [] => Some d
  | row :: rows' => d' ← kv_insert d row; kv_dict rows' d'
  end.

(** What the second loop of Method 2 does to it. *)
Definition fill_step (d : dict) (kd : string * string) : dict :=
  match d !! PyStr kd.1 with
  | None => <[PyStr kd.1 := PyStr kd.2]> d
  | Some _ => d
  end.

Definition fill_defaults (d : dict) : dict := foldl fill_step d defaults.

(** The calls of the template engine that a log records. *)
Definition renders (l : list event) : list (string * context) :=
  omap (λ e, match e with Render t c => Some (t, c) | _ => None end) l.

(** The rows of a table of the store; none when the table is missing. *)
Definition stored_rows (s : Store) (tbl : string) : list Row :=
  from_option table_rows [] (s !! tbl).

(** The keys of the key/value rows of the settings table. *)
Definition stored_keys (s : Store) : gset pyval :=
  list_to_set ((λ r, row_get r "key") <$> stored_rows s "settings").

(** The primary shape: the first stored settings row whose [id] is 1. *)
Definition id_row (s : Store) : option Row :=
  head (filter (λ r, row_get r "id" = PyInt 1) (stored_rows s "settings")).

(** A row in the key/value shape: it has a [key] and a [value] cell. *)
Definition has_pair (r : Row) : Prop :=
  is_Some (row_find r "key") ∧ is_Some (row_find r "value").

(** The key/value shape: the stored settings rows, when there is at least one
    and every one of them has both cells. *)
Definition kv_rows (s : Store) : option (list Row) :=
  match stored_rows s "settings" with
  | [] => None
  | rows => if decide (Forall has_pair rows) then Some rows else None
  end.

(** The value of the last key/value row that has the key [key]. *)
Definition kv_last (rows : list Row) (key : pyval) : option pyval :=
  (λ r, row_get r "value") <$> last (filter (λ r, row_get r "key" = key) rows).

(** How an accessor ends, given the outcome [o] of its one statement: it
    returns [conv rows], or on an [sqlite3.Error] prints [msg e] and returns
    [dflt]; any other exception propagates.  The connection is closed on every
    path. *)
Definition accessed {A} (st : state) (sql : string) (params : list pyval)
    (conv : list Row → A) (dflt : A) (msg : exn → string)
    (o : outcome (list Row)) : outcome A * state :=
  let ran printed :=
    State (log st ++ [Connect; Execute sql params] ++ printed ++ [Close]) false in
  match o with
  | Return rows => (Return (conv rows), ran [])
  | Raise e =>
      if is_sqlite_error e then (Return dflt, ran [Stdout (msg e)])
      else (Raise e, ran [])
  end.

(** A lookup that finds nothing: no record, or a data-access error. *)
Definition no_record (o : outcome (list Row)) : Prop :=
  o = Return [] ∨ ∃ m, o = Raise (SqliteError m).

(** Both lookups return to their caller, whatever is asked of them. *)
Definition lookups_never_raise (db : Database) : Prop :=
  ∀ slug page_name st,
    (∃ r st', get_page db slug st = (Return r, st'))
    ∧ (∃ r st', get_page_content db page_name st = (Return r, st')).

(** Ascending by the [name] column. *)
Definition by_name (r1 r2 : Row) : Prop :=
  sql_le (row_get r1 "name") (row_get r2 "name").

(** The retailers table, when it has a category column, has a name column
    (the Retailer entity has both). *)
Definition retailers_named (s : Store) : Prop :=
  ∀ t, s !! "retailers" = Some t → has_column t "category" → has_column t "name".

(** The testimonials whose [active] flag is 1, in table order. *)
Definition active_testimonials (s : Store) : list Row :=
  filter (λ r, row_get r "active" = PyInt 1) (stored_rows s "testimonials").

(** The keyword arguments [index] passes to its template. *)
Definition index_context (d : dict) (home_content testimonial : option Row)
    : context :=
  {[ "site_settings" := CtxSettings d;
     "settings" := CtxSettings d;
     "home_content" := CtxRow home_content;
     "testimonial" := CtxRow testimonial ]}.

(** A value that is neither null nor empty. *)
Definition nonempty (v : pyval) : Prop :=
  v ≠ PyNone ∧ v ≠ PyStr "" ∧ v ≠ PyBytes "".

(** Exactly the five keys, each with a non-empty value. *)
Definition exactly_five_nonempty (s : Store) : Prop :=
  ∀ st, ∃ d st', get_site_settings (sqlite_db s) st = (Return d, st')
    ∧ dom d = five ∧ ∀ k v, d !! k = Some v → nonempty v.

(** A settings table in the key/value shape, with an empty value and a key
    that is not one of the five. *)
Definition kv_store : Store :=
  {[ "settings" := Table ["key"; "value"]
       [ [PyStr "company_name"; PyStr ""];
         [PyStr "address"; PyStr "12 Main St"] ] ]}.

(** What the resolver answers for it. *)
Definition kv_settings : dict :=
  fill_defaults (<[PyStr "address" := PyStr "12 Main St"]>
                   (<[PyStr "company_name" := PyStr ""]> ∅)).

(** A database on which every statement fails with an error that is not an
    [sqlite3.Error]. *)
Definition broken_db : Database :=
  {| db_connect := None;
     db_query := λ _ _, Raise (OtherException "MemoryError" "out of memory") |}.

(** A settings table in the primary shape: the row of id 1 has a NULL tagline
    and no [product_name] column. *)
Definition primary_store : Store :=
  {[ "settings" := Table ["id"; "company_name"; "tagline"; "phone"; "email"]
       [ [PyInt 1; PyStr "Acme Snacks"; PyNone; PyStr "555 0100";
          PyStr "hello@acme.example"] ] ]}.

Definition primary_row : Row :=
  [ ("id", PyInt 1); ("company_name", PyStr "Acme Snacks"); ("tagline", PyNone);
    ("phone", PyStr "555 0100"); ("email", PyStr "hello@acme.example") ].

(** Two online retailers stored out of name order, and a restaurant. *)
Definition retailer_store : Store :=
  {[ "retailers" := Table ["id"; "name"; "category"]
       [ [PyInt 1; PyStr "Beta Store"; PyStr "online"];
         [PyInt 2; PyStr "Corner Diner"; PyStr "restaurant"];
         [PyInt 3; PyStr "Alpha Store"; PyStr "online"] ] ]}.

Definition alpha_store : Row :=
  [("id", PyInt 3); ("name", PyStr "Alpha Store"); ("category", PyStr "online")].
Definition beta_store : Row :=
  [("id", PyInt 1); ("name", PyStr "Beta Store"); ("category", PyStr "online")].

(** An active and an inactive testimonial. *)
Definition testimonial_store : Store :=
  {[ "testimonials" := Table ["active"; "text"]
       [ [PyInt 1; PyStr "Great!"]; [PyInt 0; PyStr "Meh"] ] ]}.

Definition great : Row := [("active", PyInt 1); ("text", PyStr "Great!")].

(** A database without a pages or page_content table. *)
Definition empty_store : Store := ∅.

(** A pages table and a page_content table that hold other records. *)
Definition pages_store : Store :=
  <["pages" := Table ["slug"; "title"] [ [PyStr "about"; PyStr "About us"] ]]>
    {[ "page_content" := Table ["page_name"; "content"]
         [ [PyStr "home"; PyStr "Welcome"] ] ]}.

End Spec.

Export Spec.

(** ** Notions the statements about the exporter use *)

Module ExportSpec.
Import Freeze.

(** The first line [main] prints. *)
Definition banner : string :=
  "🚀 Starting static site generation for Freak 'n Fries...".

(** The required files that a file system lacks, in the order checked. *)
Definition missing_files (files : FS) : list string :=
  filter (λ p, files !! path_join build_dir p = None) required_files.

(** Where the manifest is written, and what is written. *)
Definition info_path : string := path_join build_dir "deployment-info.json".

Definition deployment_info (rt : runtime) : json :=
  JObj [ ("generated_at", JStr (now_isoformat rt));
         ("python_version", JStr (sys_version rt));
         ("flask_version", JStr (flask_version rt));
         ("pages_generated", JList (JStr <$> pages_generated));
         ("deployment_target", JStr deployment_target);
         ("instructions", JList (JStr <$> instructions)) ].

(** [j[k]] for a JSON object. *)
Definition manifest_field (j : json) (k : string) : option json :=
  match j with
  | JObj fields => snd <$> find (λ f, bool_decide (f.1 = k)) fields
  | _ => None
  end.

(** A build directory in which nothing was rendered. *)
Definition empty_build : state := State {[ "build" := Dir ]} [].

(** Some interpreter. *)
Definition rt0 : runtime := Runtime "2025-01-01T00:00:00" "3.11.4" "3.0.0".

(** A fresh checkout: the static assets, no build directory. *)
Definition checkout : state :=
  State (<["static" := Dir]> (<["static/css" := Dir]>
          (<["static/css/style.css" := File (Text "body { margin: 0 }")]>
          (<["static/js" := Dir]>
          {[ "static/js/main.js" := File (Text "console.log(1)") ]})))) [].

(** A build directory that already holds the five expected files. *)
Definition complete_build : state :=
  State (<["build" := Dir]> (<["build/index.html" := File (Text "<html>")]>
          (<["build/about" := Dir]>
          (<["build/about/index.html" := File (Text "<html>")]>
          (<["build/where-to-buy" := Dir]>
          (<["build/where-to-buy/index.html" := File (Text "<html>")]>
          (<["build/static" := Dir]> (<["build/static/css" := Dir]>
          (<["build/static/css/style.css" := File (Text "body { margin: 0 }")]>
          (<["build/static/js" := Dir]>
          {[ "build/static/js/main.js" := File (Text "console.log(1)") ]})))))))))) [].

(** A build directory left by an earlier export of another page set. *)
Definition stale_build : state :=
  State (<["build" := Dir]> (<["build/old-page" := Dir]>
          {[ "build/old-page/index.html" := File (Text "stale") ]})) [].

End ExportSpec.

(** ** Notions the further statements about app.py use *)

Module AppSpec.
Import Routes.

(** What a route answers: the rendered page, or the plain-text error of its
    handler, which carries the text of the exception. *)
Definition answered (what : string) (r : response) : Prop :=
  status r = 200
  ∨ ∃ e, r = Response ("Error loading " +:+ what +:+ " page: " +:+ exn_str e) 500.

(** The statements a log records, in order. *)
Definition executed (l : list event) : list string :=
  omap (λ e, match e with Execute sql _ => Some sql | _ => None end) l.

(** Ascending by category, and by name within a category. *)
Definition by_category_name (r1 r2 : Row) : Prop :=
  let c1 := row_get r1 "category" in
  let c2 := row_get r2 "category" in
  (sql_le c1 c2 ∧ c1 ≠ c2)
  ∨ (c1 = c2 ∧ sql_le (row_get r1 "name") (row_get r2 "name")).

(** The retailers table, when there is one, has the two columns the
    listings order by. *)
Definition retailers_listed (s : Store) : Prop :=
  ∀ t, s !! "retailers" = Some t → has_column t "category" ∧ has_column t "name".

(** The rows of a table whose column [col] holds the text [key]. *)
Definition matching (s : Store) (tbl col key : string) : list Row :=
  filter (λ r, row_get r col = PyStr key) (stored_rows s tbl).

(** The keyword arguments [where_to_buy] passes to its template. *)
Definition where_context (d : dict) (page content : option Row)
    (online restaurants : list Row) : context :=
  {[ "site_settings" := CtxSettings d;
     "settings" := CtxSettings d;
     "page" := CtxRow page;
     "where_content" := CtxRow content;
     "online_retailers" := CtxRows online;
     "restaurants" := CtxRows restaurants;
     "retailer" := CtxRows online;
     "restaurant" := CtxRows restaurants ]}.

(** The keyword arguments [admin] passes to its template. *)
Definition admin_context (d : dict) (retailers testimonials pages : list Row)
    : context :=
  {[ "site_settings" := CtxSettings d;
     "settings" := CtxSettings d;
     "retailers" := CtxRows retailers;
     "testimonials" := CtxRows testimonials;
     "pages" := CtxRows pages ]}.

(** The statement of [get_all_retailers]. *)
Definition sql_all_retailers : string :=
  "SELECT * FROM retailers ORDER BY category, name".

(** Ascending by the [slug] column. *)
Definition by_slug (r1 r2 : Row) : Prop :=
  sql_le (row_get r1 "slug") (row_get r2 "slug").

(** The pages the admin route can list: every stored page when the pages
    table has the [slug] column its statement orders by, none when the
    statement fails (no such table, or no such column). *)
Definition pages_listed (s : Store) : list Row :=
  match s !! "pages" with
  | Some t => if decide (has_column t "slug") then table_rows t else []
  | None => []
  end.

(** The statement of the admin route. *)
Definition sql_pages_by_slug : string := "SELECT * FROM pages ORDER BY slug".

(** Retailers, and two pages stored out of slug order. *)
Definition catalogue_store : Store :=
  <["pages" := Table ["slug"; "title"]
      [ [PyStr "where-to-buy"; PyStr "Where"];
        [PyStr "about"; PyStr "About us"] ]]>
    {[ "retailers" := Table ["id"; "name"; "category"]
         [ [PyInt 1; PyStr "Beta Store"; PyStr "online"];
           [PyInt 2; PyStr "Alpha Store"; PyStr "online"] ] ]}.

(** A database file that cannot be opened. *)
Definition unreachable_db : Database :=
  {| db_connect := Some (SqliteError "unable to open database file");
     db_query := λ _ _, Return [] |}.

(** A key/value settings table that also has an [id] column. *)
Definition shadowed_store : Store :=
  {[ "settings" := Table ["id"; "key"; "value"]
       [ [PyInt 1; PyStr "company_name"; PyStr "Acme Snacks"];
         [PyInt 2; PyStr "phone"; PyStr "555 0100"] ] ]}.

Definition shadowed_row : Row :=
  [ ("id", PyInt 1); ("key", PyStr "company_name"); ("value", PyStr "Acme Snacks") ].

(** A key/value settings table that stores one key twice. *)
Definition twice_store : Store :=
  {[ "settings" := Table ["key"; "value"]
       [ [PyStr "phone"; PyStr "555 0100"];
         [PyStr "phone"; PyStr "555 0199"] ] ]}.

Definition twice_table : table :=
  Table ["key"; "value"]
    [ [PyStr "phone"; PyStr "555 0100"]; [PyStr "phone"; PyStr "555 0199"] ].

End AppSpec.

Export AppSpec.

(** ** Notions the further statements about freeze.py use *)

Module FreezeSpec.
Import Freeze.



(** The entries [os.listdir(d)] answers. *)
Definition listed (files : FS) (d : string) : list string :=
  omap (λ pn : string * node,
          match strip_prefix (d +:+ "/") pn.1 with
          | Some name =>
              if bool_decide (name = "") || has_slash name then None
              else Some name
          | None => None
          end) (map_to_list files).

(** The files post-processing writes, relative to the build directory. *)
Definition post_paths : list string := [".nojekyll"; "robots.txt"; "sitemap.xml"].

(** A regular file where the build directory should be. *)
Definition file_build : state := State {[ "build" := File (Text "") ]} [].

End FreezeSpec.

(** ** Notions the statements about setup.py and wsgi.py use *)

Module SetupSpec.
Import Freeze Setup.

(** No regular file is in the way at [p]. *)
Definition no_file (files : FS) (p : string) : Prop :=
  ∀ c, files !! p ≠ Some (File c).

(** The directories [create_directory_structure] is to leave behind. *)
Definition tree : list string :=
  [ "static"; "static/css"; "static/js"; "static/images";
    "templates"; "data"; "build" ].

(** A file system with all of [ps] as directories. *)
Definition with_dirs (files : FS) (ps : list string) : FS :=
  foldl (λ f p, <[p := Dir]> f) files ps.

(** An interpreter, and a project directory that holds only a [.env]. *)
Definition python_3_11 : list Z := [3; 11; 4]%Z.
Definition configured : state :=
  State {[ ".env" := File (Text "SECRET_KEY=secret") ]} [].

(** Collaborators for the examples: a [pip] that succeeds, and a test client
    that answers 200. *)
Definition pip_ok : Fn state unit := λ s, (Return tt, s).
Definition client_ok : string → Fn state Z := λ _ s, (Return 200%Z, s).

(** A PythonAnywhere worker before [wsgi.py] has run. *)
Definition fresh_worker : Wsgi.process :=
  Wsgi.Process ∅ ["/usr/lib/python3.10"].

End SetupSpec.

(** ** The settings resolver *)

Lemma row_find_of_key (row : Row) (k : string) :
  k ∈ row_keys row → is_Some (row_find row k).
Proof.
  unfold row_keys, row_find. induction row as [|[k' v] row IH]; simpl.
  - intros H; inversion H.
  - intros H. apply elem_of_cons in H as [->|H].
    + rewrite bool_decide_eq_true_2 by reflexivity. simpl. eauto.
    + destruct (bool_decide _); simpl; eauto.
Qed.

Lemma column_or_next {R} (row : Row) (k d : string) (s : state) :
  column_or (R:=R) row k d s = (Next (setting_of row k d), s).
Proof.
  unfold column_or, setting_of, row_getitem, row_get.
  case_bool_decide as Hk; [|done].
  destruct (row_find_of_key row k Hk) as [v ->]. done.
Qed.

Section Methods.

Variable db : Database.

Variable l : list event.

Lemma fetchall_open {R} sql params :
  fetchall (R:=R) db sql params (State l true) =
    match db_query db sql params with
    | Return rs => (Next rs, State (l ++ [Execute sql params]) true)
    | Raise e => (Exc e, State (l ++ [Execute sql params]) true)
    end.
Proof.
  unfold fetchall, bind, gets, emit, modify. simpl.
  by destruct (db_query db sql params).
Qed.

Lemma method_1_spec :
  method_1 db (State l true) =
    match db_query db sql_row [] with
    | Return rows =>
        match head rows with
        | Some row =>
            if row_truthy row
            then (Ret (primary_settings row),
                  State (l ++ [Execute sql_row []; Close]) false)
            else (Next tt, State (l ++ [Execute sql_row []]) true)
        | None => (Next tt, State (l ++ [Execute sql_row []]) true)
        end
    | Raise e =>
        if is_sqlite_error e
        then (Next tt,
              State (l ++ [Execute sql_row [];
                           Stdout ("Method 1 failed: " +:+ exn_str e)]) true)
        else (Exc e, State (l ++ [Execute sql_row []]) true)
    end.
Proof.
  unfold method_1, try_except, fetchone.
  unfold bind at 1. unfold bind at 1. rewrite fetchall_open. fold sql_row.
  destruct (db_query db sql_row []) as [[|row rest]|e]; simpl.
  - done.
  - destruct (row_truthy row); [|done].
    unfold bind. rewrite !column_or_next. simpl. by rewrite <-app_assoc.
  - destruct (is_sqlite_error e); [|done].
    unfold print, emit, modify; simpl. by rewrite <-app_assoc.
Qed.

Lemma kv_loop {R} rows d (s : state) :
  for_fold (S:=state) (R:=R) rows d (λ site_settings row,
     bind (row_getitem row "value") (λ value,
     bind (row_getitem row "key") (λ key,
     next (<[key := value]> site_settings)))) s =
  match kv_dict rows d with
  | Some d' => (Next d', s)
  | None => (Exc (IndexError "No item with that key"), s)
  end.
Proof.
  revert d. induction rows as [|row rows IH]; intros d; simpl; [done|].
  unfold bind at 1. unfold bind at 1. unfold kv_insert, row_getitem.
  destruct (row_find row "value") as [v|]; simpl; [|done].
  unfold bind at 1.
  destruct (row_find row "key") as [k|]; simpl; [|done].
  apply IH.
Qed.

Lemma fill_loop {R} d (s : state) :
  for_fold (S:=state) (R:=R) defaults d (λ site_settings kd,
     match site_settings !! PyStr kd.1 with
     | None => next (<[PyStr kd.1 := PyStr kd.2]> site_settings)
     | Some _ => next site_settings
     end) s = (Next (fill_defaults d), s).
Proof.
  unfold fill_defaults. generalize defaults. intros ds. revert d.
  induction ds as [|kd ds IH]; intros d; simpl; [done|].
  unfold bind, fill_step. destruct (d !! PyStr kd.1); simpl; apply IH.
Qed.

Lemma method_2_spec :
  method_2 db (State l true) =
    match db_query db sql_kv [] with
    | Return [] => (Next tt, State (l ++ [Execute sql_kv []]) true)
    | Return rows =>
        match kv_dict rows ∅ with
        | Some d =>
            (Ret (fill_defaults d), State (l ++ [Execute sql_kv []; Close]) false)
        | None =>
            (Exc (IndexError "No item with that key"),
             State (l ++ [Execute sql_kv []]) true)
        end
    | Raise e =>
        if is_sqlite_error e
        then (Next tt,
              State (l ++ [Execute sql_kv [];
                           Stdout ("Method 2 failed: " +:+ exn_str e)]) true)
        else (Exc e, State (l ++ [Execute sql_kv []]) true)
    end.
Proof.
  unfold method_2, try_except. unfold bind at 1. rewrite fetchall_open. fold sql_kv.
  destruct (db_query db sql_kv []) as [[|row rows]|e].
  - done.
  - unfold bind at 1. rewrite kv_loop.
    destruct (kv_dict (row :: rows) ∅) as [d|]; [|done].
    unfold bind at 1. rewrite fill_loop. simpl. by rewrite <-app_assoc.
  - destruct (is_sqlite_error e); [|done].
    unfold print, emit, modify; simpl. by rewrite <-app_assoc.
Qed.

End Methods.

Lemma get_site_settings_run db st :
  db_connect db = None →
  get_site_settings db st =
    match method_1 db (State (log st ++ [Connect]) true) with
    | (Ret d, s1) => (Return d, State (log s1 ++ [Close]) false)
    | (Exc e, s1) =>
        (Return default_settings,
         State (log s1 ++ [Stdout ("Database error in get_site_settings: "
                                   +:+ exn_str e); Close]) false)
    | (Next _, s1) =>
        match method_2 db s1 with
        | (Ret d, s2) => (Return d, State (log s2 ++ [Close]) false)
        | (Exc e, s2) =>
            (Return default_settings,
             State (log s2 ++ [Stdout ("Database error in get_site_settings: "
                                       +:+ exn_str e); Close]) false)
        | (Next _, s2) =>
            (Return default_settings,
             State (log s2 ++ [Stdout "Using fallback default values"; Close]) false)
        end
    end.
Proof.
  intros Hc. unfold get_site_settings, get_db_connection, def, invoke.
  rewrite Hc. unfold bind at 1. simpl.
  unfold bind at 1. unfold try_finally, try_except. unfold bind at 1.
  destruct (method_1 db _) as [[[]|d|e] s1]; simpl.
  - unfold bind at 1. destruct (method_2 db s1) as [[[]|d|e] s2]; simpl.
    + by rewrite <-app_assoc.
    + done.
    + by rewrite <-app_assoc.
  - done.
  - by rewrite <-app_assoc.
Qed.

Lemma defaults_cases (P : string → string → Prop) :
  P "company_name" "Freak-n-Fries" →
  P "tagline" "Home of the Dutch frikandel in the US" →
  P "phone" "440 453 1877" →
  P "email" "info@freaknfries.com" →
  P "product_name" "Dutch Dawg®" →
  ∀ k d, (k, d) ∈ defaults → P k d.
Proof.
  intros ????? k d Hkd. unfold defaults in Hkd.
  repeat (apply elem_of_cons in Hkd as [[= -> ->]|Hkd]; [assumption|]).
  inversion Hkd.
Qed.

Lemma primary_settings_lookup row k d :
  (k, d) ∈ defaults → primary_settings row !! PyStr k = Some (setting_of row k d).
Proof.
  revert k d. apply defaults_cases; unfold primary_settings, dict_of; simpl;
    by simplify_map_eq.
Qed.

Lemma primary_settings_dom row : dom (primary_settings row) = five.
Proof.
  unfold primary_settings, dict_of, five; simpl.
  rewrite !dom_insert_L, dom_empty_L. set_solver.
Qed.

Lemma default_settings_lookup k d :
  (k, d) ∈ defaults → default_settings !! PyStr k = Some (PyStr d).
Proof.
  revert k d. apply defaults_cases; unfold default_settings, dict_of; simpl;
    by simplify_map_eq.
Qed.

Lemma default_settings_dom : dom default_settings = five.
Proof.
  unfold default_settings, dict_of, five; simpl.
  rewrite !dom_insert_L, dom_empty_L. set_solver.
Qed.

Lemma fill_step_lookup ds (d : dict) (key : pyval) :
  foldl fill_step d ds !! key =
    match d !! key with
    | Some v => Some v
    | None =>
        match key with
        | PyStr k => PyStr <$> (snd <$> find (λ kd, bool_decide (kd.1 = k)) ds)
        | _ => None
        end
    end.
Proof.
  revert d. induction ds as [|[k0 d0] ds IH]; intros d; simpl.
  - destruct (d !! key), key; done.
  - rewrite IH. unfold fill_step at 1; simpl.
    destruct (d !! PyStr k0) eqn:Hk0.
    + destruct (d !! key) eqn:Hkey; [done|].
      destruct key as [| |k|]; try done.
      case_bool_decide; [|done]. congruence.
    + destruct (decide (key = PyStr k0)) as [->|Hne].
      * rewrite lookup_insert_eq, Hk0. by rewrite bool_decide_eq_true_2.
      * rewrite lookup_insert_ne by done.
        destruct (d !! key); [done|]. destruct key as [| |k|]; try done.
        case_bool_decide; [congruence|done].
Qed.

Lemma fill_defaults_lookup (d : dict) (key : pyval) :
  fill_defaults d !! key =
    match d !! key with
    | Some v => Some v
    | None => match key with PyStr k => PyStr <$> default_of k | _ => None end
    end.
Proof. apply fill_step_lookup. Qed.

Lemma default_of_defaults k d : (k, d) ∈ defaults → default_of k = Some d.
Proof. revert k d. by apply defaults_cases. Qed.

Lemma default_of_recognized k d : default_of k = Some d → (k, d) ∈ defaults.
Proof.
  unfold default_of. destruct (find _ _) as [[k' d']|] eqn:Hf; [|done].
  intros [= ->]. apply find_some in Hf as [Hin Hk].
  apply bool_decide_eq_true in Hk. simpl in Hk. subst. by apply list_elem_of_In.
Qed.

Lemma fill_defaults_dom (d : dict) : dom (fill_defaults d) = dom d ∪ five.
Proof.
  apply set_eq. intros key. rewrite elem_of_union, !elem_of_dom, fill_defaults_lookup.
  unfold five. rewrite elem_of_list_to_set, list_elem_of_fmap.
  destruct (d !! key) as [v|] eqn:Hd.
  - split; eauto.
  - split.
    + intros [v Hv]. right. destruct key as [| |k|]; try by inversion Hv.
      destruct (default_of k) as [d0|] eqn:Hk; [|done].
      exists k. split; [done|]. apply default_of_recognized in Hk.
      apply list_elem_of_fmap. by exists (k, d0).
    + intros [[v Hv]|[k [-> Hk]]]; [done|].
      apply list_elem_of_fmap in Hk as [[k' d0] [-> Hin]].
      simpl. rewrite (default_of_defaults _ _ Hin). eauto.
Qed.

Lemma recognized_default k : k ∈ recognized → ∃ d, (k, d) ∈ defaults.
Proof.
  unfold recognized. intros Hk. apply list_elem_of_fmap in Hk as [[k' d] [-> Hin]].
  by exists d.
Qed.

Lemma complete_primary row : complete (primary_settings row).
Proof.
  intros k [d Hk]%recognized_default. rewrite (primary_settings_lookup _ _ _ Hk). eauto.
Qed.

Lemma complete_default : complete default_settings.
Proof.
  intros k [d Hk]%recognized_default. rewrite (default_settings_lookup _ _ Hk). eauto.
Qed.

Lemma complete_fill d : complete (fill_defaults d).
Proof.
  intros k [d0 Hk]%recognized_default. rewrite fill_defaults_lookup.
  destruct (d !! PyStr k); [eauto|]. rewrite (default_of_defaults _ _ Hk). simpl. eauto.
Qed.

Create HintDb settings.

#[local] Hint Resolve complete_primary complete_default complete_fill : settings.

Lemma renders_app (l1 l2 : list event) :
  renders (l1 ++ l2) = (renders l1 ++ renders l2)%list.
Proof. apply omap_app. Qed.

(** Every way the resolver can end: with the defaults, with the dictionary
    of the id=1 row, or with the filled dictionary of the key/value rows. *)
Lemma get_site_settings_cases (db : Database) (st : state) (P : dict → Prop) :
  db_connect db = None →
  P default_settings →
  (∀ rows row,
     db_query db sql_row [] = Return rows →
     head rows = Some row → row_truthy row = true → P (primary_settings row)) →
  (∀ rows d,
     db_query db sql_kv [] = Return rows →
     kv_dict rows ∅ = Some d → P (fill_defaults d)) →
  ∃ d st', get_site_settings db st = (Return d, st') ∧ P d
    ∧ renders (log st') = renders (log st) ∧ conn_open st' = false.
Proof.
  intros Hc Hdef Hrow Hkv.
  assert (Hm2 : ∀ l, renders l = renders (log st) → ∃ d st',
    match method_2 db (State l true) with
    | (Ret d, s2) => (Return d, State (log s2 ++ [Close]) false)
    | (Exc e, s2) =>
        (Return default_settings,
         State (log s2 ++ [Stdout ("Database error in get_site_settings: "
                                  +:+ exn_str e); Close]) false)
    | (Next _, s2) =>
        (Return default_settings,
         State (log s2 ++ [Stdout "Using fallback default values"; Close]) false)
    end = (Return d, st') ∧ P d
      ∧ renders (log st') = renders (log st) ∧ conn_open st' = false).
  { intros l Hl. rewrite method_2_spec.
    destruct (db_query db sql_kv []) as [[|r rs]|e2] eqn:Hq;
      [|destruct (kv_dict (r :: rs) ∅) as [d|] eqn:Hd|destruct (is_sqlite_error e2)];
      do 2 eexists; (split; [reflexivity|]);
      (split; [by eauto|]); simpl;
      by rewrite !renders_app, Hl, !app_nil_r. }
  rewrite (get_site_settings_run _ _ Hc), method_1_spec.
  assert (Hl : ∀ evs, renders evs = [] →
    renders ((log st ++ [Connect]) ++ evs) = renders (log st)).
  { intros evs Hevs. by rewrite !renders_app, Hevs, !app_nil_r. }
  destruct (db_query db sql_row []) as [rows|e1] eqn:Hq.
  - destruct (head rows) as [row|] eqn:Hhead;
      [destruct (row_truthy row) eqn:Htruthy|]; try by apply Hm2, Hl.
    do 2 eexists. split; [reflexivity|]. split; [by eauto|]. simpl.
    by rewrite !renders_app, !app_nil_r.
  - destruct (is_sqlite_error e1); [by apply Hm2, Hl|].
    do 2 eexists. split; [reflexivity|]. split; [done|]. simpl.
    by rewrite !renders_app, !app_nil_r.
Qed.

(** The resolver always returns, and what it returns is complete. *)
Lemma get_site_settings_returns (db : Database) (st : state) :
  db_connect db = None →
  ∃ d st', get_site_settings db st = (Return d, st') ∧ complete d
    ∧ renders (log st') = renders (log st) ∧ conn_open st' = false.
Proof.
  intros Hc. apply get_site_settings_cases; auto with settings.
Qed.

(** C1: whatever the statements answer or raise, [get_site_settings] returns
    to its caller (it never raises) a dictionary that has all five recognized
    keys, provided [sqlite3.connect] itself opened the connection. *)
Theorem get_site_settings_never_raises (db : Database) (st : state) :
  db_connect db = None →
  ∃ d st', get_site_settings db st = (Return d, st') ∧ complete d.
Proof.
  intros Hc.
  destruct (get_site_settings_returns db st Hc) as (d & st' & Hrun & Hd & _).
  eauto.
Qed.

(** The boundary of C1: an error of [sqlite3.connect] is outside every
    [try] and reaches the caller. *)
Lemma get_site_settings_connect_error (db : Database) (st : state) (e : exn) :
  db_connect db = Some e → get_site_settings db st = (Raise e, st).
Proof.
  intros Hc. unfold get_site_settings, get_db_connection, def, invoke, bind.
  by rewrite Hc.
Qed.

Lemma get_site_settings_never_raises_witness :
  db_connect broken_db = None
  ∧ ∃ d st', get_site_settings broken_db (State [] false) = (Return d, st')
      ∧ complete d.
Proof.
  split; [reflexivity|].
  apply (get_site_settings_never_raises broken_db (State [] false)). reflexivity.
Defined.

Lemma row_get_unique (row : Row) k v :
  NoDup (lower <$> row_keys row) → (k, v) ∈ row → row_get row k = v.
Proof.
  unfold row_get, row_find, row_keys.
  induction row as [|[k' v'] row IH]; simpl; intros Hnd Hin; [inversion Hin|].
  apply NoDup_cons in Hnd as [Hnot Hnd].
  apply elem_of_cons in Hin as [[= <- <-]|Hin].
  - by rewrite bool_decide_eq_true_2.
  - case_bool_decide as Hs; simpl; [|by apply IH].
    exfalso. apply Hnot. unfold same_name in Hs. simpl in Hs. rewrite Hs.
    apply list_elem_of_fmap. exists k. split; [done|].
    apply list_elem_of_fmap. by exists (k, v).
Qed.

(** C3: when the id=1 query answers a row, each recognized key maps to the
    value the row holds in that column when the column is present, and to the
    built-in default (never null) when it is absent; the resolver returns at
    once: the log shows the one query and no other statement or fallback. *)
Theorem primary_row_returns_immediately (db : Database) (st : state)
    (row : Row) (rest : list Row) :
  db_connect db = None →
  db_query db sql_row [] = Return (row :: rest) →
  row_truthy row = true →
  ∃ d,
    get_site_settings db st =
      (Return d, State (log st ++ [Connect; Execute sql_row []; Close; Close]) false)
    ∧ dom d = five
    ∧ ∀ k dflt, (k, dflt) ∈ defaults →
        (k ∈ row_keys row →
           d !! PyStr k = Some (row_get row k)
           ∧ (NoDup (lower <$> row_keys row) →
              ∀ v, (k, v) ∈ row → d !! PyStr k = Some v))
        ∧ (k ∉ row_keys row →
           d !! PyStr k = Some (PyStr dflt) ∧ d !! PyStr k ≠ Some PyNone).
Proof.
  intros Hc Hq Hrow. exists (primary_settings row).
  rewrite (get_site_settings_run _ _ Hc), method_1_spec, Hq. simpl. rewrite Hrow.
  simpl. rewrite <-!app_assoc. split; [done|]. split; [apply primary_settings_dom|].
  intros k dflt Hk. rewrite (primary_settings_lookup _ _ _ Hk). unfold setting_of.
  split; intros Hin.
  - rewrite bool_decide_eq_true_2 by done. split; [done|].
    intros Hnd v Hv. by rewrite (row_get_unique _ _ _ Hnd Hv).
  - rewrite bool_decide_eq_false_2 by done. done.
Qed.

Lemma primary_row_returns_immediately_witness :
  db_connect (sqlite_db primary_store) = None
  ∧ db_query (sqlite_db primary_store) sql_row [] = Return [primary_row]
  ∧ row_truthy primary_row = true
  ∧ ∃ d,
      get_site_settings (sqlite_db primary_store) (State [] false) =
        (Return d,
         State ([] ++ [Connect; Execute sql_row []; Close; Close]) false)
      ∧ dom d = five
      ∧ ∀ k dflt, (k, dflt) ∈ defaults →
          (k ∈ row_keys primary_row →
             d !! PyStr k = Some (row_get primary_row k)
             ∧ (NoDup (lower <$> row_keys primary_row) →
                ∀ v, (k, v) ∈ primary_row → d !! PyStr k = Some v))
          ∧ (k ∉ row_keys primary_row →
             d !! PyStr k = Some (PyStr dflt) ∧ d !! PyStr k ≠ Some PyNone).
Proof.
  split; [reflexivity|]. split; [reflexivity|]. split; [reflexivity|].
  apply (primary_row_returns_immediately (sqlite_db primary_store) (State [] false)
           primary_row []); reflexivity.
Defined.

Lemma find_none_iff {A} (f : A → bool) (l : list A) :
  (∀ x, x ∈ l → f x = false) → find f l = None.
Proof.
  induction l as [|x l IH]; simpl; [done|]. intros H.
  rewrite (H x) by left. apply IH. intros y Hy. apply H. by right.
Qed.

Lemma row_find_missing (t : table) (r : Row) (c : string) :
  ¬ has_column t c → r ∈ table_rows t → row_find r c = None.
Proof.
  intros Hno Hr. unfold table_rows in Hr.
  apply list_elem_of_fmap in Hr as [rec [-> _]].
  unfold row_find. rewrite find_none_iff; [done|].
  intros [k v] Hkv. apply bool_decide_eq_false. intros Hs. apply Hno.
  unfold has_column. apply Exists_exists. exists k. split; [|done].
  by apply elem_of_zip_l in Hkv.
Qed.

Lemma row_get_missing (t : table) (r : Row) (c : string) :
  ¬ has_column t c → r ∈ table_rows t → row_get r c = PyNone.
Proof. intros. unfold row_get. by erewrite row_find_missing. Qed.

Lemma project_star (rs : list Row) : project None <$> rs = rs.
Proof. induction rs; simpl; [done|]. by f_equal. Qed.

(** [SELECT * FROM tbl WHERE c = v] *)
Lemma eval_select_where (s : Store) tbl c op params v order :
  bind_where (Select None tbl (Some (c, op)) order) params = Some (Some (c, v)) →
  eval_select s (Select None tbl (Some (c, op)) order) params =
    match s !! tbl with
    | None => Raise (SqliteError ("no such table: " +:+ tbl))
    | Some t =>
        match find (λ c, bool_decide (¬ has_column t c)) (c :: order) with
        | Some c' => Raise (SqliteError ("no such column: " +:+ c'))
        | None =>
            let rs := filter (λ r, sql_eq (row_get r c) v) (table_rows t) in
            Return (match order with [] => rs | cs => merge_sort (order_le cs) rs end)
        end
    end.
Proof.
  intros Hb. unfold eval_select. simpl sel_table. destruct (s !! tbl) as [t|]; [|done].
  unfold referenced. simpl. rewrite Hb. simpl.
  destruct (bool_decide _); [done|]. destruct (find _ order); [done|].
  rewrite project_star. by destruct order.
Qed.

Lemma query_settings_row (s : Store) :
  query s sql_row [] =
    match s !! "settings" with
    | None => Raise (SqliteError "no such table: settings")
    | Some t =>
        if decide (has_column t "id")
        then Return (filter (λ r, sql_eq (row_get r "id") (PyInt 1)) (table_rows t))
        else Raise (SqliteError "no such column: id")
    end.
Proof.
  unfold query. change (statement_of sql_row) with
    (Some (Select None "settings" (Some ("id", Literal (PyInt 1))) [])).
  cbv beta iota.
  rewrite (eval_select_where _ _ _ _ _ (PyInt 1)) by done.
  destruct (s !! "settings") as [t|]; [|done]. simpl.
  destruct (decide (has_column t "id")).
  - by rewrite bool_decide_eq_false_2 by tauto.
  - by rewrite bool_decide_eq_true_2.
Qed.

Lemma query_settings_kv (s : Store) :
  query s sql_kv [] =
    match s !! "settings" with
    | None => Raise (SqliteError "no such table: settings")
    | Some t =>
        if decide (has_column t "key") then
          if decide (has_column t "value")
          then Return (project (Some ["key"; "value"]) <$> table_rows t)
          else Raise (SqliteError "no such column: value")
        else Raise (SqliteError "no such column: key")
    end.
Proof.
  unfold query. change (statement_of sql_kv) with
    (Some (Select (Some ["key"; "value"]) "settings" None [])).
  cbv beta iota.
  unfold eval_select. simpl. destruct (s !! "settings") as [t|]; [|done].
  unfold referenced. simpl.
  destruct (decide (has_column t "key")).
  - rewrite (bool_decide_eq_false_2 (¬ has_column t "key")) by tauto.
    destruct (decide (has_column t "value")).
    + by rewrite (bool_decide_eq_false_2 (¬ has_column t "value")) by tauto.
    + by rewrite bool_decide_eq_true_2.
  - by rewrite bool_decide_eq_true_2.
Qed.

Lemma find_name_some (r : Row) (c : string) kv :
  find (λ kv, bool_decide (same_name kv.1 c)) r = Some kv →
  kv ∈ r ∧ same_name kv.1 c.
Proof.
  intros [Hin Hs]%find_some. split; [by apply list_elem_of_In|].
  by apply bool_decide_eq_true in Hs.
Qed.

Lemma row_find_project (a b c : string) (r : Row) :
  ¬ same_name a b → c = a ∨ c = b →
  row_find (project (Some [a; b]) r) c = row_find r c.
Proof.
  intros Hab Hc. unfold project, row_find. simpl.
  destruct (find (λ kv, bool_decide (same_name kv.1 a)) r) as [x|] eqn:Ha;
    destruct (find (λ kv, bool_decide (same_name kv.1 b)) r) as [y|] eqn:Hb;
    try (pose proof (find_name_some _ _ _ Ha) as [_ Ha']);
    try (pose proof (find_name_some _ _ _ Hb) as [_ Hb']);
    destruct Hc as [-> | ->]; rewrite ?Ha, ?Hb; simpl;
    repeat case_bool_decide; simpl; try done;
    unfold same_name in *; congruence.
Qed.

Lemma kv_insert_project (d : dict) (r : Row) :
  kv_insert d (project (Some ["key"; "value"]) r) = kv_insert d r.
Proof.
  unfold kv_insert. by rewrite !row_find_project by (auto; by compute).
Qed.

Lemma kv_dict_project (rows : list Row) (d : dict) :
  kv_dict (project (Some ["key"; "value"]) <$> rows) d = kv_dict rows d.
Proof.
  revert d. induction rows as [|r rows IH]; intros d; [done|].
  rewrite fmap_cons. cbn [kv_dict]. rewrite kv_insert_project.
  destruct (kv_insert d r); simpl; [apply IH|done].
Qed.

Lemma kv_dict_dom (rows : list Row) (d0 d : dict) :
  kv_dict rows d0 = Some d →
  dom d = dom d0 ∪ list_to_set ((λ r, row_get r "key") <$> rows).
Proof.
  revert d0. induction rows as [|r rows IH]; intros d0; simpl.
  - intros [= ->]. by rewrite (right_id_L ∅ (∪)).
  - unfold kv_insert, row_get.
    destruct (row_find r "value") as [v|]; simpl; [|done].
    destruct (row_find r "key") as [k|]; simpl; [|done].
    intros Hd. rewrite (IH _ Hd), dom_insert_L.
    generalize (list_to_set (C:=gset pyval)
                  ((λ r0, default PyNone (row_find r0 "key")) <$> rows)).
    intros L. rewrite (comm_L (∪) {[k]} (dom d0)). by rewrite (assoc_L (∪)).
Qed.

Lemma defaults_nonempty k dflt : (k, dflt) ∈ defaults → dflt ≠ "".
Proof. revert k dflt. by apply defaults_cases. Qed.

Lemma kv_last_cons (r : Row) (rows : list Row) (key : pyval) :
  kv_last (r :: rows) key =
    match kv_last rows key with
    | Some v => Some v
    | None => if decide (row_get r "key" = key) then Some (row_get r "value") else None
    end.
Proof.
  unfold kv_last. rewrite filter_cons.
  destruct (decide (row_get r "key" = key)); [rewrite last_cons|];
    by destruct (last _).
Qed.

Lemma kv_dict_lookup (rows : list Row) (d0 : dict) :
  Forall has_pair rows →
  ∃ d, kv_dict rows d0 = Some d
    ∧ ∀ key, d !! key = match kv_last rows key with
                         | Some v => Some v
                         | None => d0 !! key
                         end.
Proof.
  intros Hrows. revert d0.
  induction Hrows as [|r rows [[k Hk] [v Hv]] _ IH]; intros d0.
  - exists d0. split; [done|]. intros key. done.
  - cbn [kv_dict]. unfold kv_insert at 1. rewrite Hv, Hk. simpl.
    destruct (IH (<[k:=v]> d0)) as (d & Hd & Hlook).
    exists d. split; [done|]. intros key. rewrite Hlook, kv_last_cons.
    destruct (kv_last rows key); [done|].
    unfold row_get. rewrite Hk, Hv. simpl.
    destruct (decide (k = key)) as [->|Hne].
    + by rewrite lookup_insert_eq.
    + by rewrite lookup_insert_ne.
Qed.

Lemma kv_dict_pairs (rows : list Row) (d0 d : dict) :
  kv_dict rows d0 = Some d → Forall has_pair rows.
Proof.
  revert d0. induction rows as [|r rows IH]; intros d0; [by constructor|].
  cbn [kv_dict]. unfold kv_insert at 1.
  destruct (row_find r "value") as [v|] eqn:Hv; [|done].
  destruct (row_find r "key") as [k|] eqn:Hk; [|done]. simpl.
  intros Hd. apply Forall_cons. split; [|by eapply IH].
  unfold has_pair. rewrite Hk, Hv. eauto.
Qed.

Lemma id_filter (rows : list Row) :
  filter (λ r, sql_eq (row_get r "id") (PyInt 1)) rows
  = filter (λ r, row_get r "id" = PyInt 1) rows.
Proof.
  apply list_filter_iff. intros r. unfold sql_eq. split; [tauto|].
  intros ->. done.
Qed.

Lemma filter_nil_Forall {A} (P : A → Prop) `{∀ x, Decision (P x)} (l : list A) :
  Forall (λ x, ¬ P x) l → filter P l = [].
Proof.
  induction 1 as [|x l Hx _ IH]; [done|]. by rewrite filter_cons_False.
Qed.

Lemma id_filter_no_column (t : table) :
  ¬ has_column t "id" →
  filter (λ r, row_get r "id" = PyInt 1) (table_rows t) = [].
Proof.
  intros Hno. apply filter_nil_Forall. apply Forall_forall. intros r Hr.
  by rewrite (row_get_missing t r "id" Hno Hr).
Qed.

Lemma id_row_truthy (r : Row) : row_get r "id" = PyInt 1 → row_truthy r = true.
Proof. by destruct r. Qed.

Lemma no_pair_without_column (t : table) (c : string) :
  ¬ has_column t c → c = "key" ∨ c = "value" →
  table_rows t ≠ [] → ¬ Forall has_pair (table_rows t).
Proof.
  intros Hno Hc Hne Hall. destruct (table_rows t) as [|r rows] eqn:Hrows; [done|].
  apply Forall_cons in Hall as [[[k Hk] [v Hv]] _].
  assert (Hr : r ∈ table_rows t) by (rewrite Hrows; left).
  pose proof (row_find_missing t r c Hno Hr) as Hf.
  destruct Hc as [-> | ->]; congruence.
Qed.

(** C2, amended: for every store the resolver returns a dictionary that has
    the five recognized keys, and the store decides which.  When a settings
    row has [id] 1, the keys are exactly the five, each with the value of the
    first such row where the row has that column (a value that may be null or
    empty) and with its default otherwise.  Failing that, when the settings
    rows are key/value rows, the keys are the five and every stored key, each
    with the value of the last row that stores it, and each recognized key
    that no row stores with its default.  In every other state (an empty or
    missing table, rows of neither shape) the result is the five non-empty
    defaults. *)
Theorem settings_for_every_store (s : Store) (st : state) :
  ∃ d st', get_site_settings (sqlite_db s) st = (Return d, st')
    ∧ (∀ k dflt, (k, dflt) ∈ defaults → dflt ≠ "" ∧ is_Some (d !! PyStr k))
    ∧ match id_row s, kv_rows s with
      | Some row, _ =>
          dom d = five
          ∧ ∀ k dflt, (k, dflt) ∈ defaults →
              d !! PyStr k =
                Some (if bool_decide (k ∈ row_keys row) then row_get row k
                      else PyStr dflt)
      | None, Some rows =>
          dom d = five ∪ stored_keys s
          ∧ ∀ key, d !! key =
              match kv_last rows key with
              | Some v => Some v
              | None => match key with
                        | PyStr k => PyStr <$> default_of k
                        | _ => None
                        end
              end
      | None, None => d = default_settings
      end.
Proof.
  assert (Hfive : ∀ d : dict, complete d →
            ∀ k dflt, (k, dflt) ∈ defaults → dflt ≠ "" ∧ is_Some (d !! PyStr k)).
  { intros d Hd k dflt Hk. split; [by eapply defaults_nonempty|].
    apply Hd. apply list_elem_of_fmap. by exists (k, dflt). }
  (* Method 2 and the fallback, from any log *)
  assert (Hm2 : ∀ l, id_row s = None → ∃ d st',
    match method_2 (sqlite_db s) (State l true) with
    | (Ret d, s2) => (Return d, State (log s2 ++ [Close]) false)
    | (Exc e, s2) =>
        (Return default_settings,
         State (log s2 ++ [Stdout ("Database error in get_site_settings: "
                                  +:+ exn_str e); Close]) false)
    | (Next _, s2) =>
        (Return default_settings,
         State (log s2 ++ [Stdout "Using fallback default values"; Close]) false)
    end = (Return d, st')
    ∧ (∀ k dflt, (k, dflt) ∈ defaults → dflt ≠ "" ∧ is_Some (d !! PyStr k))
    ∧ match kv_rows s with
      | Some rows =>
          dom d = five ∪ stored_keys s
          ∧ ∀ key, d !! key =
              match kv_last rows key with
              | Some v => Some v
              | None => match key with
                        | PyStr k => PyStr <$> default_of k
                        | _ => None
                        end
              end
      | None => d = default_settings
      end).
  { intros l _. rewrite method_2_spec. cbn [db_query sqlite_db].
    rewrite query_settings_kv. unfold kv_rows, stored_keys, stored_rows.
    destruct (s !! "settings") as [t|] eqn:Ht; cbn [from_option].
    2:{ do 2 eexists. split; [reflexivity|]. split; [apply Hfive, complete_default|done]. }
    destruct (decide (has_column t "key")) as [Hkey|Hkey].
    2:{ cbn [is_sqlite_error]. do 2 eexists. split; [reflexivity|].
        split; [apply Hfive, complete_default|].
        destruct (table_rows t) as [|r rows] eqn:Hrows; [done|].
        rewrite decide_False; [done|]. rewrite <-Hrows.
        apply (no_pair_without_column t "key"); auto. by rewrite Hrows. }
    destruct (decide (has_column t "value")) as [Hvalue|Hvalue].
    2:{ cbn [is_sqlite_error]. do 2 eexists. split; [reflexivity|].
        split; [apply Hfive, complete_default|].
        destruct (table_rows t) as [|r rows] eqn:Hrows; [done|].
        rewrite decide_False; [done|]. rewrite <-Hrows.
        apply (no_pair_without_column t "value"); auto. by rewrite Hrows. }
    destruct (table_rows t) as [|r rows] eqn:Hrows.
    { rewrite fmap_nil. do 2 eexists. split; [reflexivity|].
      split; [apply Hfive, complete_default|done]. }
    rewrite fmap_cons. cbv beta iota. rewrite <-fmap_cons, kv_dict_project.
    destruct (decide (Forall has_pair (r :: rows))) as [Hall|Hnot].
    - destruct (kv_dict_lookup (r :: rows) ∅ Hall) as (d0 & Hd0 & Hlook).
      rewrite Hd0.
      do 2 eexists. split; [reflexivity|].
      split; [apply Hfive, complete_fill|]. split.
      + rewrite fill_defaults_dom, (kv_dict_dom _ _ _ Hd0), dom_empty_L.
        rewrite (left_id_L ∅ (∪)). apply (comm_L (∪)).
      + intros key. rewrite fill_defaults_lookup, Hlook, lookup_empty.
        by destruct (kv_last (r :: rows) key).
    - destruct (kv_dict (r :: rows) ∅) as [d0|] eqn:Hd0.
      { destruct Hnot. by eapply kv_dict_pairs. }
      do 2 eexists. split; [reflexivity|].
      split; [apply Hfive, complete_default|done]. }
  rewrite get_site_settings_run by done. rewrite method_1_spec.
  cbn [db_query sqlite_db]. rewrite query_settings_row.
  unfold id_row at 1. unfold stored_rows at 1.
  destruct (s !! "settings") as [t|] eqn:Ht; cbn [from_option].
  2:{ cbn [is_sqlite_error]. apply Hm2.
      unfold id_row, stored_rows. by rewrite Ht. }
  destruct (decide (has_column t "id")) as [Hid|Hid].
  2:{ cbn [is_sqlite_error]. rewrite id_filter_no_column by done. apply Hm2.
      unfold id_row, stored_rows. rewrite Ht. cbn [from_option].
      by rewrite id_filter_no_column. }
  rewrite id_filter.
  destruct (head (filter _ (table_rows t))) as [row|] eqn:Hhead.
  2:{ apply Hm2. unfold id_row, stored_rows. by rewrite Ht. }
  assert (Hrow : row_get row "id" = PyInt 1).
  { apply head_Some_elem_of, list_elem_of_filter in Hhead. tauto. }
  rewrite (id_row_truthy row Hrow).
  do 2 eexists. split; [reflexivity|].
  split; [apply Hfive, complete_primary|].
  split; [apply primary_settings_dom|].
  intros k dflt Hk. by rewrite (primary_settings_lookup row k dflt Hk).
Qed.

(** The three kinds of store state of the theorem all occur. *)
Example id_row_primary_store : id_row primary_store = Some primary_row.
Proof. reflexivity. Qed.

Example kv_rows_kv_store :
  id_row kv_store = None ∧ kv_rows kv_store = Some (stored_rows kv_store "settings").
Proof. split; reflexivity. Qed.

Example no_rows_empty_store : id_row empty_store = None ∧ kv_rows empty_store = None.
Proof. split; reflexivity. Qed.

Lemma kv_store_run :
  get_site_settings (sqlite_db kv_store) (State [] false) =
    (Return kv_settings,
     State [Connect; Execute sql_row [];
            Stdout "Method 1 failed: no such column: id";
            Execute sql_kv []; Close; Close] false).
Proof.
  rewrite get_site_settings_run by done.
  rewrite method_1_spec. cbn [db_query sqlite_db].
  rewrite query_settings_row. unfold kv_store. rewrite lookup_singleton_eq.
  rewrite decide_False by (by apply (bool_decide_eq_false_1 _)).
  cbn [is_sqlite_error]. rewrite method_2_spec. cbn [db_query sqlite_db].
  rewrite query_settings_kv, lookup_singleton_eq.
  rewrite !decide_True by (by apply (bool_decide_eq_true_1 _)).
  rewrite kv_dict_project. reflexivity.
Qed.

Lemma kv_settings_name : kv_settings !! PyStr "company_name" = Some (PyStr "").
Proof.
  unfold kv_settings. rewrite fill_defaults_lookup.
  rewrite lookup_insert_ne by done. by rewrite lookup_insert_eq.
Qed.

Lemma kv_settings_address :
  kv_settings !! PyStr "address" = Some (PyStr "12 Main St").
Proof.
  unfold kv_settings. rewrite fill_defaults_lookup. by rewrite lookup_insert_eq.
Qed.

(** C2 as worded fails on [kv_store]: the answer has the key [address] beside
    the five, and an empty company name. *)
Lemma kv_store_not_exactly_five_nonempty : ¬ exactly_five_nonempty kv_store.
Proof.
  intros H. destruct (H (State [] false)) as (d & st' & Hrun & Hdom & Hval).
  rewrite kv_store_run in Hrun. injection Hrun as <- <-.
  destruct (Hval _ _ kv_settings_name) as (_ & Hne & _). by apply Hne.
Qed.

(** ** The accessors and the home route *)

#[local] Instance sql_le_refl : Reflexive sql_le.
Proof. intros [| | |]; simpl; done. Qed.

#[local] Instance sql_le_trans : Transitive sql_le.
Proof.
  intros [|x|x|x] [|y|y|y] [|z|z|z]; simpl; try done; try lia; by etrans.
Qed.

#[local] Instance sql_le_total : Total sql_le.
Proof.
  intros [|x|x|x] [|y|y|y]; simpl; auto; try lia; apply total; apply _.
Qed.

#[local] Instance lex_le_total : Total lex_le.
Proof.
  intros k1. induction k1 as [|a k1 IH]; intros [|b k2]; simpl; auto.
  destruct (decide (a = b)) as [->|Hne].
  - destruct (IH k2); auto.
  - destruct (total sql_le a b); auto.
Qed.

#[local] Instance order_le_total cols : Total (order_le cols).
Proof. intros r1 r2. unfold order_le. apply total; apply _. Qed.

#[local] Instance by_name_trans : Transitive by_name.
Proof. intros r1 r2 r3. unfold by_name. apply transitivity. Qed.

Lemma order_by_name (r1 r2 : Row) : order_le ["name"] r1 r2 → by_name r1 r2.
Proof.
  unfold order_le, by_name. simpl. intros [[H _]|[-> _]]; [done|reflexivity].
Qed.

Lemma Sorted_weaken {A} (R1 R2 : relation A) (l : list A) :
  (∀ x y, R1 x y → R2 x y) → Sorted R1 l → Sorted R2 l.
Proof.
  intros HR. induction 1 as [|x l Hs IH Hhd]; constructor; [done|].
  destruct Hhd; constructor; auto.
Qed.


Section Run.

Variable db : Database.
Hypothesis Hc : db_connect db = None.
Variable st : state.

Lemma fetchall_accessor_run (sql : string) (params : list pyval)
    (msg : exn → string) :
  def (
    invoke (get_db_connection db) ;;
    try_finally
      (try_except
         (rows <- fetchall db sql params ;; ret rows)
         is_sqlite_error
         (λ e, print (msg e) ;; ret []))
      close)%py st =
  accessed st sql params id [] msg (db_query db sql params).
Proof.
  unfold def, invoke, get_db_connection, accessed. rewrite Hc.
  unfold bind at 1. simpl. unfold try_finally, try_except. unfold bind at 1.
  unfold fetchall. unfold bind at 1. unfold gets. simpl.
  unfold bind at 1. unfold emit, modify. simpl.
  destruct (db_query db sql params) as [rows|e]; simpl.
  - by rewrite <-!app_assoc.
  - destruct (is_sqlite_error e); simpl; by rewrite <-!app_assoc.
Qed.

Lemma fetchone_accessor_run (sql : string) (params : list pyval)
    (msg : exn → string) :
  def (
    invoke (get_db_connection db) ;;
    try_finally
      (try_except
         (row <- fetchone db sql params ;; ret row)
         is_sqlite_error
         (λ e, print (msg e) ;; ret None))
      close)%py st =
  accessed st sql params head None msg (db_query db sql params).
Proof.
  unfold def, invoke, get_db_connection, accessed. rewrite Hc.
  unfold bind at 1. simpl. unfold try_finally, try_except. unfold bind at 1.
  unfold fetchone. unfold bind at 1.
  unfold fetchall. unfold bind at 1. unfold gets. simpl.
  unfold bind at 1. unfold emit, modify. simpl.
  destruct (db_query db sql params) as [rows|e]; simpl.
  - by rewrite <-!app_assoc.
  - destruct (is_sqlite_error e); simpl; by rewrite <-!app_assoc.
Qed.

Lemma get_retailers_by_category_run category :
  get_retailers_by_category db category st =
    accessed st sql_retailers [PyStr category] id []
      (λ e, "Error getting retailers for category " +:+ category +:+ ": "
            +:+ exn_str e)
      (db_query db sql_retailers [PyStr category]).
Proof. apply fetchall_accessor_run. Qed.

Lemma get_testimonials_run :
  get_testimonials db st =
    accessed st sql_testimonials [] id []
      (λ e, "Error getting testimonials: " +:+ exn_str e)
      (db_query db sql_testimonials []).
Proof. apply fetchall_accessor_run. Qed.

Lemma get_page_run slug :
  get_page db slug st =
    accessed st sql_page [PyStr slug] head None
      (λ e, "Error getting page " +:+ slug +:+ ": " +:+ exn_str e)
      (db_query db sql_page [PyStr slug]).
Proof. apply fetchone_accessor_run. Qed.

Lemma get_page_content_run page_name :
  get_page_content db page_name st =
    accessed st sql_content [PyStr page_name] head None
      (λ e, "Error getting page content " +:+ page_name +:+ ": " +:+ exn_str e)
      (db_query db sql_content [PyStr page_name]).
Proof. apply fetchone_accessor_run. Qed.

End Run.

(** An error of [sqlite3.connect] is outside the [try] of both lookups and
    reaches the caller. *)
Lemma lookup_connect_error (db : Database) (e : exn) (key : string) (st : state) :
  db_connect db = Some e →
  get_page db key st = (Raise e, st)
  ∧ get_page_content db key st = (Raise e, st).
Proof.
  intros Hc. split; [unfold get_page|unfold get_page_content];
    unfold def, bind, invoke, get_db_connection; by rewrite Hc.
Qed.

(** C4, amended: for every slug and page name, when the connection opens,
    [get_page] and [get_page_content] return [None] when the lookup finds no
    record, and also when it fails with a data-access error, which they
    print; when the connection cannot be opened, both raise the error of
    [sqlite3.connect] to their caller. *)
Theorem lookups_absent (db : Database) (slug page_name : string) (st : state) :
  no_record (db_query db sql_page [PyStr slug]) →
  no_record (db_query db sql_content [PyStr page_name]) →
  match db_connect db with
  | None =>
      (get_page db slug st).1 = Return None
      ∧ (get_page_content db page_name st).1 = Return None
      ∧ (∀ m, db_query db sql_page [PyStr slug] = Raise (SqliteError m) →
           Stdout ("Error getting page " +:+ slug +:+ ": " +:+ m)
             ∈ log (get_page db slug st).2)
      ∧ (∀ m, db_query db sql_content [PyStr page_name] = Raise (SqliteError m) →
           Stdout ("Error getting page content " +:+ page_name +:+ ": " +:+ m)
             ∈ log (get_page_content db page_name st).2)
  | Some e =>
      get_page db slug st = (Raise e, st)
      ∧ get_page_content db page_name st = (Raise e, st)
  end.
Proof.
  intros Hp Hpc. destruct (db_connect db) as [e|] eqn:Hc.
  - split; by eapply lookup_connect_error.
  - rewrite get_page_run, get_page_content_run by done.
    unfold accessed. repeat split.
    + by destruct Hp as [-> | [m ->]].
    + by destruct Hpc as [-> | [m ->]].
    + intros m ->. simpl. rewrite !elem_of_app, !elem_of_cons. auto.
    + intros m ->. simpl. rewrite !elem_of_app, !elem_of_cons. auto.
Qed.

Lemma lookups_absent_witness :
  no_record (db_query (sqlite_db pages_store) sql_page
               [PyStr "nonexistent-slug"])
  ∧ no_record (db_query (sqlite_db pages_store) sql_content
                 [PyStr "nonexistent-name"])
  ∧ (get_page (sqlite_db pages_store) "nonexistent-slug" (State [] false)).1
      = Return None
  ∧ (get_page_content (sqlite_db pages_store) "nonexistent-name" (State [] false)).1
      = Return None.
Proof.
  assert (H1 : no_record (db_query (sqlite_db pages_store) sql_page
                            [PyStr "nonexistent-slug"]))
    by (left; reflexivity).
  assert (H2 : no_record (db_query (sqlite_db pages_store) sql_content
                            [PyStr "nonexistent-name"]))
    by (left; reflexivity).
  split; [exact H1|]. split; [exact H2|].
  pose proof (lookups_absent (sqlite_db pages_store) "nonexistent-slug"
                "nonexistent-name" (State [] false) H1 H2) as H.
  change (db_connect (sqlite_db pages_store)) with (@None exn) in H.
  destruct H as (Hp & Hc & _).
  split; [exact Hp|exact Hc].
Defined.

(** C4 as stated fails: on a database file that cannot be opened, both
    lookups raise. *)
Lemma unreachable_db_lookups_raise : ¬ lookups_never_raise unreachable_db.
Proof.
  intros H.
  destruct (H "nonexistent-slug" "nonexistent-name" (State [] false))
    as [(r & st' & Hr) _].
  discriminate Hr.
Qed.

(** * Store-level *)

Lemma query_sqlite_only (s : Store) sql params e :
  query s sql params = Raise e → is_sqlite_error e = true.
Proof.
  unfold query, eval_select.
  destruct (statement_of sql) as [q|]; [|by intros [= <-]].
  destruct (s !! sel_table q) as [t|]; [|by intros [= <-]].
  destruct (find _ (referenced q)); [by intros [= <-]|].
  destruct (bind_where q params) as [w|]; [done|by intros [= <-]].
Qed.

Lemma query_where (s : Store) sql tbl col op params v :
  statement_of sql = Some (Select None tbl (Some (col, op)) []) →
  bind_where (Select None tbl (Some (col, op)) []) params = Some (Some (col, v)) →
  query s sql params =
    match s !! tbl with
    | None => Raise (SqliteError ("no such table: " +:+ tbl))
    | Some t =>
        if decide (has_column t col)
        then Return (filter (λ r, sql_eq (row_get r col) v) (table_rows t))
        else Raise (SqliteError ("no such column: " +:+ col))
    end.
Proof.
  intros Hq Hb. unfold query. rewrite Hq.
  rewrite (eval_select_where _ _ _ _ _ v) by done.
  destruct (s !! tbl) as [t|]; [|done]. simpl.
  destruct (decide (has_column t col)).
  - by rewrite bool_decide_eq_false_2 by tauto.
  - by rewrite bool_decide_eq_true_2.
Qed.

Lemma filter_none {A} (P : A → Prop) `{∀ x, Decision (P x)} (l : list A) :
  (∀ x, x ∈ l → ¬ P x) → filter P l = [].
Proof.
  induction l as [|x l IH]; intros Hl; [done|].
  rewrite filter_cons_False by (apply Hl; left).
  apply IH. intros y Hy. apply Hl. by right.
Qed.

Lemma filter_where (s : Store) tbl col v :
  v ≠ PyNone →
  match s !! tbl with
  | None => []
  | Some t =>
      if decide (has_column t col)
      then filter (λ r, sql_eq (row_get r col) v) (table_rows t)
      else []
  end = filter (λ r, row_get r col = v) (stored_rows s tbl).
Proof.
  intros Hv. unfold stored_rows. destruct (s !! tbl) as [t|]; simpl; [|done].
  destruct (decide (has_column t col)) as [Hcol|Hcol].
  - apply list_filter_iff. intros r. unfold sql_eq. split; [tauto|].
    intros ->. done.
  - symmetry. apply filter_none. intros r Hr.
    rewrite (row_get_missing _ _ _ Hcol Hr). congruence.
Qed.

Lemma no_match_no_record (s : Store) sql tbl col key :
  statement_of sql = Some (Select None tbl (Some (col, Placeholder)) []) →
  (∀ r, r ∈ stored_rows s tbl → row_get r col ≠ PyStr key) →
  no_record (query s sql [PyStr key]).
Proof.
  intros Hq Hno. rewrite (query_where _ _ _ _ _ _ (PyStr key) Hq) by done.
  pose proof (filter_where s tbl col (PyStr key)) as Hf. unfold stored_rows in *.
  destruct (s !! tbl) as [t|]; [|right; eauto]. simpl in *.
  destruct (decide (has_column t col)); [|right; eauto].
  left. rewrite Hf by done. f_equal. by apply filter_none.
Qed.

(** With no pages table at all, the error is printed and [None] returned. *)
Example get_page_missing_table :
  get_page (sqlite_db empty_store) "nonexistent-slug" (State [] false) =
    (Return None,
     State [Connect; Execute sql_page [PyStr "nonexistent-slug"];
            Stdout "Error getting page nonexistent-slug: no such table: pages";
            Close] false).
Proof. reflexivity. Qed.

Lemma query_retailers (s : Store) (category : string) :
  query s sql_retailers [PyStr category] =
    match s !! "retailers" with
    | None => Raise (SqliteError "no such table: retailers")
    | Some t =>
        if decide (has_column t "category") then
          if decide (has_column t "name")
          then Return (merge_sort (order_le ["name"])
                 (filter (λ r, sql_eq (row_get r "category") (PyStr category))
                    (table_rows t)))
          else Raise (SqliteError "no such column: name")
        else Raise (SqliteError "no such column: category")
    end.
Proof.
  unfold query. change (statement_of sql_retailers) with
    (Some (Select None "retailers" (Some ("category", Placeholder)) ["name"])).
  cbv beta iota.
  rewrite (eval_select_where _ _ _ _ _ (PyStr category)) by done.
  destruct (s !! "retailers") as [t|]; [|done]. simpl.
  destruct (decide (has_column t "category")).
  - rewrite (bool_decide_eq_false_2 (¬ has_column t "category")) by tauto.
    destruct (decide (has_column t "name")).
    + by rewrite (bool_decide_eq_false_2 (¬ has_column t "name")) by tauto.
    + by rewrite bool_decide_eq_true_2.
  - by rewrite bool_decide_eq_true_2.
Qed.

(** C5: for every category and every content of the retailers table,
    [get_retailers_by_category] returns exactly the rows whose category is the
    argument, in ascending order of name. *)
Theorem retailers_by_category_sorted (s : Store) (category : string) (st : state) :
  retailers_named s →
  ∃ l st', get_retailers_by_category (sqlite_db s) category st = (Return l, st')
    ∧ l ≡ₚ filter (λ r, row_get r "category" = PyStr category)
             (stored_rows s "retailers")
    ∧ StronglySorted by_name l.
Proof.
  intros Hnamed. rewrite get_retailers_by_category_run by done.
  unfold accessed. cbn [db_query sqlite_db]. rewrite query_retailers.
  rewrite <-(filter_where s "retailers" "category" (PyStr category)) by done.
  unfold retailers_named in Hnamed.
  destruct (s !! "retailers") as [t|]; simpl.
  - destruct (decide (has_column t "category")) as [Hcat|Hcat]; simpl.
    + rewrite decide_True by eauto.
      do 2 eexists. split; [done|]. split; [apply merge_sort_Permutation|].
      apply Sorted_StronglySorted; [apply _|].
      eapply Sorted_weaken; [apply order_by_name|].
      apply Sorted_merge_sort. apply _.
    + do 2 eexists. split; [done|]. split; [done|constructor].
  - do 2 eexists. split; [done|]. split; [done|constructor].
Qed.

Lemma retailers_by_category_sorted_witness :
  retailers_named retailer_store
  ∧ ∃ l st',
      get_retailers_by_category (sqlite_db retailer_store) "online" (State [] false)
        = (Return l, st')
      ∧ l ≡ₚ filter (λ r, row_get r "category" = PyStr "online")
               (stored_rows retailer_store "retailers")
      ∧ StronglySorted by_name l.
Proof.
  assert (Hnamed : retailers_named retailer_store).
  { intros t Ht _. unfold retailer_store in Ht. rewrite lookup_singleton_eq in Ht.
    injection Ht as <-. by apply (bool_decide_eq_true_1 _). }
  split; [exact Hnamed|].
  apply (retailers_by_category_sorted retailer_store "online" (State [] false)).
  exact Hnamed.
Defined.

(** The two online retailers, stored as Beta then Alpha, come back as Alpha
    then Beta. *)
Example online_retailers_in_name_order :
  (get_retailers_by_category (sqlite_db retailer_store) "online" (State [] false)).1
  = Return [alpha_store; beta_store].
Proof. reflexivity. Qed.

Lemma bind_invoke_return {S R A B} (f : Fn S A) (k : A → M S R B) s a s' :
  f s = (Return a, s') → bind (invoke f) k s = k a s'.
Proof. intros Hf. unfold bind, invoke. by rewrite Hf. Qed.

Lemma union_injected (ctx : context) (d' : dict) :
  is_Some (ctx !! "site_settings") → is_Some (ctx !! "settings") →
  ctx ∪ ({[ "site_settings" := CtxSettings d';
            "settings" := CtxSettings d' ]} : context) = ctx.
Proof.
  intros [x Hx] [y Hy]. apply map_eq. intros i.
  destruct (ctx !! i) as [v|] eqn:Hi.
  - by apply lookup_union_Some_l.
  - rewrite lookup_union_r by done.
    rewrite lookup_insert_ne by congruence.
    by rewrite lookup_singleton_ne by congruence.
Qed.

Lemma index_context_union d hc t d' :
  index_context d hc t
    ∪ ({[ "site_settings" := CtxSettings d';
          "settings" := CtxSettings d' ]} : context)
  = index_context d hc t.
Proof.
  apply union_injected; unfold index_context.
  - rewrite lookup_insert_eq. eauto.
  - rewrite lookup_insert_ne by done. rewrite lookup_insert_eq. eauto.
Qed.

Lemma index_context_testimonial d hc t :
  index_context d hc t !! "testimonial" = Some (CtxRow t).
Proof.
  unfold index_context. rewrite !lookup_insert_ne by done.
  by rewrite lookup_singleton_eq.
Qed.

Lemma get_testimonials_store (s : Store) (st : state) :
  ∃ st', get_testimonials (sqlite_db s) st = (Return (active_testimonials s), st')
    ∧ renders (log st') = renders (log st).
Proof.
  rewrite get_testimonials_run by done. unfold accessed.
  cbn [db_query sqlite_db].
  rewrite (query_where _ _ "testimonials" "active" (Literal (PyInt 1)) _
             (PyInt 1)) by done.
  unfold active_testimonials.
  rewrite <-(filter_where s "testimonials" "active" (PyInt 1)) by done.
  destruct (s !! "testimonials") as [t|]; simpl;
    [destruct (decide (has_column t "active")); simpl|];
    eexists; (split; [reflexivity|]); simpl;
    by rewrite !renders_app, !app_nil_r.
Qed.

Lemma get_page_content_store (s : Store) (page_name : string) (st : state) :
  ∃ r st', get_page_content (sqlite_db s) page_name st = (Return r, st')
    ∧ renders (log st') = renders (log st).
Proof.
  rewrite get_page_content_run by done. unfold accessed.
  cbn [db_query sqlite_db].
  destruct (query s _ _) as [rows|e] eqn:Hq.
  - do 2 eexists. split; [reflexivity|]. simpl.
    by rewrite !renders_app, !app_nil_r.
  - rewrite (query_sqlite_only _ _ _ _ Hq).
    do 2 eexists. split; [reflexivity|]. simpl.
    by rewrite !renders_app, !app_nil_r.
Qed.

(** The home route renders its template once, with the first active
    testimonial, whether or not the template engine then fails. *)
Lemma index_renders (s : Store) (jinja : string → context → outcome string)
    (st : state) :
  ∃ d hc,
    renders (log (index (sqlite_db s) jinja st).2) =
      (renders (log st)
         ++ [("index.html", index_context d hc (head (active_testimonials s)))])%list.
Proof.
  destruct (get_site_settings_returns (sqlite_db s) st eq_refl)
    as (d & s1 & H1 & _ & L1 & _).
  destruct (get_page_content_store s "home" s1) as (hc & s2 & H2 & L2).
  destruct (get_testimonials_store s s2) as (s3 & H3 & L3).
  destruct (get_site_settings_returns (sqlite_db s) s3 eq_refl)
    as (d' & s4 & H4 & _ & L4 & _).
  exists d, hc.
  unfold index, def, try_except.
  rewrite (bind_invoke_return _ _ _ _ _ H1).
  rewrite (bind_invoke_return _ _ _ _ _ H2).
  rewrite (bind_invoke_return _ _ _ _ _ H3).
  fold (index_context d hc (head (active_testimonials s))).
  unfold bind at 1, invoke at 1, render_template, def.
  unfold bind at 1, invoke at 1, inject_global_vars, def.
  rewrite (bind_invoke_return _ _ _ _ _ H4). cbn [ret].
  rewrite index_context_union.
  unfold bind at 1, emit, modify.
  destruct (jinja "index.html" _) as [text|e]; simpl.
  - rewrite renders_app. simpl. congruence.
  - unfold bind, print, emit, modify; simpl.
    rewrite !renders_app. simpl. rewrite app_nil_r. congruence.
Qed.

(** C6: [get_testimonials] returns exactly the rows whose [active] flag is 1
    (a row with flag 0 is never among them), and the home route hands its
    template the first of them and no other. *)
Theorem home_surfaces_first_active (s : Store)
    (jinja : string → context → outcome string) (st : state) :
  (∃ st', get_testimonials (sqlite_db s) st = (Return (active_testimonials s), st'))
  ∧ (∀ r, r ∈ active_testimonials s ↔
          r ∈ stored_rows s "testimonials" ∧ row_get r "active" = PyInt 1)
  ∧ (∀ r, row_get r "active" = PyInt 0 → r ∉ active_testimonials s)
  ∧ ∃ d hc,
      let ctx := index_context d hc (head (active_testimonials s)) in
      renders (log (index (sqlite_db s) jinja st).2) =
        (renders (log st) ++ [("index.html", ctx)])%list
      ∧ ctx !! "testimonial" = Some (CtxRow (head (active_testimonials s))).
Proof.
  split.
  { destruct (get_testimonials_store s st) as (st' & Hrun & _). eauto. }
  split.
  { intros r. unfold active_testimonials. rewrite list_elem_of_filter. tauto. }
  split.
  { intros r H0. unfold active_testimonials. rewrite list_elem_of_filter.
    intros [H1 _]. congruence. }
  destruct (index_renders s jinja st) as (d & hc & Hlog).
  exists d, hc. cbv zeta. split; [done|apply index_context_testimonial].
Qed.

(** Of "Great!" (active) and "Meh" (inactive) only the first is active. *)
Example great_is_the_only_active :
  active_testimonials testimonial_store = [great].
Proof. reflexivity. Qed.

(** With those two stored, the home page is rendered once, with "Great!". *)
Example home_shows_great (jinja : string → context → outcome string) :
  ∃ d hc,
    renders (log (index (sqlite_db testimonial_store) jinja (State [] false)).2)
    = [("index.html", index_context d hc (Some great))].
Proof.
  destruct (index_renders testimonial_store jinja (State [] false))
    as (d & hc & Hlog).
  exists d, hc. by rewrite Hlog, great_is_the_only_active.
Qed.

(** * Further properties of app.py *)

Import Routes.


Ltac route_step :=
  match goal with
  | |- context [db_connect ?db] => destruct (db_connect db)
  | |- context [db_query ?db ?q ?p] => destruct (db_query db q p)
  | |- context [if is_sqlite_error ?e then _ else _] =>
      destruct (is_sqlite_error e)
  | |- context [let (_, _) := ?f ?s in _] => destruct (f s) as [[?|?] ?]
  end; simpl.

Ltac route_run :=
  unfold def, try_except, try_finally, bind, invoke, get_db_connection,
    fetchall, print, emit, close, modify, gets, eval;
  simpl; repeat route_step.

(** X1: the four page routes never raise.  Whatever the database and the
    template engine do, [index], [about], [where_to_buy] and [admin] return a
    response: either the rendered page with status 200, or the plain text
    "Error loading ... page: <exception>" with status 500. *)
Theorem routes_never_raise (db : Database)
    (jinja : string → context → outcome string) (dict_str : dict → string)
    (st : state) :
  (∃ r st', index db jinja st = (Return r, st') ∧ answered "home" r)
  ∧ (∃ r st', about db jinja dict_str st = (Return r, st') ∧ answered "about" r)
  ∧ (∃ r st', where_to_buy db jinja dict_str st = (Return r, st')
       ∧ answered "where to buy" r)
  ∧ (∃ r st', admin db jinja st = (Return r, st') ∧ answered "admin" r).
Proof.
  unfold answered. repeat split.
  - unfold index. route_run; eauto 6.
  - unfold about. route_run; eauto 6.
  - unfold where_to_buy. route_run; eauto 6.
  - unfold admin. route_run; eauto 6.
Qed.

(** X2: when the database cannot be opened, each of the four page routes
    answers status 500 with the text of the connection error, while the two
    error handlers [not_found] and [internal_error], which have no [try],
    raise that error themselves. *)
Theorem connect_failure_reaches_every_page (db : Database)
    (jinja : string → context → outcome string) (dict_str : dict → string)
    (bytes_repr : string → string) (st : state) (e : exn) :
  db_connect db = Some e →
  (index db jinja st).1
    = Return (Response ("Error loading home page: " +:+ exn_str e) 500)
  ∧ (about db jinja dict_str st).1
    = Return (Response ("Error loading about page: " +:+ exn_str e) 500)
  ∧ (where_to_buy db jinja dict_str st).1
    = Return (Response ("Error loading where to buy page: " +:+ exn_str e) 500)
  ∧ (admin db jinja st).1
    = Return (Response ("Error loading admin page: " +:+ exn_str e) 500)
  ∧ (not_found db bytes_repr st).1 = Raise e
  ∧ (internal_error db bytes_repr st).1 = Raise e.
Proof.
  intros Hc.
  pose proof (get_site_settings_connect_error db st e Hc) as Hs.
  repeat split.
  - unfold index, def, try_except, bind, invoke. by rewrite Hs.
  - unfold about, def, try_except, bind, invoke. by rewrite Hs.
  - unfold where_to_buy, def, try_except, bind, invoke. by rewrite Hs.
  - unfold admin, def, try_except, bind, invoke. by rewrite Hs.
  - unfold not_found, def, bind, invoke. by rewrite Hs.
  - unfold internal_error, def, bind, invoke. by rewrite Hs.
Qed.

Lemma connect_failure_reaches_every_page_witness :
  db_connect unreachable_db = Some (SqliteError "unable to open database file")
  ∧ (index unreachable_db (λ _ _, Return "") (State [] false)).1
      = Return (Response "Error loading home page: unable to open database file" 500)
  ∧ (not_found unreachable_db (λ b, b) (State [] false)).1
      = Raise (SqliteError "unable to open database file").
Proof.
  split; [reflexivity|].
  destruct (connect_failure_reaches_every_page unreachable_db (λ _ _, Return "")
              (λ _, "") (λ b, b) (State [] false)
              (SqliteError "unable to open database file") eq_refl)
    as (Hi & _ & _ & _ & Hn & _).
  split; [exact Hi|exact Hn].
Defined.

(** X3: when the database can be opened, the error handlers answer 404,
    respectively 500, with the company name that [get_site_settings]
    resolved, whatever the queries do. *)
Theorem error_handlers_name_the_company (db : Database)
    (bytes_repr : string → string) (st : state) :
  db_connect db = None →
  ∃ d v st',
    get_site_settings db st = (Return d, st')
    ∧ d !! PyStr "company_name" = Some v
    ∧ not_found db bytes_repr st
        = (Return (Response ("Page not found - " +:+ py_str bytes_repr v) 404), st')
    ∧ internal_error db bytes_repr st
        = (Return (Response ("Internal server error - " +:+ py_str bytes_repr v) 500),
           st').
Proof.
  intros Hc.
  destruct (get_site_settings_returns db st Hc) as (d & st' & Hrun & Hd & _).
  destruct (Hd "company_name") as [v Hv].
  { apply list_elem_of_In. simpl. auto. }
  exists d, v, st'. split; [done|]. split; [done|].
  unfold not_found, internal_error, def, bind, invoke, dict_getitem.
  by rewrite Hrun, Hv.
Qed.

Lemma error_handlers_name_the_company_witness :
  db_connect broken_db = None
  ∧ ∃ d v st',
      get_site_settings broken_db (State [] false) = (Return d, st')
      ∧ d !! PyStr "company_name" = Some v
      ∧ not_found broken_db (λ b, b) (State [] false)
          = (Return (Response ("Page not found - " +:+ py_str (λ b, b) v) 404), st')
      ∧ internal_error broken_db (λ b, b) (State [] false)
          = (Return (Response ("Internal server error - " +:+ py_str (λ b, b) v) 500),
             st').
Proof.
  split; [reflexivity|].
  apply (error_handlers_name_the_company broken_db (λ b, b) (State [] false)).
  reflexivity.
Defined.


(** X4: a settings table that is missing or has no rows resolves to the
    five built-in defaults, and the resolver reports the fallback on
    standard output. *)
Theorem empty_settings_give_defaults (s : Store) (st : state) :
  stored_rows s "settings" = [] →
  ∃ st', get_site_settings (sqlite_db s) st = (Return default_settings, st')
    ∧ Stdout "Using fallback default values" ∈ log st'.
Proof.
  intros Hrows. rewrite get_site_settings_run by done.
  assert (Hq1 : ∃ l', method_1 (sqlite_db s) (State (log st ++ [Connect]) true)
                 = (Next tt, State l' true)).
  { rewrite method_1_spec. cbn [db_query sqlite_db]. rewrite query_settings_row.
    unfold stored_rows in Hrows. destruct (s !! "settings") as [t|]; simpl in *.
    - destruct (decide (has_column t "id")); simpl; [|eauto].
      rewrite Hrows. simpl. eauto.
    - eauto. }
  destruct Hq1 as [l' ->].
  rewrite method_2_spec. cbn [db_query sqlite_db]. rewrite query_settings_kv.
  unfold stored_rows in Hrows. destruct (s !! "settings") as [t|]; simpl in *.
  - destruct (decide (has_column t "key")); simpl.
    + destruct (decide (has_column t "value")); simpl.
      * rewrite Hrows. simpl. eexists. split; [done|]. simpl.
        rewrite !elem_of_app, !elem_of_cons. auto.
      * eexists. split; [done|]. simpl. rewrite !elem_of_app, !elem_of_cons. auto.
    + eexists. split; [done|]. simpl. rewrite !elem_of_app, !elem_of_cons. auto.
  - eexists. split; [done|]. simpl. rewrite !elem_of_app, !elem_of_cons. auto.
Qed.

Lemma empty_settings_give_defaults_witness :
  stored_rows empty_store "settings" = []
  ∧ ∃ st', get_site_settings (sqlite_db empty_store) (State [] false)
             = (Return default_settings, st')
      ∧ Stdout "Using fallback default values" ∈ log st'.
Proof.
  split; [reflexivity|].
  apply (empty_settings_give_defaults empty_store (State [] false)). reflexivity.
Defined.


Lemma row_find_zip (cols : list string) (rec : list pyval) (c : string) :
  Exists (λ x, same_name x c) cols → length rec = length cols →
  is_Some (row_find (zip cols rec) c).
Proof.
  unfold row_find. intros Hex. revert rec.
  induction Hex as [x cols Hx|x cols Hex IH]; intros [|v rec] Hlen;
    simplify_eq/=.
  - rewrite bool_decide_eq_true_2 by done. simpl. eauto.
  - destruct (bool_decide _); simpl; eauto.
Qed.

(** X5: for a key/value settings table with at least one row and no row
    whose [id] is 1, every key resolves to the value of the LAST stored row
    with that key; a key that no row has resolves to its default when it is
    one of the five recognized ones, and is absent otherwise. *)
Theorem key_value_rows_last_wins (s : Store) (t : table) (st : state) :
  s !! "settings" = Some t →
  has_column t "key" → has_column t "value" →
  Forall (λ rec, length rec = length (columns t)) (records t) →
  records t ≠ [] →
  filter (λ r, row_get r "id" = PyInt 1) (table_rows t) = [] →
  ∃ d st', get_site_settings (sqlite_db s) st = (Return d, st')
    ∧ ∀ key, d !! key =
        match kv_last (table_rows t) key with
        | Some v => Some v
        | None => match key with
                  | PyStr k => PyStr <$> default_of k
                  | _ => None
                  end
        end.
Proof.
  intros Ht Hkey Hvalue Hfull Hne Hid.
  rewrite get_site_settings_run by done.
  assert (Hq1 : ∃ l', method_1 (sqlite_db s) (State (log st ++ [Connect]) true)
                 = (Next tt, State l' true)).
  { rewrite method_1_spec. cbn [db_query sqlite_db].
    rewrite query_settings_row, Ht.
    destruct (decide (has_column t "id")); simpl; [|eauto].
    rewrite (list_filter_iff _ (λ r, row_get r "id" = PyInt 1)), Hid; [simpl; eauto|].
    intros r. unfold sql_eq. split; [tauto|]. intros ->. done. }
  destruct Hq1 as [l' ->].
  rewrite method_2_spec. cbn [db_query sqlite_db].
  rewrite query_settings_kv, Ht, !decide_True by done.
  destruct (kv_dict_lookup (table_rows t) ∅) as (d & Hd & Hlook).
  { unfold table_rows. apply Forall_fmap. eapply Forall_impl; [exact Hfull|].
    intros rec Hlen. simpl. split; by apply row_find_zip. }
  destruct (project _ <$> table_rows t) as [|r rs] eqn:Hrows.
  { apply fmap_nil_inv in Hrows. unfold table_rows in Hrows.
    apply fmap_nil_inv in Hrows. done. }
  rewrite <-Hrows, kv_dict_project, Hd.
  do 2 eexists. split; [done|]. intros key.
  rewrite fill_defaults_lookup, Hlook, lookup_empty.
  by destruct (kv_last (table_rows t) key).
Qed.

Lemma key_value_rows_last_wins_witness :
  twice_store !! "settings" = Some twice_table
  ∧ ∃ d st', get_site_settings (sqlite_db twice_store) (State [] false) = (Return d, st')
      ∧ d !! PyStr "phone" = Some (PyStr "555 0199")
      ∧ d !! PyStr "email" = Some (PyStr "info@freaknfries.com").
Proof.
  assert (Ht : twice_store !! "settings" = Some twice_table)
    by apply lookup_singleton_eq.
  split; [exact Ht|].
  destruct (key_value_rows_last_wins twice_store twice_table (State [] false) Ht)
    as (d & st' & Hrun & Hd).
  - by apply (bool_decide_eq_true_1 _).
  - by apply (bool_decide_eq_true_1 _).
  - by repeat constructor.
  - done.
  - reflexivity.
  - exists d, st'. split; [exact Hrun|]. split.
    + rewrite Hd. reflexivity.
    + rewrite Hd. reflexivity.
Defined.


Lemma primary_settings_no_column (row : Row) :
  (∀ k, k ∈ recognized → k ∉ row_keys row) →
  primary_settings row = default_settings.
Proof.
  intros Hno. unfold primary_settings, default_settings. f_equal.
  apply list_fmap_ext. intros i [k d] Hkd. simpl. f_equal.
  unfold setting_of. rewrite bool_decide_eq_false_2; [done|].
  apply Hno. unfold recognized. apply list_elem_of_fmap. exists (k, d).
  split; [done|]. by eapply list_elem_of_lookup_2.
Qed.

(** X6: a row with [id] 1 decides the result on its own.  When that row
    has none of the five recognized columns, all five settings are the
    defaults, the key/value statement is never executed (so key/value rows
    of the same table are ignored), and the connection is closed twice. *)
Theorem id_row_shadows_key_value_rows (s : Store) (t : table) (row : Row)
    (st : state) :
  s !! "settings" = Some t →
  head (filter (λ r, row_get r "id" = PyInt 1) (table_rows t)) = Some row →
  row ≠ [] →
  (∀ k, k ∈ recognized → k ∉ row_keys row) →
  get_site_settings (sqlite_db s) st =
    (Return default_settings,
     State (log st ++ [Connect; Execute sql_row []; Close; Close]) false).
Proof.
  intros Ht Hhead Hrow Hno. rewrite get_site_settings_run by done.
  rewrite method_1_spec. cbn [db_query sqlite_db]. rewrite query_settings_row, Ht.
  assert (Hid : has_column t "id").
  { destruct (decide (has_column t "id")) as [|Hn]; [done|].
    apply head_Some_elem_of, list_elem_of_filter in Hhead as [Hv Hin].
    by rewrite (row_get_missing _ _ _ Hn Hin) in Hv. }
  rewrite decide_True by done.
  rewrite (list_filter_iff _ (λ r, row_get r "id" = PyInt 1)), Hhead.
  - assert (row_truthy row = true) as -> by (by destruct row).
    simpl. rewrite primary_settings_no_column by done.
    by rewrite <-!app_assoc.
  - intros r. unfold sql_eq. split; [tauto|]. intros ->. done.
Qed.

Lemma id_row_shadows_key_value_rows_witness :
  shadowed_store !! "settings"
    = Some (Table ["id"; "key"; "value"]
              [ [PyInt 1; PyStr "company_name"; PyStr "Acme Snacks"];
                [PyInt 2; PyStr "phone"; PyStr "555 0100"] ])
  ∧ get_site_settings (sqlite_db shadowed_store) (State [] false) =
      (Return default_settings,
       State ([] ++ [Connect; Execute sql_row []; Close; Close]) false).
Proof.
  assert (Ht : shadowed_store !! "settings"
    = Some (Table ["id"; "key"; "value"]
              [ [PyInt 1; PyStr "company_name"; PyStr "Acme Snacks"];
                [PyInt 2; PyStr "phone"; PyStr "555 0100"] ]))
    by apply lookup_singleton_eq.
  split; [exact Ht|].
  apply (id_row_shadows_key_value_rows shadowed_store _ shadowed_row
           (State [] false) Ht).
  - reflexivity.
  - done.
  - intros k Hk Hin. unfold recognized in Hk. simpl in Hk, Hin.
    repeat (apply elem_of_cons in Hk as [->|Hk];
            [repeat (apply elem_of_cons in Hin as [Hin|Hin]; [done|]);
             inversion Hin|]).
    inversion Hk.
Defined.

(** X7: with a database that can be opened, [get_site_settings] connects
    once, executes the [id = 1] statement and at most the key/value statement
    after it, and ends with the connection closed. *)
Theorem resolver_runs_at_most_two_statements (db : Database) (st : state) :
  db_connect db = None →
  ∃ d st' evs,
    get_site_settings db st = (Return d, st')
    ∧ log st' = (log st ++ (Connect :: evs))%list
    ∧ conn_open st' = false
    ∧ (executed evs = [sql_row] ∨ executed evs = [sql_row; sql_kv])
    ∧ (Connect ∉ evs)
    ∧ last evs = Some Close.
Proof.
  intros Hc. rewrite (get_site_settings_run _ _ Hc), method_1_spec.
  assert (Hfin : ∀ (d : dict) evs,
    (executed evs = [sql_row] ∨ executed evs = [sql_row; sql_kv]) →
    Connect ∉ evs → last evs = Some Close →
    ∃ d' st' evs',
      (Return d, State (log st ++ (Connect :: evs)) false) = (Return d', st')
      ∧ log st' = (log st ++ (Connect :: evs'))%list
      ∧ conn_open st' = false
      ∧ (executed evs' = [sql_row] ∨ executed evs' = [sql_row; sql_kv])
      ∧ (Connect ∉ evs') ∧ last evs' = Some Close).
  { intros d evs ???. by exists d, (State (log st ++ (Connect :: evs)) false), evs. }
  assert (Hnc : ∀ evs : list event, Forall (λ e, e ≠ Connect) evs → Connect ∉ evs).
  { intros evs Hall Hin. rewrite Forall_forall in Hall. by apply (Hall _ Hin). }
  destruct (db_query db sql_row []) as [rows|e1].
  - destruct (head rows) as [row|]; [destruct (row_truthy row)|].
    + simpl. rewrite <-!app_assoc. simpl. apply Hfin; [by left| |done].
      apply Hnc. by repeat constructor.
    + rewrite method_2_spec.
      destruct (db_query db sql_kv []) as [[|r rs]|e2];
        [|destruct (kv_dict _ _)|destruct (is_sqlite_error e2)];
        simpl; rewrite <-!app_assoc; simpl;
        (apply Hfin; [by right| |done]); apply Hnc; by repeat constructor.
    + rewrite method_2_spec.
      destruct (db_query db sql_kv []) as [[|r rs]|e2];
        [|destruct (kv_dict _ _)|destruct (is_sqlite_error e2)];
        simpl; rewrite <-!app_assoc; simpl;
        (apply Hfin; [by right| |done]); apply Hnc; by repeat constructor.
  - destruct (is_sqlite_error e1).
    + rewrite method_2_spec.
      destruct (db_query db sql_kv []) as [[|r rs]|e2];
        [|destruct (kv_dict _ _)|destruct (is_sqlite_error e2)];
        simpl; rewrite <-!app_assoc; simpl;
        (apply Hfin; [by right| |done]); apply Hnc; by repeat constructor.
    + simpl. rewrite <-!app_assoc. simpl. apply Hfin; [by left| |done].
      apply Hnc. by repeat constructor.
Qed.

Lemma resolver_runs_at_most_two_statements_witness :
  db_connect broken_db = None
  ∧ ∃ d st' evs,
      get_site_settings broken_db (State [] false) = (Return d, st')
      ∧ log st' = ([] ++ (Connect :: evs))%list
      ∧ conn_open st' = false
      ∧ (executed evs = [sql_row] ∨ executed evs = [sql_row; sql_kv])
      ∧ (Connect ∉ evs)
      ∧ last evs = Some Close.
Proof.
  split; [reflexivity|].
  apply (resolver_runs_at_most_two_statements broken_db (State [] false)).
  reflexivity.
Defined.


Lemma head_where (s : Store) (sql tbl col key : string) :
  statement_of sql = Some (Select None tbl (Some (col, Placeholder)) []) →
  match query s sql [PyStr key] with
  | Return rows => head rows
  | Raise _ => None
  end = head (matching s tbl col key).
Proof.
  intros Hq. rewrite (query_where _ _ _ _ _ _ (PyStr key) Hq) by done.
  unfold matching. rewrite <-(filter_where s tbl col (PyStr key)) by done.
  destruct (s !! tbl) as [t|]; [|done].
  by destruct (decide (has_column t col)).
Qed.

(** X8: [get_page] and [get_page_content] return the first stored row
    whose slug, respectively page name, is the one asked for, and [None]
    when there is none (or when the table or column is missing). *)
Theorem lookups_return_first_match (s : Store) (slug page_name : string)
    (st : state) :
  (get_page (sqlite_db s) slug st).1
    = Return (head (matching s "pages" "slug" slug))
  ∧ (get_page_content (sqlite_db s) page_name st).1
    = Return (head (matching s "page_content" "page_name" page_name)).
Proof.
  rewrite get_page_run, get_page_content_run by done. unfold accessed.
  cbn [db_query sqlite_db]. split.
  - rewrite <-(head_where s sql_page) by done.
    destruct (query s sql_page [PyStr slug]) as [rows|e] eqn:Hq; [done|].
    by rewrite (query_sqlite_only _ _ _ _ Hq).
  - rewrite <-(head_where s sql_content) by done.
    destruct (query s sql_content [PyStr page_name]) as [rows|e] eqn:Hq; [done|].
    by rewrite (query_sqlite_only _ _ _ _ Hq).
Qed.

(** X9: the five accessors catch only [sqlite3.Error].  Any other
    exception of the query propagates to the caller, after the connection has
    been closed by the [finally] clause. *)
Theorem accessors_propagate_unexpected_errors (db : Database) (e : exn)
    (slug page_name category : string) (st : state) :
  db_connect db = None →
  (∀ sql params, db_query db sql params = Raise e) →
  is_sqlite_error e = false →
  let closed sql params :=
    State (log st ++ [Connect; Execute sql params; Close]) false in
  get_page db slug st = (Raise e, closed sql_page [PyStr slug])
  ∧ get_page_content db page_name st
      = (Raise e, closed sql_content [PyStr page_name])
  ∧ get_retailers_by_category db category st
      = (Raise e, closed sql_retailers [PyStr category])
  ∧ get_all_retailers db st
      = (Raise e, closed "SELECT * FROM retailers ORDER BY category, name" [])
  ∧ get_testimonials db st = (Raise e, closed sql_testimonials []).
Proof.
  intros Hc Hq He. cbv zeta.
  rewrite get_page_run, get_page_content_run, get_retailers_by_category_run,
    get_testimonials_run by done.
  unfold get_all_retailers. rewrite fetchall_accessor_run by done.
  unfold accessed. rewrite !Hq, He. done.
Qed.

Lemma accessors_propagate_unexpected_errors_witness :
  db_connect broken_db = None
  ∧ get_page broken_db "about" (State [] false)
    = (Raise (OtherException "MemoryError" "out of memory"),
       State ([] ++ [Connect; Execute sql_page [PyStr "about"]; Close]) false).
Proof.
  split; [reflexivity|].
  destruct (accessors_propagate_unexpected_errors broken_db
              (OtherException "MemoryError" "out of memory")
              "about" "about" "online" (State [] false) eq_refl
              (λ _ _, eq_refl) eq_refl) as [Hp _].
  exact Hp.
Defined.

(** X10: the connection is opened before the [try] of every accessor, so
    a database that cannot be opened makes each of them, [get_site_settings]
    included, raise the connection error with nothing logged. *)
Theorem accessors_raise_connect_errors (db : Database) (e : exn)
    (slug page_name category : string) (st : state) :
  db_connect db = Some e →
  get_site_settings db st = (Raise e, st)
  ∧ get_page db slug st = (Raise e, st)
  ∧ get_page_content db page_name st = (Raise e, st)
  ∧ get_retailers_by_category db category st = (Raise e, st)
  ∧ get_all_retailers db st = (Raise e, st)
  ∧ get_testimonials db st = (Raise e, st).
Proof.
  intros Hc. repeat split;
    [unfold get_site_settings | unfold get_page | unfold get_page_content
    | unfold get_retailers_by_category | unfold get_all_retailers
    | unfold get_testimonials];
    unfold def, bind, invoke, get_db_connection; by rewrite Hc.
Qed.

Lemma accessors_raise_connect_errors_witness :
  db_connect unreachable_db = Some (SqliteError "unable to open database file")
  ∧ get_page unreachable_db "about" (State [] false)
    = (Raise (SqliteError "unable to open database file"), State [] false).
Proof.
  split; [reflexivity|].
  destruct (accessors_raise_connect_errors unreachable_db
              (SqliteError "unable to open database file")
              "about" "about" "online" (State [] false) eq_refl)
    as (_ & Hp & _).
  exact Hp.
Defined.


#[local] Instance sql_le_antisymm : AntiSymm (=) sql_le.
Proof.
  intros [|x|x|x] [|y|y|y]; simpl; try done; intros H1 H2; f_equal;
    first [lia | by apply (anti_symm String.le)].
Qed.

#[local] Instance by_category_name_trans : Transitive by_category_name.
Proof.
  intros r1 r2 r3. unfold by_category_name. cbv zeta.
  intros [[H12 N12]|[E12 H12]] [[H23 N23]|[E23 H23]].
  - left. split; [by etrans|]. intros E13. rewrite E13 in H12.
    apply N23. by apply (anti_symm sql_le).
  - left. rewrite <-E23. done.
  - left. rewrite E12. done.
  - right. split; [congruence|by etrans].
Qed.

Lemma order_by_category_name (r1 r2 : Row) :
  order_le ["category"; "name"] r1 r2 → by_category_name r1 r2.
Proof.
  unfold order_le, by_category_name. simpl.
  intros [?|[-> [[? _]|[-> _]]]]; auto. right. split; [done|reflexivity].
Qed.

Lemma query_all_retailers (s : Store) :
  query s sql_all_retailers [] =
    match s !! "retailers" with
    | None => Raise (SqliteError "no such table: retailers")
    | Some t =>
        if decide (has_column t "category") then
          if decide (has_column t "name")
          then Return (merge_sort (order_le ["category"; "name"]) (table_rows t))
          else Raise (SqliteError "no such column: name")
        else Raise (SqliteError "no such column: category")
    end.
Proof.
  unfold query. change (statement_of sql_all_retailers) with
    (Some (Select None "retailers" None ["category"; "name"])).
  cbv beta iota. unfold eval_select. simpl.
  destruct (s !! "retailers") as [t|]; [|done].
  unfold referenced. simpl.
  destruct (decide (has_column t "category")).
  - rewrite (bool_decide_eq_false_2 (¬ has_column t "category")) by tauto.
    destruct (decide (has_column t "name")).
    + rewrite (bool_decide_eq_false_2 (¬ has_column t "name")) by tauto.
      by rewrite project_star.
    + by rewrite bool_decide_eq_true_2.
  - by rewrite bool_decide_eq_true_2.
Qed.

Lemma all_retailers_store (s : Store) (st : state) :
  retailers_listed s →
  ∃ l st', get_all_retailers (sqlite_db s) st = (Return l, st')
    ∧ renders (log st') = renders (log st)
    ∧ l ≡ₚ stored_rows s "retailers"
    ∧ StronglySorted by_category_name l.
Proof.
  intros Hcols. unfold get_all_retailers. rewrite fetchall_accessor_run by done.
  unfold accessed. cbn [db_query sqlite_db]. fold sql_all_retailers.
  rewrite query_all_retailers. unfold stored_rows, retailers_listed in *.
  destruct (s !! "retailers") as [t|]; simpl.
  - destruct (Hcols t eq_refl) as [Hcat Hname]. rewrite !decide_True by done.
    do 2 eexists. split; [done|]. simpl.
    split; [by rewrite !renders_app, !app_nil_r|].
    split; [apply merge_sort_Permutation|].
    apply Sorted_StronglySorted; [apply _|].
    eapply Sorted_weaken; [apply order_by_category_name|].
    apply Sorted_merge_sort. apply _.
  - do 2 eexists. split; [done|]. simpl.
    split; [by rewrite !renders_app, !app_nil_r|]. split; [done|constructor].
Qed.

(** X11: when the retailers table has its [category] and [name] columns,
    [get_all_retailers] returns every stored retailer exactly once, ordered
    by category and by name within a category. *)
Theorem all_retailers_by_category_then_name (s : Store) (st : state) :
  retailers_listed s →
  ∃ l st', get_all_retailers (sqlite_db s) st = (Return l, st')
    ∧ l ≡ₚ stored_rows s "retailers"
    ∧ StronglySorted by_category_name l.
Proof.
  intros Hcols.
  destruct (all_retailers_store s st Hcols) as (l & st' & Hrun & _ & Hperm & Hsort).
  eauto.
Qed.

Lemma all_retailers_by_category_then_name_witness :
  retailers_listed retailer_store
  ∧ ∃ l st', get_all_retailers (sqlite_db retailer_store) (State [] false)
               = (Return l, st')
      ∧ l ≡ₚ stored_rows retailer_store "retailers"
      ∧ StronglySorted by_category_name l.
Proof.
  assert (Hcols : retailers_listed retailer_store).
  { intros t Ht. unfold retailer_store in Ht. rewrite lookup_singleton_eq in Ht.
    injection Ht as <-. split; by apply (bool_decide_eq_true_1 _). }
  split; [exact Hcols|].
  apply (all_retailers_by_category_then_name retailer_store (State [] false)).
  exact Hcols.
Defined.



Lemma get_page_store (s : Store) (slug : string) (st : state) :
  ∃ r st', get_page (sqlite_db s) slug st = (Return r, st')
    ∧ renders (log st') = renders (log st).
Proof.
  rewrite get_page_run by done. unfold accessed. cbn [db_query sqlite_db].
  destruct (query s _ _) as [rows|e] eqn:Hq.
  - do 2 eexists. split; [reflexivity|]. simpl.
    by rewrite !renders_app, !app_nil_r.
  - rewrite (query_sqlite_only _ _ _ _ Hq).
    do 2 eexists. split; [reflexivity|]. simpl.
    by rewrite !renders_app, !app_nil_r.
Qed.

Lemma retailers_by_category_store (s : Store) (category : string) (st : state) :
  retailers_named s →
  ∃ l st', get_retailers_by_category (sqlite_db s) category st = (Return l, st')
    ∧ renders (log st') = renders (log st)
    ∧ l ≡ₚ matching s "retailers" "category" category
    ∧ StronglySorted by_name l.
Proof.
  intros Hnamed. rewrite get_retailers_by_category_run by done.
  unfold accessed, matching. cbn [db_query sqlite_db]. rewrite query_retailers.
  rewrite <-(filter_where s "retailers" "category" (PyStr category)) by done.
  unfold retailers_named in Hnamed.
  destruct (s !! "retailers") as [t|]; simpl.
  - destruct (decide (has_column t "category")) as [Hcat|Hcat]; simpl.
    + rewrite decide_True by eauto.
      do 2 eexists. split; [done|]. simpl.
      split; [by rewrite !renders_app, !app_nil_r|].
      split; [apply merge_sort_Permutation|].
      apply Sorted_StronglySorted; [apply _|].
      eapply Sorted_weaken; [apply order_by_name|].
      apply Sorted_merge_sort. apply _.
    + do 2 eexists. split; [done|]. simpl.
      split; [by rewrite !renders_app, !app_nil_r|]. split; [done|constructor].
  - do 2 eexists. split; [done|]. simpl.
    split; [by rewrite !renders_app, !app_nil_r|]. split; [done|constructor].
Qed.

Lemma render_template_run (db : Database)
    (jinja : string → context → outcome string) (name : string) (ctx : context)
    (st : state) :
  db_connect db = None →
  is_Some (ctx !! "site_settings") → is_Some (ctx !! "settings") →
  ∃ st', renders (log st') = renders (log st)
    ∧ render_template db jinja name ctx st =
        (jinja name ctx,
         State (log st' ++ [Render name ctx]) (conn_open st')).
Proof.
  intros Hc H1 H2.
  destruct (get_site_settings_returns db st Hc) as (d & st' & Hrun & _ & Hl & _).
  exists st'. split; [done|].
  unfold render_template, def.
  unfold bind at 1, invoke at 1, inject_global_vars, def.
  rewrite (bind_invoke_return _ _ _ _ _ Hrun). cbn [ret].
  rewrite union_injected by done.
  unfold bind at 1, emit, modify. unfold bind, eval.
  by destruct (jinja name ctx).
Qed.

(** X12: the where-to-buy route renders its template exactly once.  The
    online and the restaurant lists it passes are the stored retailers of
    that category, each in name order, and each list is passed under two
    names. *)
Theorem where_to_buy_splits_retailers (s : Store)
    (jinja : string → context → outcome string) (dict_str : dict → string)
    (st : state) :
  retailers_named s →
  ∃ d page content online restaurants,
    renders (log (where_to_buy (sqlite_db s) jinja dict_str st).2) =
      (renders (log st)
         ++ [("where-to-buy.html",
              where_context d page content online restaurants)])%list
    ∧ online ≡ₚ matching s "retailers" "category" "online"
    ∧ StronglySorted by_name online
    ∧ restaurants ≡ₚ matching s "retailers" "category" "restaurant"
    ∧ StronglySorted by_name restaurants.
Proof.
  intros Hnamed.
  destruct (get_site_settings_returns (sqlite_db s) st eq_refl)
    as (d & s1 & H1 & _ & L1 & _).
  destruct (get_page_store s "where-to-buy" s1) as (page & s2 & H2 & L2).
  destruct (get_page_content_store s "where-to-buy" s2) as (content & s3 & H3 & L3).
  destruct (retailers_by_category_store s "online" s3 Hnamed)
    as (online & s4 & H4 & L4 & P4 & S4).
  destruct (retailers_by_category_store s "restaurant" s4 Hnamed)
    as (restaurants & s5 & H5 & L5 & P5 & S5).
  exists d, page, content, online, restaurants.
  split; [|done].
  unfold where_to_buy, def, try_except.
  rewrite (bind_invoke_return _ _ _ _ _ H1).
  rewrite (bind_invoke_return _ _ _ _ _ H2).
  rewrite (bind_invoke_return _ _ _ _ _ H3).
  rewrite (bind_invoke_return _ _ _ _ _ H4).
  rewrite (bind_invoke_return _ _ _ _ _ H5).
  fold (where_context d page content online restaurants).
  unfold bind at 1, print at 1, emit, modify.
  unfold bind at 1, print at 1, emit, modify. cbn [log conn_open].
  match goal with |- context [bind (invoke (render_template _ _ _ _)) _ ?st0] =>
    destruct (render_template_run (sqlite_db s) jinja "where-to-buy.html"
                (where_context d page content online restaurants) st0 eq_refl)
      as (s6 & L6 & H6)
  end.
  { unfold where_context. rewrite lookup_insert_eq. eauto. }
  { unfold where_context. rewrite lookup_insert_ne by done.
    rewrite lookup_insert_eq. eauto. }
  unfold bind at 1, invoke at 1. rewrite H6.
  assert (is_exception = λ _, true) as -> by done.
  cbn [log] in L6. rewrite !renders_app in L6. simpl in L6.
  rewrite !app_nil_r in L6.
  destruct (jinja _ _) as [text|e]; simpl.
  - rewrite renders_app. simpl. congruence.
  - unfold bind, print, emit, modify; simpl.
    rewrite !renders_app. simpl. rewrite app_nil_r. congruence.
Qed.

Lemma query_pages_by_slug (s : Store) :
  query s sql_pages_by_slug [] =
    match s !! "pages" with
    | None => Raise (SqliteError "no such table: pages")
    | Some t =>
        if decide (has_column t "slug")
        then Return (merge_sort (order_le ["slug"]) (table_rows t))
        else Raise (SqliteError "no such column: slug")
    end.
Proof.
  unfold query. change (statement_of sql_pages_by_slug) with
    (Some (Select None "pages" None ["slug"])).
  cbv beta iota. unfold eval_select. simpl.
  destruct (s !! "pages") as [t|]; [|done].
  unfold referenced. simpl.
  destruct (decide (has_column t "slug")).
  - rewrite (bool_decide_eq_false_2 (¬ has_column t "slug")) by tauto.
    by rewrite project_star.
  - by rewrite bool_decide_eq_true_2.
Qed.

#[local] Instance by_slug_trans : Transitive by_slug.
Proof. intros r1 r2 r3. unfold by_slug. apply transitivity. Qed.

Lemma order_by_slug (r1 r2 : Row) : order_le ["slug"] r1 r2 → by_slug r1 r2.
Proof.
  unfold order_le, by_slug. simpl. intros [[H _]|[-> _]]; [done|reflexivity].
Qed.

Lemma admin_pages_run {R B} (s : Store) (k : list Row → M state R B) (st : state) :
  ∃ pages st',
    renders (log st') = renders (log st)
    ∧ pages ≡ₚ pages_listed s
    ∧ StronglySorted by_slug pages
    ∧ (invoke (get_db_connection (sqlite_db s)) ;;
       bind
         (try_finally
            (try_except
               (fetchall (sqlite_db s) "SELECT * FROM pages ORDER BY slug" [])
               is_sqlite_error
               (λ e,
                  print ("Error getting pages: " +:+ exn_str e) ;;
                  next []))
            close)
         k)%py st = k pages st'.
Proof.
  unfold bind at 1, invoke at 1, get_db_connection, def.
  cbn [db_connect sqlite_db].
  unfold bind at 1, modify at 1. cbn [ret].
  unfold bind at 1, try_finally, try_except, fetchall, close, print.
  unfold bind, gets, modify, eval, emit.
  cbn [conn_open log db_query sqlite_db].
  change (query s "SELECT * FROM pages ORDER BY slug" [])
    with (query s sql_pages_by_slug []).
  rewrite query_pages_by_slug.
  unfold pages_listed.
  destruct (s !! "pages") as [t|]; simpl.
  - destruct (decide (has_column t "slug")) as [Hc|Hc]; simpl.
    + do 2 eexists. split; [|split; [|split; [|reflexivity]]].
      * simpl. by rewrite !renders_app, !app_nil_r.
      * apply merge_sort_Permutation.
      * apply Sorted_StronglySorted; [apply _|].
        eapply Sorted_weaken; [apply order_by_slug|].
        apply Sorted_merge_sort. apply _.
    + do 2 eexists. split; [|split; [|split; [|reflexivity]]].
      * simpl. by rewrite !renders_app, !app_nil_r.
      * done.
      * constructor.
  - do 2 eexists. split; [|split; [|split; [|reflexivity]]].
    * simpl. by rewrite !renders_app, !app_nil_r.
    * done.
    * constructor.
Qed.

Lemma where_to_buy_splits_retailers_witness :
  retailers_named retailer_store
  ∧ ∃ d page content online restaurants,
      renders (log (where_to_buy (sqlite_db retailer_store)
                      (λ _ _, Return "page") (λ _, "{}") (State [] false)).2) =
        ([] ++ [("where-to-buy.html",
                 where_context d page content online restaurants)])%list
      ∧ online ≡ₚ matching retailer_store "retailers" "category" "online"
      ∧ StronglySorted by_name online
      ∧ restaurants ≡ₚ matching retailer_store "retailers" "category" "restaurant"
      ∧ StronglySorted by_name restaurants.
Proof.
  assert (Hnamed : retailers_named retailer_store).
  { intros t Ht _. unfold retailer_store in Ht. rewrite lookup_singleton_eq in Ht.
    injection Ht as <-. by apply (bool_decide_eq_true_1 _). }
  split; [exact Hnamed|].
  apply (where_to_buy_splits_retailers retailer_store (λ _ _, Return "page")
           (λ _, "{}") (State [] false)).
  exact Hnamed.
Defined.

(** X13: the admin route renders its template exactly once, with every
    stored retailer ordered by category and name, with the active
    testimonials only, and with every stored page ordered by slug, or with
    no page when the pages statement fails. *)
Theorem admin_lists_ordered_retailers_and_active_testimonials (s : Store)
    (jinja : string → context → outcome string) (st : state) :
  retailers_listed s →
  ∃ d retailers pages,
    renders (log (admin (sqlite_db s) jinja st).2) =
      (renders (log st)
         ++ [("admin.html",
              admin_context d retailers (active_testimonials s) pages)])%list
    ∧ retailers ≡ₚ stored_rows s "retailers"
    ∧ StronglySorted by_category_name retailers
    ∧ pages ≡ₚ pages_listed s
    ∧ StronglySorted by_slug pages.
Proof.
  intros Hcols.
  destruct (get_site_settings_returns (sqlite_db s) st eq_refl)
    as (d & s1 & H1 & _ & L1 & _).
  destruct (all_retailers_store s s1 Hcols) as (retailers & s2 & H2 & L2 & P2 & S2).
  destruct (get_testimonials_store s s2) as (s3 & H3 & L3).
  exists d, retailers.
  unfold admin, def. unfold try_except at 1.
  rewrite (bind_invoke_return _ _ _ _ _ H1).
  rewrite (bind_invoke_return _ _ _ _ _ H2).
  rewrite (bind_invoke_return _ _ _ _ _ H3).
  match goal with |- context [bind (invoke (get_db_connection _)) ?k0 s3] =>
    match k0 with (λ _, bind _ ?k1) =>
      destruct (admin_pages_run s k1 s3) as (pages & s4 & L4 & P4 & S4 & H4)
    end
  end.
  rewrite H4. exists pages.
  split; [|done].
  fold (admin_context d retailers (active_testimonials s) pages).
  match goal with |- context [bind (invoke (render_template _ _ _ _)) _ ?st0] =>
    destruct (render_template_run (sqlite_db s) jinja "admin.html"
                (admin_context d retailers (active_testimonials s) pages)
                st0 eq_refl)
      as (s6 & L6 & H6)
  end.
  { unfold admin_context. rewrite lookup_insert_eq. eauto. }
  { unfold admin_context. rewrite lookup_insert_ne by done.
    rewrite lookup_insert_eq. eauto. }
  unfold bind at 1, invoke at 1. rewrite H6.
  assert (is_exception = λ _, true) as -> by done.
  destruct (jinja _ _) as [text|e]; simpl.
  - rewrite renders_app. simpl. congruence.
  - unfold bind, print, emit, modify; simpl.
    rewrite !renders_app. simpl. rewrite app_nil_r. congruence.
Qed.

Lemma admin_lists_ordered_retailers_and_active_testimonials_witness :
  retailers_listed catalogue_store
  ∧ ∃ d retailers pages,
      renders (log (admin (sqlite_db catalogue_store) (λ _ _, Return "page")
                      (State [] false)).2) =
        ([] ++ [("admin.html",
                 admin_context d retailers (active_testimonials catalogue_store)
                   pages)])%list
      ∧ retailers ≡ₚ stored_rows catalogue_store "retailers"
      ∧ StronglySorted by_category_name retailers
      ∧ pages ≡ₚ pages_listed catalogue_store
      ∧ StronglySorted by_slug pages.
Proof.
  assert (Hcols : retailers_listed catalogue_store).
  { intros t Ht. unfold catalogue_store in Ht.
    rewrite lookup_insert_ne, lookup_singleton_eq in Ht by done.
    injection Ht as <-. split; by apply (bool_decide_eq_true_1 _). }
  split; [exact Hcols|].
  apply (admin_lists_ordered_retailers_and_active_testimonials catalogue_store
           (λ _ _, Return "page") (State [] false)).
  exact Hcols.
Defined.

(** The two pages of that store, stored as where-to-buy then about, reach the
    template as about then where-to-buy. *)
Example admin_pages_in_slug_order :
  (λ tc : string * context, tc.2 !! "pages")
    <$> renders (log (admin (sqlite_db catalogue_store) (λ _ _, Return "page")
                        (State [] false)).2)
  = [Some (CtxRows [ [("slug", PyStr "about"); ("title", PyStr "About us")];
                     [("slug", PyStr "where-to-buy"); ("title", PyStr "Where")] ])].
Proof. reflexivity. Qed.

(** ** The static exporter *)

Import Freeze ExportSpec.

Lemma init_db_not_exported : "init_db" ∉ app_module.
Proof. by apply (bool_decide_eq_false_1 _). Qed.

Lemma main_stops_at_import (rt : runtime)
    (freeze : list (Fn state (list generated)) → Fn state unit)
    (init_db : Fn state unit) (s : state) :
  main rt freeze init_db s =
    (Raise (ImportError "cannot import name 'init_db' from 'app'"),
     State (fs s) (out s ++ [banner])%list).
Proof.
  unfold main, def. unfold bind at 1. unfold print at 1, modify. 
  unfold bind at 1. unfold from_app_import.
  rewrite bool_decide_eq_false_2 by apply init_db_not_exported.
  reflexivity.
Qed.

Lemma path_join_build_nonempty (p : string) : path_join build_dir p ≠ "".
Proof.
  unfold path_join. destruct (String.prefix "/" p) eqn:Hp.
  - by destruct p.
  - done.
Qed.

Lemma exists_build (files : FS) (p : string) :
  exists_ files (path_join build_dir p) =
    bool_decide (is_Some (files !! path_join build_dir p)).
Proof.
  unfold exists_. by rewrite bool_decide_eq_false_2 by apply path_join_build_nonempty.
Qed.

Lemma collect_missing {R} (ps acc : list string) (s : state) :
  for_fold (R:=R) ps acc (λ missing_files file_path,
    let full_path := path_join build_dir file_path in
    bind (gets fs) (λ files,
    if negb (exists_ files full_path)
    then next (missing_files ++ [file_path])%list
    else next missing_files)) s =
  (Next (acc ++ filter (λ p, fs s !! path_join build_dir p = None) ps)%list, s).
Proof.
  revert acc. induction ps as [|p ps IH]; intros acc; simpl.
  - by rewrite app_nil_r.
  - unfold bind at 1. unfold bind at 1, gets. rewrite exists_build.
    destruct (fs s !! path_join build_dir p) as [n|] eqn:Hp; simpl.
    + rewrite IH. rewrite filter_cons_False by (by rewrite Hp). done.
    + rewrite IH. rewrite filter_cons_True by done. by rewrite <-app_assoc.
Qed.

Lemma print_each {R} (ps : list string) (files : FS) (o : list string) :
  for_each (R:=R) ps (λ file_path, print ("  - " +:+ file_path)) (State files o) =
  (Next tt, State files (o ++ ((λ p, "  - " +:+ p) <$> ps))%list).
Proof.
  revert o. induction ps as [|p ps IH]; intros o; simpl.
  - by rewrite app_nil_r.
  - unfold bind, print at 1, modify. simpl. rewrite IH. by rewrite <-app_assoc.
Qed.

Lemma validate_build_run (s : state) :
  validate_build s =
    match missing_files (fs s) with
    | [] =>
        (Return true,
         State (fs s) (out s ++ ["✅ All required files generated successfully!"])%list)
    | ms =>
        (Return false,
         State (fs s) (out s ++ "❌ Missing files in build:"
                               :: ((λ p, "  - " +:+ p) <$> ms))%list)
    end.
Proof.
  unfold validate_build, def. unfold bind at 1. rewrite collect_missing.
  rewrite app_nil_l. fold (missing_files (fs s)).
  destruct (missing_files (fs s)) as [|m ms]; [done|].
  unfold bind at 1. unfold print at 1, modify. unfold bind at 1.
  rewrite print_each. simpl. by rewrite <-app_assoc.
Qed.

(** Validation on its own: it never raises, changes no file, answers whether
    nothing is missing, and prints every missing path by name. *)
Lemma validate_build_reports (s : state) :
  (validate_build s).1 = Return (bool_decide (missing_files (fs s) = []))
  ∧ fs (validate_build s).2 = fs s
  ∧ ∀ p, p ∈ missing_files (fs s) → ("  - " +:+ p) ∈ out (validate_build s).2.
Proof.
  rewrite validate_build_run.
  destruct (missing_files (fs s)) as [|m ms]; simpl.
  - repeat split. intros p Hp. inversion Hp.
  - repeat split. intros p Hp. apply elem_of_app. right. right.
    rewrite <-fmap_cons. apply list_elem_of_fmap. by exists p.
Qed.

Lemma clean_build_directory_run (s : state) :
  clean_build_directory s =
    match fs s !! build_dir with
    | None => (Return tt, State (<[build_dir := Dir]> (fs s)) (out s))
    | Some Dir =>
        (Return tt,
         State (<[build_dir := Dir]>
                  (filter (λ pn, pn.1 ≠ build_dir ∧ ¬ below build_dir pn.1) (fs s)))
               (out s ++ ["Cleaning existing build directory: build"])%list)
    | Some (File _) =>
        (Raise (OtherException "NotADirectoryError" build_dir),
         State (fs s) (out s ++ ["Cleaning existing build directory: build"])%list)
    end.
Proof.
  unfold clean_build_directory, def. unfold bind at 1, gets.
  unfold exists_. rewrite (bool_decide_eq_false_2 (build_dir = "")) by done.
  rewrite orb_false_l.
  destruct (fs s !! build_dir) as [[|c]|] eqn:Hb.
  - rewrite bool_decide_eq_true_2 by eauto.
    unfold bind at 1. unfold bind at 1. unfold print, modify.
    unfold rmtree. unfold bind at 1, gets. cbn [fs out]. rewrite Hb.
    unfold modify. cbn [fs out].
    unfold bind at 1, makedirs. unfold bind at 1, gets. cbn [fs out].
    rewrite (proj2 (map_lookup_filter_None _ _ _)); [done|].
    right. intros x _ [Hne _]. by apply Hne.
  - rewrite bool_decide_eq_true_2 by eauto.
    unfold bind at 1. unfold bind at 1. unfold print, modify.
    unfold rmtree. unfold bind at 1, gets. cbn [fs out]. by rewrite Hb.
  - rewrite bool_decide_eq_false_2 by (by intros [? ?]).
    unfold bind at 1. unfold next at 1.
    unfold bind at 1, makedirs. unfold bind at 1, gets. by rewrite Hb.
Qed.

Lemma build_not_below : below build_dir build_dir = false.
Proof. reflexivity. Qed.

(** Cleaning an existing build directory leaves it empty and touches nothing
    outside it. *)
Lemma clean_build_directory_empties (s : state) :
  fs s !! build_dir = Some Dir →
  ∃ s', clean_build_directory s = (Return tt, s')
    ∧ fs s' !! build_dir = Some Dir
    ∧ (∀ p, below build_dir p = true → fs s' !! p = None)
    ∧ (∀ p, p ≠ build_dir → below build_dir p = false → fs s' !! p = fs s !! p).
Proof.
  intros Hb. rewrite clean_build_directory_run, Hb.
  eexists. split; [reflexivity|]. cbn [fs].
  split; [by rewrite lookup_insert_eq|]. split.
  - intros p Hp.
    rewrite lookup_insert_ne by (intros <-; by rewrite build_not_below in Hp).
    apply map_lookup_filter_None. right. intros x _ [_ Hnb]. simpl in Hnb.
    apply Hnb. by rewrite Hp.
  - intros p Hne Hp. rewrite lookup_insert_ne by done.
    destruct (fs s !! p) as [x|] eqn:Hx.
    + apply map_lookup_filter_Some. split; [done|]. simpl. split; [done|].
      rewrite Hp. by intros [].
    + apply map_lookup_filter_None. by left.
Qed.

Lemma generate_deployment_info_run (rt : runtime) (s : state) :
  isdir (fs s) build_dir = true →
  isdir (fs s) info_path = false →
  generate_deployment_info rt s =
    (Return tt, State (<[info_path := File (Json (deployment_info rt))]> (fs s)) (out s)).
Proof.
  intros Hdir Hfile. unfold generate_deployment_info, def. cbv zeta.
  unfold bind at 1, write_file. unfold bind at 1, gets.
  change (dirname (path_join build_dir "deployment-info.json")) with build_dir.
  fold info_path. rewrite Hdir, Hfile. reflexivity.
Qed.

(** C10: whatever the build directory holds when the manifest is written, the
    manifest lists the three fixed pages, the fixed target and the fixed
    instructions. *)
Theorem manifest_lists_fixed_pages (rt : runtime) (s : state) :
  isdir (fs s) build_dir = true →
  isdir (fs s) info_path = false →
  ∃ j s', generate_deployment_info rt s = (Return tt, s')
    ∧ fs s' !! info_path = Some (File (Json j))
    ∧ manifest_field j "pages_generated"
        = Some (JList [JStr "/"; JStr "/about"; JStr "/where-to-buy"])
    ∧ manifest_field j "deployment_target" = Some (JStr "GitHub Pages")
    ∧ manifest_field j "instructions" = Some (JList (JStr <$> instructions)).
Proof.
  intros Hdir Hfile. exists (deployment_info rt). eexists.
  split; [by apply generate_deployment_info_run|]. cbn [fs].
  split; [by rewrite lookup_insert_eq|]. by repeat split.
Qed.

Lemma manifest_lists_fixed_pages_witness :
  isdir (fs empty_build) build_dir = true
  ∧ isdir (fs empty_build) info_path = false
  ∧ ∃ j s', generate_deployment_info rt0 empty_build = (Return tt, s')
      ∧ fs s' !! info_path = Some (File (Json j))
      ∧ manifest_field j "pages_generated"
          = Some (JList [JStr "/"; JStr "/about"; JStr "/where-to-buy"])
      ∧ manifest_field j "deployment_target" = Some (JStr "GitHub Pages")
      ∧ manifest_field j "instructions" = Some (JList (JStr <$> instructions)).
Proof.
  split; [reflexivity|]. split; [reflexivity|].
  apply (manifest_lists_fixed_pages rt0 empty_build); reflexivity.
Defined.

Section MainRuns.
Variable rt : runtime.
Variable freeze : list (Fn state (list generated)) → Fn state unit.
Variable init_db : Fn state unit.

(** C7: evaluated on a fresh checkout, the exporter does not produce the five
    expected paths: whatever the freezer would do, [main] stops at
    [from app import init_db], a name [app.py] does not define, and all five
    are missing afterwards. *)
Theorem export_stops_before_output :
  ∃ msg s', main rt freeze init_db checkout = (Raise (ImportError msg), s')
    ∧ missing_files (fs s') = required_files.
Proof.
  rewrite main_stops_at_import. do 2 eexists. split; [reflexivity|].
  reflexivity.
Qed.

(** C8: evaluated on a build directory that holds all five expected files,
    validation by itself reports success, yet the exporter ends with status 1
    and not 0, because [main] never reaches the validation step. *)
Theorem complete_build_exit_status :
  (validate_build complete_build).1 = Return true
  ∧ (exit_status rt freeze init_db complete_build).1 = 1%Z.
Proof.
  split.
  - rewrite validate_build_run. reflexivity.
  - unfold exit_status. by rewrite main_stops_at_import.
Qed.

(** C9: evaluated on a build directory that holds a stale page, two exports
    in sequence leave the stale file in place: [main] stops before
    [clean_build_directory]. *)
Theorem stale_file_survives :
  let s1 := (main rt freeze init_db stale_build).2 in
  let s2 := (main rt freeze init_db s1).2 in
  fs s2 = fs stale_build
  ∧ fs s2 !! "build/old-page/index.html" = Some (File (Text "stale")).
Proof.
  cbv zeta. rewrite !main_stops_at_import. cbn [snd fs]. split; [done|].
  reflexivity.
Qed.
End MainRuns.

(** * Further properties of freeze.py *)

Import FreezeSpec.


Lemma bullet_inj (p q : string) : "  - " +:+ p = "  - " +:+ q → p = q.
Proof. intros H. by simplify_eq/=. Qed.

(** X14: validation never raises and changes no file.  Its verdict is
    true exactly when each of the five required paths exists under the build
    directory (as a file or as a directory, whatever it holds), and the lines
    it prints name exactly the required paths that are missing. *)
Theorem validate_build_verdict (s : state) :
  ∃ lines,
    validate_build s =
      (Return (bool_decide
                 (Forall (λ p, is_Some (fs s !! path_join build_dir p))
                         required_files)),
       State (fs s) (out s ++ lines)%list)
    ∧ ∀ p, ("  - " +:+ p) ∈ lines ↔
           p ∈ required_files ∧ fs s !! path_join build_dir p = None.
Proof.
  rewrite validate_build_run.
  assert (Hmiss : ∀ p, p ∈ missing_files (fs s) ↔
            p ∈ required_files ∧ fs s !! path_join build_dir p = None).
  { intros p. unfold missing_files. rewrite list_elem_of_filter. tauto. }
  destruct (missing_files (fs s)) as [|m ms] eqn:Hm.
  - eexists. split.
    + f_equal. f_equal. symmetry. apply bool_decide_eq_true_2.
      apply Forall_forall. intros p Hp.
      destruct (fs s !! path_join build_dir p) eqn:Hl; [eauto|].
      exfalso. eapply not_elem_of_nil. apply Hmiss. eauto.
    + intros p. rewrite <-Hmiss. split.
      * intros [H|H]%elem_of_cons; [done|]. by apply elem_of_nil in H.
      * by intros ?%elem_of_nil.
  - eexists. split.
    + f_equal. f_equal. symmetry. apply bool_decide_eq_false_2.
      rewrite Forall_forall. intros Hall.
      destruct (proj1 (Hmiss m)) as [Hin Hnone]; [left|].
      destruct (Hall m Hin) as [x Hx]. congruence.
    + intros p. rewrite <-Hmiss. rewrite elem_of_cons. split.
      * intros [H|H]; [done|].
        apply list_elem_of_fmap in H as (q & Hq & Hin).
        by rewrite (bullet_inj _ _ Hq).
      * intros Hin. right. apply list_elem_of_fmap. eauto.
Qed.

(** X15: cleaning an existing build directory leaves it empty and leaves
    everything outside it alone, and cleaning again changes nothing
    further. *)
Theorem clean_build_directory_twice (s : state) :
  fs s !! build_dir = Some Dir →
  ∃ s1 s2,
    clean_build_directory s = (Return tt, s1)
    ∧ clean_build_directory s1 = (Return tt, s2)
    ∧ fs s2 = fs s1
    ∧ fs s1 !! build_dir = Some Dir
    ∧ (∀ p, below build_dir p = true → fs s1 !! p = None)
    ∧ (∀ p, p ≠ build_dir → below build_dir p = false → fs s1 !! p = fs s !! p).
Proof.
  intros Hb.
  destruct (clean_build_directory_empties s Hb) as (s1 & H1 & Hd1 & He1 & Hf1).
  destruct (clean_build_directory_empties s1 Hd1) as (s2 & H2 & Hd2 & He2 & Hf2).
  exists s1, s2. repeat split; try done.
  apply map_eq. intros p.
  destruct (decide (p = build_dir)) as [->|Hne]; [congruence|].
  destruct (below build_dir p) eqn:Hp.
  - by rewrite He1, He2.
  - by apply Hf2.
Qed.

Lemma clean_build_directory_twice_witness :
  fs stale_build !! build_dir = Some Dir
  ∧ ∃ s1 s2,
      clean_build_directory stale_build = (Return tt, s1)
      ∧ clean_build_directory s1 = (Return tt, s2)
      ∧ fs s2 = fs s1
      ∧ fs s1 !! build_dir = Some Dir
      ∧ (∀ p, below build_dir p = true → fs s1 !! p = None)
      ∧ (∀ p, p ≠ build_dir → below build_dir p = false →
              fs s1 !! p = fs stale_build !! p).
Proof.
  split; [reflexivity|].
  apply (clean_build_directory_twice stale_build). reflexivity.
Defined.

(** X16: when [build] is a regular file, cleaning raises
    [NotADirectoryError] and leaves the file system as it was. *)
Theorem clean_build_directory_rejects_file (s : state) (c : content) :
  fs s !! build_dir = Some (File c) →
  ∃ s', clean_build_directory s =
          (Raise (OtherException "NotADirectoryError" build_dir), s')
    ∧ fs s' = fs s.
Proof.
  intros Hb. rewrite clean_build_directory_run, Hb. eauto.
Qed.

Lemma clean_build_directory_rejects_file_witness :
  fs file_build !! build_dir = Some (File (Text ""))
  ∧ ∃ s', clean_build_directory file_build =
            (Raise (OtherException "NotADirectoryError" build_dir), s')
      ∧ fs s' = fs file_build.
Proof.
  split; [reflexivity|].
  apply (clean_build_directory_rejects_file file_build (Text "")). reflexivity.
Defined.

Lemma write_file_build {R} (name : string) (c : content) (s : state) :
  dirname (path_join build_dir name) = build_dir →
  fs s !! build_dir = Some Dir →
  fs s !! path_join build_dir name ≠ Some Dir →
  write_file (R:=R) (path_join build_dir name) c s =
    (Next tt, State (<[path_join build_dir name := File c]> (fs s)) (out s)).
Proof.
  intros Hdn Hb Hn. unfold write_file, bind, gets, modify. rewrite Hdn.
  unfold isdir at 1. rewrite Hb. cbn [orb negb bool_decide].
  rewrite (bool_decide_eq_false_2 (build_dir = "")) by done. cbn [orb negb].
  unfold isdir.
  rewrite bool_decide_eq_false_2 by apply path_join_build_nonempty.
  cbn [orb]. by destruct (fs s !! path_join build_dir name) as [[|?]|].
Qed.

Lemma write_file_no_build {R} (name : string) (c : content) (s : state) :
  dirname (path_join build_dir name) = build_dir →
  ancestors (path_join build_dir name) = [build_dir] →
  fs s !! build_dir ≠ Some Dir →
  write_file (R:=R) (path_join build_dir name) c s =
    (Exc (match fs s !! build_dir with
          | Some (File _) =>
              OtherException "NotADirectoryError" (path_join build_dir name)
          | _ => FileNotFoundError (path_join build_dir name)
          end), s).
Proof.
  intros Hdn Hanc Hb. unfold write_file, bind, gets. rewrite Hdn.
  unfold isdir at 1.
  rewrite (bool_decide_eq_false_2 (build_dir = "")) by done. cbn [orb].
  unfold unresolved. rewrite Hanc.
  change (reverse [build_dir]) with [build_dir]. cbn [omap list_omap].
  by destruct (fs s !! build_dir) as [[|?]|].
Qed.

Lemma missing_files_frame (files files' : FS) :
  (∀ p, p ∈ required_files →
        files' !! path_join build_dir p = files !! path_join build_dir p) →
  missing_files files' = missing_files files.
Proof.
  unfold missing_files. induction required_files as [|q qs IH]; intros Hsame.
  - done.
  - rewrite !filter_cons. rewrite (Hsame q) by left.
    rewrite IH; [done|]. intros p Hp. apply Hsame. by right.
Qed.

Lemma required_not_post (p : string) :
  p ∈ required_files → path_join build_dir p ∉ (path_join build_dir <$> post_paths).
Proof.
  unfold required_files. rewrite !elem_of_cons, elem_of_nil.
  intros [->|[->|[->|[->|[->|[]]]]]]; by apply (bool_decide_eq_false_1 _).
Qed.

Lemma post_frame (files : FS) (n1 n2 n3 : node) (p : string) :
  p ∉ (path_join build_dir <$> post_paths) →
  (<[path_join build_dir "sitemap.xml" := n3]>
     (<[path_join build_dir "robots.txt" := n2]>
        (<[path_join build_dir ".nojekyll" := n1]> files))) !! p = files !! p.
Proof.
  intros Hp. rewrite !lookup_insert_ne; [done|..];
    intros <-; apply Hp; by apply (bool_decide_eq_true_1 _).
Qed.

Lemma prepare_build_directory_run (s : state) :
  fs s !! build_dir = Some Dir →
  (∀ p, p ∈ post_paths → fs s !! path_join build_dir p ≠ Some Dir) →
  ∃ s' robots sitemap,
    prepare_build_directory s = (Return tt, s')
    ∧ out s' = out s
    ∧ fs s' !! "build/.nojekyll" = Some (File (Text ""))
    ∧ fs s' !! "build/robots.txt" = Some (File (Text robots))
    ∧ fs s' !! "build/sitemap.xml" = Some (File (Text sitemap))
    ∧ (∀ p, p ∉ (path_join build_dir <$> post_paths) → fs s' !! p = fs s !! p)
    ∧ missing_files (fs s') = missing_files (fs s).
Proof.
  intros Hb Hfree. unfold prepare_build_directory, def. cbv zeta.
  unfold bind at 1. rewrite write_file_build; [|done|done|];
    last (apply Hfree; by apply (bool_decide_eq_true_1 _)).
  unfold bind at 1. rewrite write_file_build; [|done| |]; cbn [fs out].
  2:{ by rewrite lookup_insert_ne. }
  2:{ rewrite lookup_insert_ne by done.
      apply Hfree; by apply (bool_decide_eq_true_1 _). }
  unfold bind at 1. rewrite write_file_build; [|done| |]; cbn [fs out].
  2:{ by rewrite !lookup_insert_ne. }
  2:{ rewrite !lookup_insert_ne by done.
      apply Hfree; by apply (bool_decide_eq_true_1 _). }
  do 3 eexists. split; [reflexivity|]. cbn [fs out].
  split; [done|].
  split; [by rewrite !lookup_insert_ne, lookup_insert_eq by done|].
  split; [by rewrite lookup_insert_ne, lookup_insert_eq by done|].
  split; [by rewrite lookup_insert_eq|].
  split; [intros p Hp; by apply post_frame|].
  apply missing_files_frame. intros p Hp. apply post_frame.
  by apply required_not_post.
Qed.

(** X17: in an existing build directory, post-processing writes
    [.nojekyll] (empty), [robots.txt] and [sitemap.xml], prints nothing,
    leaves every other path alone, and so does not change which required
    files are missing. *)
Theorem prepare_build_directory_writes (s : state) :
  fs s !! build_dir = Some Dir →
  (∀ p, p ∈ post_paths → fs s !! path_join build_dir p ≠ Some Dir) →
  ∃ s' robots sitemap,
    prepare_build_directory s = (Return tt, s')
    ∧ out s' = out s
    ∧ fs s' !! "build/.nojekyll" = Some (File (Text ""))
    ∧ fs s' !! "build/robots.txt" = Some (File (Text robots))
    ∧ fs s' !! "build/sitemap.xml" = Some (File (Text sitemap))
    ∧ (∀ p, p ∉ (path_join build_dir <$> post_paths) → fs s' !! p = fs s !! p)
    ∧ missing_files (fs s') = missing_files (fs s).
Proof. apply prepare_build_directory_run. Qed.

Lemma prepare_build_directory_writes_witness :
  fs empty_build !! build_dir = Some Dir
  ∧ (∀ p, p ∈ post_paths → fs empty_build !! path_join build_dir p ≠ Some Dir)
  ∧ ∃ s' robots sitemap,
      prepare_build_directory empty_build = (Return tt, s')
      ∧ out s' = out empty_build
      ∧ fs s' !! "build/.nojekyll" = Some (File (Text ""))
      ∧ fs s' !! "build/robots.txt" = Some (File (Text robots))
      ∧ fs s' !! "build/sitemap.xml" = Some (File (Text sitemap))
      ∧ (∀ p, p ∉ (path_join build_dir <$> post_paths) →
              fs s' !! p = fs empty_build !! p)
      ∧ missing_files (fs s') = missing_files (fs empty_build).
Proof.
  assert (Hfree : ∀ p, p ∈ post_paths →
            fs empty_build !! path_join build_dir p ≠ Some Dir).
  { intros p. unfold post_paths. rewrite !elem_of_cons, elem_of_nil.
    intros [->|[->|[->|[]]]]; done. }
  split; [reflexivity|]. split; [exact Hfree|].
  apply (prepare_build_directory_writes empty_build); [reflexivity|exact Hfree].
Defined.

(** X18: without a build directory, post-processing raises at its first
    file and changes nothing: it does not create the directory it writes
    into.  The error is [FileNotFoundError] when [build] is absent and
    [NotADirectoryError] when [build] is a regular file. *)
Theorem prepare_build_directory_needs_build (s : state) :
  fs s !! build_dir ≠ Some Dir →
  prepare_build_directory s =
    (Raise (match fs s !! build_dir with
            | Some (File _) =>
                OtherException "NotADirectoryError" "build/.nojekyll"
            | _ => FileNotFoundError "build/.nojekyll"
            end), s).
Proof.
  intros Hb. unfold prepare_build_directory, def. cbv zeta.
  unfold bind at 1. rewrite write_file_no_build by done.
  by destruct (fs s !! build_dir) as [[|?]|].
Qed.

Lemma prepare_build_directory_needs_build_witness :
  fs file_build !! build_dir ≠ Some Dir
  ∧ prepare_build_directory file_build
    = (Raise (OtherException "NotADirectoryError" "build/.nojekyll"), file_build).
Proof.
  assert (Hb : fs file_build !! build_dir ≠ Some Dir) by done.
  split; [exact Hb|].
  apply (prepare_build_directory_needs_build file_build). exact Hb.
Defined.

(** On a fresh checkout, which has no build directory at all, the error is
    [FileNotFoundError]. *)
Example prepare_build_directory_on_checkout :
  prepare_build_directory checkout
  = (Raise (FileNotFoundError "build/.nojekyll"), checkout).
Proof. reflexivity. Qed.

(** X19: the three post-processing steps, run in the order of [main] in
    an existing build directory, all succeed, and validation afterwards gives
    the verdict it would have given before them: none of the files they
    write is a required one. *)
Theorem post_processing_keeps_verdict (rt : runtime) (s : state) :
  fs s !! build_dir = Some Dir →
  (∀ p, p ∈ post_paths → fs s !! path_join build_dir p ≠ Some Dir) →
  fs s !! info_path ≠ Some Dir →
  ∃ s1 s2 s3,
    prepare_build_directory s = (Return tt, s1)
    ∧ optimize_static_files s1 = (Return tt, s2)
    ∧ generate_deployment_info rt s2 = (Return tt, s3)
    ∧ (validate_build s3).1 = (validate_build s).1
    ∧ (∀ p, p ∈ required_files →
            fs s3 !! path_join build_dir p = fs s !! path_join build_dir p).
Proof.
  intros Hb Hfree Hinfo.
  destruct (prepare_build_directory_run s Hb Hfree)
    as (s1 & robots & sitemap & H1 & _ & _ & _ & _ & Hframe & _).
  exists s1. eexists. eexists. split; [exact H1|].
  split; [reflexivity|]. cbn [fs out].
  assert (Hb1 : fs s1 !! build_dir = Some Dir).
  { rewrite Hframe; [done|]. by apply (bool_decide_eq_false_1 _). }
  assert (Hi1 : fs s1 !! info_path ≠ Some Dir).
  { rewrite Hframe; [done|]. by apply (bool_decide_eq_false_1 _). }
  split.
  { apply generate_deployment_info_run; cbn [fs].
    - unfold isdir. by rewrite Hb1.
    - unfold isdir. cbn [fs]. destruct (fs s1 !! info_path) as [[|?]|]; done. }
  assert (Hsame : ∀ p, p ∈ required_files →
            (<[info_path := File (Json (deployment_info rt))]> (fs s1))
              !! path_join build_dir p = fs s !! path_join build_dir p).
  { intros p Hp. rewrite lookup_insert_ne.
    - apply Hframe. by apply required_not_post.
    - revert Hp. unfold required_files. rewrite !elem_of_cons, elem_of_nil.
      intros [->|[->|[->|[->|[->|[]]]]]]; done. }
  split; [|exact Hsame].
  destruct (validate_build_reports s) as (-> & _).
  match goal with |- (validate_build ?s3).1 = _ =>
    destruct (validate_build_reports s3) as (-> & _)
  end.
  cbn [fs]. by rewrite (missing_files_frame _ _ Hsame).
Qed.

Lemma post_processing_keeps_verdict_witness :
  fs empty_build !! build_dir = Some Dir
  ∧ (∀ p, p ∈ post_paths → fs empty_build !! path_join build_dir p ≠ Some Dir)
  ∧ fs empty_build !! info_path ≠ Some Dir
  ∧ ∃ s1 s2 s3,
      prepare_build_directory empty_build = (Return tt, s1)
      ∧ optimize_static_files s1 = (Return tt, s2)
      ∧ generate_deployment_info rt0 s2 = (Return tt, s3)
      ∧ (validate_build s3).1 = (validate_build empty_build).1
      ∧ (∀ p, p ∈ required_files →
              fs s3 !! path_join build_dir p
              = fs empty_build !! path_join build_dir p).
Proof.
  assert (Hfree : ∀ p, p ∈ post_paths →
            fs empty_build !! path_join build_dir p ≠ Some Dir).
  { intros p. unfold post_paths. rewrite !elem_of_cons, elem_of_nil.
    intros [->|[->|[->|[]]]]; done. }
  assert (Hinfo : fs empty_build !! info_path ≠ Some Dir) by done.
  split; [reflexivity|]. split; [exact Hfree|]. split; [exact Hinfo|].
  apply (post_processing_keeps_verdict rt0 empty_build);
    [reflexivity|exact Hfree|exact Hinfo].
Defined.

(** X20: for every file system, every freezer and every [init_db], the
    exporter exits with status 1 after printing its banner only, on an
    [ImportError], with the file system untouched. *)
Theorem exporter_never_exits_zero (rt : runtime)
    (freeze : list (Fn state (list generated)) → Fn state unit)
    (init_db : Fn state unit) (s : state) :
  exit_status rt freeze init_db s = (1%Z, State (fs s) (out s ++ [banner])%list)
  ∧ ∃ msg, (main rt freeze init_db s).1 = Raise (ImportError msg).
Proof.
  unfold exit_status. rewrite main_stops_at_import. eauto.
Qed.




Lemma listdir_run {R} (d : string) (s : state) :
  listdir (R:=R) d s =
    if isdir (fs s) d then (Next (listed (fs s) d), s)
    else
      match fs s !! d with
      | Some (File _) => (Exc (OtherException "NotADirectoryError" d), s)
      | _ => (Exc (unresolved (fs s) d), s)
      end.
Proof.
  unfold listdir, bind, gets. destruct (isdir (fs s) d); [done|].
  by destruct (fs s !! d) as [[|?]|].
Qed.

Lemma isdir_Dir (files : FS) (d : string) :
  files !! d = Some Dir → isdir files d = true.
Proof. intros H. unfold isdir. rewrite H. apply orb_true_r. Qed.

Lemma isdir_None (files : FS) (d : string) :
  d ≠ "" → files !! d = None → isdir files d = false.
Proof.
  intros Hd H. unfold isdir. by rewrite H, bool_decide_eq_false_2.
Qed.





(** X22: [static_files] requires the [css] and [js] directories: when one
    of them is absent it raises for that directory and changes nothing.  The
    error is [FileNotFoundError], unless [static] itself is a regular file:
    then it is [NotADirectoryError]. *)
Theorem static_files_needs_css_and_js (s : state) :
  fs s !! "static/css" = None
  ∨ (fs s !! "static/css" = Some Dir ∧ fs s !! "static/js" = None) →
  let d := match fs s !! "static/css" with
           | None => "static/css"
           | Some _ => "static/js"
           end in
  static_files s =
    (Raise (match fs s !! "static" with
            | Some (File _) => OtherException "NotADirectoryError" d
            | _ => FileNotFoundError d
            end), s).
Proof.
  intros H. cbv zeta. unfold static_files, def.
  change (path_join static_folder "css") with "static/css".
  change (path_join static_folder "js") with "static/js".
  unfold bind at 1. rewrite listdir_run.
  destruct H as [Hcss|[Hcss Hjs]]; rewrite Hcss.
  - rewrite isdir_None by done.
    unfold unresolved.
    change (reverse (ancestors "static/css")) with ["static"].
    cbn [omap list_omap]. by destruct (fs s !! "static") as [[|?]|].
  - rewrite (isdir_Dir _ _ Hcss).
    unfold bind at 1. rewrite listdir_run, isdir_None, Hjs by done.
    unfold unresolved.
    change (reverse (ancestors "static/js")) with ["static"].
    cbn [omap list_omap]. by destruct (fs s !! "static") as [[|?]|].
Qed.

Lemma static_files_needs_css_and_js_witness :
  (fs empty_build !! "static/css" = None
   ∨ (fs empty_build !! "static/css" = Some Dir
      ∧ fs empty_build !! "static/js" = None))
  ∧ static_files empty_build
    = (Raise (FileNotFoundError "static/css"), empty_build).
Proof.
  split; [by left|].
  apply (static_files_needs_css_and_js empty_build). by left.
Defined.


(** * setup.py and wsgi.py *)


Lemma initialize_database_run (init_db : Fn state unit) (s : state) :
  Setup.initialize_database init_db s =
    (Return false,
     State (fs s)
       (out s ++ [ "🗄️ Initializing database...";
                   "❌ Failed to initialize database: "
                     +:+ "cannot import name 'init_db' from 'app'" ])%list).
Proof.
  unfold Setup.initialize_database, def. unfold bind at 1, print at 1, modify.
  unfold try_except. unfold bind at 1, from_app_import.
  rewrite bool_decide_eq_false_2 by apply init_db_not_exported.
  unfold raise. cbn [is_exception]. unfold bind, print, modify, ret. cbn [fs out].
  by rewrite <-app_assoc.
Qed.

(** X23: [initialize_database] always reports failure.  It imports
    [init_db] from [app], which defines no such name; the [ImportError] is
    caught, printed, and the function returns [False] without calling
    anything or touching a file. *)
Theorem initialize_database_always_fails (init_db : Fn state unit) (s : state) :
  ∃ msg,
    Setup.initialize_database init_db s =
      (Return false,
       State (fs s)
         (out s ++ [ "🗄️ Initializing database...";
                     "❌ Failed to initialize database: " +:+ msg ])%list).
Proof. eexists. apply initialize_database_run. Qed.

Ltac call_step :=
  match goal with
  | H : ∀ s, ?f s = _ |- context [?f ?s0] => rewrite (H s0)
  | f : Fn state bool |- context [?g ?s0] =>
      unify f g; destruct (f s0) as [[[|]|?] ?]
  | f : Fn state unit |- context [?g ?s0] =>
      unify f g; destruct (f s0) as [[[]|?] ?]
  end; cbn [negb fst snd].

(** X24: the set-up script never ends with status 0, whatever the
    interpreter, [pip] and the file system do, and its run does not depend on
    [init_db] or on the test client: the steps after database initialization
    are never reached. *)
Theorem setup_never_succeeds (version_info : list Z) (version : string)
    (pip_install init_db init_db' : Fn state unit)
    (client_get client_get' : string → Fn state Z) (s : state) :
  (Setup.main version_info version pip_install init_db client_get s).1
    ≠ Return 0%Z
  ∧ Setup.main version_info version pip_install init_db client_get s
    = Setup.main version_info version pip_install init_db' client_get' s.
Proof.
  unfold Setup.main.
  pose proof (initialize_database_run init_db) as Hinit.
  pose proof (initialize_database_run init_db') as Hinit'.
  generalize dependent (Setup.initialize_database init_db). intros i Hi.
  generalize dependent (Setup.initialize_database init_db'). intros i' Hi'.
  generalize (Setup.test_flask_app client_get).
  generalize (Setup.test_flask_app client_get').
  generalize (Setup.check_python_version version_info version).
  generalize (Setup.install_dependencies pip_install).
  generalize Setup.create_directory_structure.
  generalize Setup.create_env_file Setup.create_gitignore Setup.print_next_steps.
  intros f1 f2 f3 f4 f5 f6 f7 f8.
  unfold def, bind, invoke, print, modify, ret, next.
  repeat call_step; try (split; [done|reflexivity]).
Qed.

Lemma create_file_once (name : string) (c : content) (s : state) :
  name ≠ "" → dirname name = "" →
  (files <- gets fs ;;
   (if negb (exists_ files name) then
      write_file name c ;;
      print ("✅ Created " +:+ name)
    else
      print ("⚠️ " +:+ name +:+ " already exists, skipping...")) ;;
   ret tt)%py s =
  (Ret (A:=unit) tt,
   match fs s !! name with
   | Some _ =>
       State (fs s) (out s ++ ["⚠️ " +:+ name +:+ " already exists, skipping..."])
   | None =>
       State (<[name := File c]> (fs s)) (out s ++ ["✅ Created " +:+ name])
   end).
Proof.
  intros Hne Hdir. unfold bind at 1, gets at 1. unfold exists_.
  rewrite (bool_decide_eq_false_2 (name = "")) by done. cbn [orb].
  destruct (fs s !! name) as [n|] eqn:Hn.
  - rewrite bool_decide_eq_true_2 by eauto. reflexivity.
  - rewrite bool_decide_eq_false_2 by (by intros [? ?]). cbn [negb].
    unfold bind at 1. unfold bind at 1, write_file.
    unfold bind at 1, gets at 1. rewrite Hdir.
    unfold isdir. rewrite Hn. rewrite (bool_decide_eq_false_2 (name = "")) by done.
    reflexivity.
Qed.

(** X25: [create_env_file] and [create_gitignore] never raise and never
    overwrite: an existing [.env] or [.gitignore] (file or directory) is kept
    as it is, a missing one is created with the fixed content, and no other
    path changes. *)
Theorem environment_files_never_overwritten (s : state) :
  (∃ s', Setup.create_env_file s = (Return tt, s')
     ∧ fs s' !! ".env" =
         Some (default (File (Text Setup.env_content)) (fs s !! ".env"))
     ∧ ∀ p, p ≠ ".env" → fs s' !! p = fs s !! p)
  ∧ (∃ s', Setup.create_gitignore s = (Return tt, s')
     ∧ fs s' !! ".gitignore" =
         Some (default (File (Text Setup.gitignore_content)) (fs s !! ".gitignore"))
     ∧ ∀ p, p ≠ ".gitignore" → fs s' !! p = fs s !! p).
Proof.
  split.
  - unfold Setup.create_env_file, def. cbv zeta.
    rewrite create_file_once by done.
    destruct (fs s !! ".env") as [n|] eqn:Hn; eexists; (split; [reflexivity|]);
      cbn [fs default].
    + by rewrite Hn.
    + split; [by rewrite lookup_insert_eq|].
      intros p Hp. by rewrite lookup_insert_ne.
  - unfold Setup.create_gitignore, def. cbv zeta.
    rewrite create_file_once by done.
    destruct (fs s !! ".gitignore") as [n|] eqn:Hn; eexists;
      (split; [reflexivity|]); cbn [fs default].
    + by rewrite Hn.
    + split; [by rewrite lookup_insert_eq|].
      intros p Hp. by rewrite lookup_insert_ne.
Qed.

Import Setup SetupSpec.

Lemma mkdir_exist_ok {R} (name : string) (s : state) :
  name ≠ "" → isdir (fs s) (dirname name) = true → no_file (fs s) name →
  try_except (R:=R) (mkdir name) is_os_error
    (λ e,
       files <- gets fs ;;
       if negb (isdir files name) then raise e else next tt) s =
  (Next tt, State (<[name := Dir]> (fs s)) (out s)).
Proof.
  intros Hne Hparent Hfile. unfold try_except, mkdir.
  unfold bind at 1, gets at 1. rewrite bool_decide_eq_false_2 by done.
  unfold exists_ at 1. rewrite (bool_decide_eq_false_2 (name = "")) by done.
  cbn [orb].
  destruct (fs s !! name) as [[|c]|] eqn:Hn.
  - rewrite bool_decide_eq_true_2 by eauto. unfold raise. cbn [is_os_error].
    rewrite bool_decide_eq_true_2 by (by apply (bool_decide_eq_true_1 _)).
    unfold bind, gets. rewrite (isdir_Dir _ _ Hn). cbn [negb]. unfold next.
    rewrite insert_id by done. by destruct s.
  - by destruct (Hfile c).
  - rewrite bool_decide_eq_false_2 by (by intros [? ?]).
    rewrite Hparent. reflexivity.
Qed.

Lemma makedirs_top (fuel : nat) (name : string) (s : state) :
  name ≠ "" → basename name ≠ "" → dirname name = "" →
  no_file (fs s) name →
  makedirs_from (R:=bool) (S fuel) name s =
    (Next tt, State (<[name := Dir]> (fs s)) (out s)).
Proof.
  intros Hne Hbase Hdir Hfile. cbn [makedirs_from]. cbv zeta.
  rewrite (bool_decide_eq_false_2 (basename name = "")) by done.
  rewrite Hdir. rewrite (bool_decide_eq_true_2 ("" = "")) by done.
  cbn [negb andb]. unfold bind at 1, gets at 1. unfold bind at 1, next at 1.
  apply mkdir_exist_ok; [done| |done]. by rewrite Hdir.
Qed.

Lemma makedirs_nested (fuel : nat) (name head : string) (s : state) :
  name ≠ "" → basename name ≠ "" → basename name ≠ "." →
  dirname name = head →
  head ≠ "" → basename head ≠ "" → dirname head = "" →
  name ≠ head →
  no_file (fs s) head → no_file (fs s) name →
  makedirs_from (R:=bool) (S (S fuel)) name s =
    (Next tt, State (<[name := Dir]> (<[head := Dir]> (fs s))) (out s)).
Proof.
  intros Hne Hbase Hdot Hdir Hhne Hhbase Hhdir Hnh Hhfile Hfile.
  change (makedirs_from (S (S fuel)) name)
    with (let head := if bool_decide (basename name = "")
                      then dirname (dirname name) else dirname name in
          let tail := if bool_decide (basename name = "")
                      then basename (dirname name) else basename name in
          files <- gets fs ;;
          finished <-
            (if negb (bool_decide (head = "")) && negb (bool_decide (tail = ""))
                && negb (exists_ files head)
             then
               try_except (makedirs_from (R:=bool) (S fuel) head)
                 is_file_exists_error (λ _, next tt) ;;
               next (bool_decide (tail = "."))
             else next false) ;;
          if finished : bool then next tt
          else
            try_except (mkdir name) is_os_error
              (λ e,
                 files <- gets fs ;;
                 if negb (isdir files name) then raise e else next tt))%py.
  cbv zeta.
  rewrite (bool_decide_eq_false_2 (basename name = "")) by done.
  rewrite Hdir. rewrite (bool_decide_eq_false_2 (head = "")) by done.
  rewrite (bool_decide_eq_false_2 (basename name = "")) by done.
  rewrite (bool_decide_eq_false_2 (basename name = ".")) by done.
  cbn [negb andb]. unfold bind at 1, gets at 1.
  unfold exists_. rewrite (bool_decide_eq_false_2 (head = "")) by done.
  cbn [orb].
  destruct (fs s !! head) as [[|c]|] eqn:Hh.
  - rewrite (bool_decide_eq_true_2 (is_Some (Some Dir))) by done. cbn [negb].
    unfold bind at 1, next at 1.
    rewrite mkdir_exist_ok; [|done| |done].
    + by rewrite (insert_id (fs s) head Dir).
    + rewrite Hdir. by apply isdir_Dir.
  - by destruct (Hhfile c).
  - rewrite bool_decide_eq_false_2 by (by intros [? ?]). cbn [negb].
    unfold bind at 1. unfold bind at 1. unfold try_except at 1.
    rewrite makedirs_top by (done || by intros c; rewrite Hh).
    unfold next at 1.
    rewrite mkdir_exist_ok; cbn [fs out].
    + done.
    + done.
    + rewrite Hdir. apply isdir_Dir. by rewrite lookup_insert_eq.
    + intros c. rewrite lookup_insert_ne by done. apply Hfile.
Qed.

Lemma no_file_insert (files : FS) (q p : string) :
  no_file files p → no_file (<[q := Dir]> files) p.
Proof.
  intros H c. destruct (decide (q = p)) as [->|Hne].
  - by rewrite lookup_insert_eq.
  - rewrite lookup_insert_ne by done. apply H.
Qed.

Lemma with_dirs_lookup (files : FS) (ps : list string) (p : string) :
  with_dirs files ps !! p = if decide (p ∈ ps) then Some Dir else files !! p.
Proof.
  unfold with_dirs. revert files. induction ps as [|q ps IH]; intros files.
  - simpl. destruct (decide (p ∈ [])) as [Hin|]; [|done].
    by apply elem_of_nil in Hin.
  - cbn [foldl]. rewrite IH.
    destruct (decide (p ∈ ps)) as [Hin|Hnin],
      (decide (p ∈ q :: ps)) as [Hin'|Hnin']; try done.
    + exfalso. apply Hnin'. by right.
    + apply elem_of_cons in Hin' as [->|?]; [by rewrite lookup_insert_eq|done].
    + rewrite lookup_insert_ne; [done|]. intros <-. apply Hnin'. left.
Qed.

Lemma made_step {B} (n : nat) (name line : string) (files : FS)
    (k : unit → M state bool B) (s : state) :
  makedirs_from (R:=bool) n name s = (Next tt, State files (out s)) →
  bind (makedirs_from n name ;; print line) k s =
    k tt (State files (out s ++ [line])).
Proof. intros H. unfold bind at 1. unfold bind at 1. by rewrite H. Qed.

Lemma create_directory_structure_run (s : state) :
  (∀ p, p ∈ tree → no_file (fs s) p) →
  create_directory_structure s =
    (Return true,
     State (with_dirs (fs s)
              [ "static"; "static/css"; "static"; "static/js"; "static";
                "static/images"; "templates"; "data"; "build" ])
           (out s ++ "📁 Creating directory structure..."
                  :: ((λ d, "  Created: " +:+ d +:+ "/") <$> directories))%list).
Proof.
  intros Hfree.
  assert (Hstatic : no_file (fs s) "static")
    by (apply Hfree; by apply (bool_decide_eq_true_1 _)).
  assert (Hcss : no_file (fs s) "static/css")
    by (apply Hfree; by apply (bool_decide_eq_true_1 _)).
  assert (Hjs : no_file (fs s) "static/js")
    by (apply Hfree; by apply (bool_decide_eq_true_1 _)).
  assert (Himg : no_file (fs s) "static/images")
    by (apply Hfree; by apply (bool_decide_eq_true_1 _)).
  assert (Htpl : no_file (fs s) "templates")
    by (apply Hfree; by apply (bool_decide_eq_true_1 _)).
  assert (Hdata : no_file (fs s) "data")
    by (apply Hfree; by apply (bool_decide_eq_true_1 _)).
  assert (Hbuild : no_file (fs s) "build")
    by (apply Hfree; by apply (bool_decide_eq_true_1 _)).
  unfold create_directory_structure, def, directories.
  unfold bind at 1, print at 1, modify. cbn [for_each].
  unfold makedirs. cbn [String.length].
  unfold bind at 1.
  erewrite made_step; last first.
  { apply (makedirs_nested 9 "static/css" "static"); done. }
  cbn [fs out].
  erewrite made_step; last first.
  { apply (makedirs_nested 8 "static/js" "static"); try done;
      cbn [fs]; auto using no_file_insert. }
  cbn [fs out].
  erewrite made_step; last first.
  { apply (makedirs_nested 12 "static/images" "static"); try done;
      cbn [fs]; auto 10 using no_file_insert. }
  cbn [fs out].
  erewrite made_step; last first.
  { apply (makedirs_top 9 "templates"); try done;
      cbn [fs]; auto 10 using no_file_insert. }
  cbn [fs out].
  erewrite made_step; last first.
  { apply (makedirs_top 4 "data"); try done;
      cbn [fs]; auto 10 using no_file_insert. }
  cbn [fs out].
  erewrite made_step; last first.
  { apply (makedirs_top 5 "build"); try done;
      cbn [fs]; auto 12 using no_file_insert. }
  cbn [fs out]. unfold next, ret. cbn [fmap list_fmap].
  f_equal. f_equal. by rewrite <-!app_assoc.
Qed.

Lemma tree_order (p : string) :
  p ∈ [ "static"; "static/css"; "static"; "static/js"; "static";
        "static/images"; "templates"; "data"; "build" ] ↔ p ∈ tree.
Proof. unfold tree. rewrite !elem_of_cons, !elem_of_nil. tauto. Qed.

(** X26: when no regular file is in the way, [create_directory_structure]
    returns [True] with the six directories and the parent [static] in place,
    changes no other path, and running it again changes nothing. *)
Theorem create_directory_structure_makes_tree (s : state) :
  (∀ p, p ∈ tree → no_file (fs s) p) →
  ∃ s' s'',
    create_directory_structure s = (Return true, s')
    ∧ (∀ p, p ∈ tree → fs s' !! p = Some Dir)
    ∧ (∀ p, p ∉ tree → fs s' !! p = fs s !! p)
    ∧ create_directory_structure s' = (Return true, s'')
    ∧ fs s'' = fs s'.
Proof.
  intros Hfree. rewrite (create_directory_structure_run s Hfree).
  eexists. eexists. split; [reflexivity|]. cbn [fs out].
  assert (Htree : ∀ p, p ∈ tree →
            with_dirs (fs s)
              [ "static"; "static/css"; "static"; "static/js"; "static";
                "static/images"; "templates"; "data"; "build" ] !! p = Some Dir).
  { intros p Hp. rewrite with_dirs_lookup, decide_True; [done|].
    by apply tree_order. }
  split; [exact Htree|]. split.
  { intros p Hp. rewrite with_dirs_lookup, decide_False; [done|].
    by rewrite tree_order. }
  split.
  { apply create_directory_structure_run. cbn [fs].
    intros p Hp c. by rewrite (Htree p Hp). }
  cbn [fs]. apply map_eq. intros p. rewrite (with_dirs_lookup (with_dirs _ _)).
  destruct (decide _) as [Hin|Hnin]; [|done].
  symmetry. apply Htree. by apply tree_order.
Qed.

Lemma create_directory_structure_makes_tree_witness :
  (∀ p, p ∈ tree → no_file (fs configured) p)
  ∧ ∃ s' s'',
      create_directory_structure configured = (Return true, s')
      ∧ (∀ p, p ∈ tree → fs s' !! p = Some Dir)
      ∧ (∀ p, p ∉ tree → fs s' !! p = fs configured !! p)
      ∧ create_directory_structure s' = (Return true, s'')
      ∧ fs s'' = fs s'.
Proof.
  assert (Hfree : ∀ p, p ∈ tree → no_file (fs configured) p).
  { intros p. unfold tree. rewrite !elem_of_cons, elem_of_nil.
    intros [->|[->|[->|[->|[->|[->|[->|[]]]]]]]] c; done. }
  split; [exact Hfree|].
  apply (create_directory_structure_makes_tree configured). exact Hfree.
Defined.

Lemma tuple_lt_3_7 (major minor : Z) (rest : list Z) :
  tuple_lt (major :: minor :: rest) [3; 7]%Z
  = bool_decide (major < 3 ∨ major = 3 ∧ minor < 7)%Z.
Proof.
  cbn [tuple_lt].
  destruct (major <? 3)%Z eqn:H1; [by rewrite bool_decide_eq_true_2 by lia|].
  destruct (3 <? major)%Z eqn:H2; [by rewrite bool_decide_eq_false_2 by lia|].
  destruct (minor <? 7)%Z eqn:H3; [by rewrite bool_decide_eq_true_2 by lia|].
  destruct (7 <? minor)%Z eqn:H4; [by rewrite bool_decide_eq_false_2 by lia|].
  destruct rest; by rewrite bool_decide_eq_false_2 by lia.
Qed.

(** X27: [check_python_version] accepts exactly the versions from 3.7 on,
    whatever follows the minor number.  A rejected version is reported and
    answered [False]; an accepted one is answered [True] after printing the
    first word of [sys.version], and raises [IndexError] when there is no
    such word. *)
Theorem check_python_version_threshold (major minor : Z) (rest : list Z)
    (version : string) (s : state) :
  check_python_version (major :: minor :: rest) version s =
    if bool_decide (major < 3 ∨ major = 3 ∧ minor < 7)%Z then
      (Return false,
       State (fs s) (out s ++ ["❌ Python 3.7 or higher is required"])%list)
    else
      match split version with
      | word :: _ =>
          (Return true,
           State (fs s) (out s ++ ["✅ Python " +:+ word +:+ " detected"])%list)
      | [] => (Raise (IndexError "list index out of range"), s)
      end.
Proof.
  unfold check_python_version, def. rewrite tuple_lt_3_7.
  case_bool_decide; [reflexivity|].
  unfold bind at 1. unfold next at 1. unfold bind at 1.
  by destruct (split version).
Qed.

(** X28: [test_flask_app] never raises, and answers [True] exactly when
    the test client's request for [/] comes back with status 200. *)
Theorem test_flask_app_never_raises (client_get : string → Fn state Z)
    (s : state) :
  ∃ ok s',
    test_flask_app client_get s = (Return ok, s')
    ∧ (ok = true ↔
       (client_get "/"
          (State (fs s) (out s ++ ["🧪 Testing Flask application..."])%list)).1
       = Return 200%Z).
Proof.
  unfold test_flask_app, def. unfold bind at 1, print at 1, modify.
  unfold try_except. unfold bind at 1, from_app_import.
  rewrite bool_decide_eq_true_2 by (by apply (bool_decide_eq_true_1 _)).
  unfold next at 1. unfold bind at 1, invoke.
  destruct (client_get "/" _) as [[z|e] s1]; cbn [fst].
  - case_bool_decide as Hz.
    + subst z. do 2 eexists. split; [reflexivity|]. done.
    + do 2 eexists. split; [reflexivity|]. split; [done|]. by intros [= ?].
  - do 2 eexists. split; [reflexivity|]. done.
Qed.

Import Wsgi.

(** X29: started through [wsgi.py], the application always gets the
    production configuration, whatever the environment held before: debug
    off and the database at a path that is not below the project path that
    [wsgi.py] adds.  Without the variable it gets debug on and the relative
    [data/site.db]. *)
Theorem wsgi_selects_production (p : process) :
  (wsgi p).2 = Settings false "/home/yourusername/freaknfries/data/site.db"
  ∧ String.prefix project_path (DATABASE (wsgi p).2) = false
  ∧ environ (wsgi p).1 !! "PYTHONANYWHERE_DOMAIN"
    = Some "DutchYankee.pythonanywhere.com"
  ∧ app_configuration
      (Process (delete "PYTHONANYWHERE_DOMAIN" (environ p)) (sys_path p))
    = Settings true "data/site.db".
Proof.
  assert (Hcfg : (wsgi p).2
            = Settings false "/home/yourusername/freaknfries/data/site.db").
  { unfold wsgi, app_configuration. cbn [snd environ].
    rewrite bool_decide_eq_true_2; [done|].
    apply elem_of_dom. rewrite lookup_insert_eq. eauto. }
  split; [exact Hcfg|]. split; [by rewrite Hcfg|].
  split.
  - unfold wsgi. cbn [fst environ]. by rewrite lookup_insert_eq.
  - unfold app_configuration. cbn [environ].
    rewrite bool_decide_eq_false_2; [done|].
    rewrite elem_of_dom, lookup_delete_eq. by intros [? ?].
Qed.

(** X30: running [wsgi.py] a second time changes nothing.  After a run the
    project path is on [sys.path], and the entries that were there before
    are still at its end, in their order. *)
Theorem wsgi_reload_changes_nothing (p : process) :
  wsgi (wsgi p).1 = wsgi p
  ∧ project_path ∈ sys_path (wsgi p).1
  ∧ sys_path p `suffix_of` sys_path (wsgi p).1.
Proof.
  assert (Hin : project_path ∈ sys_path (wsgi p).1).
  { unfold wsgi. cbn [fst sys_path]. case_bool_decide as H; [left|done]. }
  split; [|split; [exact Hin|]].
  - unfold wsgi at 1. rewrite bool_decide_eq_false_2 by (intros H; by apply H).
    unfold wsgi. cbn [fst environ sys_path]. by rewrite insert_insert_eq.
  - unfold wsgi. cbn [fst sys_path]. case_bool_decide.
    + by apply suffix_cons_r.
    + done.
Qed.

